(** * Duplicate detection and removal: the pipeline of [app.py]

    A shallow embedding of the core of the Streamlit application
    ([generate_hash], [detect_duplicates], [remove_duplicates],
    [generate_report], [save_data] and the handler of the "Detect and Remove
    Duplicates" button) together with the properties its specification
    states about it.  [import_data], [detect_encoding] and the script that
    lays out the page follow the scenarios.

    Python lists are mutable objects: the embedding keeps them in a store
    indexed by object identity, and the functions run in a small state and
    exception monad over that store.  Dictionaries and sets that stay local
    to one call are threaded through the loops as values. *)

From Stdlib Require Import NArith ZArith List Ascii String DecimalString.
From Stdlib Require Import DecimalNat DecimalFacts.
From stdpp Require Import base strings list gmap sorting.

Set Warnings "-clear-no-such-hyp".

(** ** MD5 (RFC 1321), the digest behind [hashlib.md5] *)

Module MD5.
Local Open Scope N_scope.

Definition mask32 : N := 0xffffffff.
Definition add32 (x y : N) : N := N.land (x + y) mask32.
Definition not32 (x : N) : N := N.lxor x mask32.
Definition rotl32 (x n : N) : N :=
  N.lor (N.land (N.shiftl x n) mask32) (N.shiftr x (32 - n)).

(** Per-round left-rotation amounts. *)
Definition shifts : list N :=
  [7; 12; 17; 22; 7; 12; 17; 22; 7; 12; 17; 22; 7; 12; 17; 22;
   5; 9; 14; 20; 5; 9; 14; 20; 5; 9; 14; 20; 5; 9; 14; 20;
   4; 11; 16; 23; 4; 11; 16; 23; 4; 11; 16; 23; 4; 11; 16; 23;
   6; 10; 15; 21; 6; 10; 15; 21; 6; 10; 15; 21; 6; 10; 15; 21].

(** [floor (2^32 * |sin (i + 1)|)] for [i] from 0 to 63. *)
Definition sines : list N :=
  [0xd76aa478; 0xe8c7b756; 0x242070db; 0xc1bdceee;
   0xf57c0faf; 0x4787c62a; 0xa8304613; 0xfd469501;
   0x698098d8; 0x8b44f7af; 0xffff5bb1; 0x895cd7be;
   0x6b901122; 0xfd987193; 0xa679438e; 0x49b40821;
   0xf61e2562; 0xc040b340; 0x265e5a51; 0xe9b6c7aa;
   0xd62f105d; 0x02441453; 0xd8a1e681; 0xe7d3fbc8;
   0x21e1cde6; 0xc33707d6; 0xf4d50d87; 0x455a14ed;
   0xa9e3e905; 0xfcefa3f8; 0x676f02d9; 0x8d2a4c8a;
   0xfffa3942; 0x8771f681; 0x6d9d6122; 0xfde5380c;
   0xa4beea44; 0x4bdecfa9; 0xf6bb4b60; 0xbebfbc70;
   0x289b7ec6; 0xeaa127fa; 0xd4ef3085; 0x04881d05;
   0xd9d4d039; 0xe6db99e5; 0x1fa27cf8; 0xc4ac5665;
   0xf4292244; 0x432aff97; 0xab9423a7; 0xfc93a039;
   0x655b59c3; 0x8f0ccc92; 0xffeff47d; 0x85845dd1;
   0x6fa87e4f; 0xfe2ce6e0; 0xa3014314; 0x4e0811a1;
   0xf7537e82; 0xbd3af235; 0x2ad7d2bb; 0xeb86d391].

(** Little-endian packing of bytes into a word, and back. *)
Fixpoint le_word (bs : list N) : N :=
  match bs with
  | [] => 0
  | b :: bs' => b + 256 * le_word bs'
  end.

Fixpoint le_bytes (n : nat) (w : N) : list N :=
  match n with
  | O => []
  | S n' => N.land w 0xff :: le_bytes n' (N.shiftr w 8)
  end.

(** Padding: one 0x80 byte, zero bytes up to 56 modulo 64, then the
    length in bits as a 64-bit little-endian integer. *)
Definition pad (msg : list N) : list N :=
  let len := N.of_nat (length msg) in
  let zeros := N.to_nat ((55 + 64 - len mod 64) mod 64) in
  msg ++ [0x80] ++ repeat 0 zeros
      ++ le_bytes 8 (N.land (8 * len) 0xffffffffffffffff).

Fixpoint chunks (fuel : nat) (sz : nat) (bs : list N) : list (list N) :=
  match fuel with
  | O => []
  | S fuel' =>
      match bs with
      | [] => []
      | _ => take sz bs :: chunks fuel' sz (drop sz bs)
      end
  end.

Definition words_of_block (block : list N) : list N :=
  le_word <$> chunks 16 4 block.

Record regs := Regs { rA : N; rB : N; rC : N; rD : N }.

Definition init : regs :=
  Regs 0x67452301 0xefcdab89 0x98badcfe 0x10325476.

Definition round (M : list N) (r : regs) (i : nat) : regs :=
  let '(Regs A B C D) := r in
  let '(F, g) :=
    if decide (i < 16)%nat then
      (N.lor (N.land B C) (N.land (not32 B) D), i)
    else if decide (i < 32)%nat then
      (N.lor (N.land D B) (N.land (not32 D) C), (5 * i + 1) mod 16)%nat
    else if decide (i < 48)%nat then
      (N.lxor (N.lxor B C) D, (3 * i + 5) mod 16)%nat
    else
      (N.lxor C (N.lor B (not32 D)), (7 * i) mod 16)%nat in
  let F' := add32 (add32 (add32 F A) (nth i sines 0)) (nth g M 0) in
  Regs D (add32 B (rotl32 F' (nth i shifts 0))) B C.

Definition compress (h : regs) (block : list N) : regs :=
  let r := fold_left (round (words_of_block block)) (seq 0 64) h in
  Regs (add32 (rA h) (rA r)) (add32 (rB h) (rB r))
       (add32 (rC h) (rC r)) (add32 (rD h) (rD r)).

Definition digest (msg : list N) : list N :=
  let p := pad msg in
  let h := fold_left compress (chunks (length p) 64 p) init in
  le_bytes 4 (rA h) ++ le_bytes 4 (rB h)
    ++ le_bytes 4 (rC h) ++ le_bytes 4 (rD h).

Definition hex_digit (n : N) : ascii :=
  nth (N.to_nat n) (list_ascii_of_string "0123456789abcdef") "0"%char.

Definition hex_of_byte (b : N) : list ascii :=
  [hex_digit (b / 16); hex_digit (b mod 16)].

Definition hexdigest (msg : list N) : string :=
  string_of_list_ascii (concat (hex_of_byte <$> digest msg)).
End MD5.

(** ** Strings and scalar values

    A Python [str] is represented by the string of its UTF-8 bytes, so
    [value.encode('utf-8')] reads the bytes off.  A [str] that has no
    UTF-8 encoding (one with a lone surrogate), on which [encode] raises,
    has no such representation: the strings here are those that can be
    hashed. *)

Definition encode_utf8 (s : string) : list N :=
  N_of_ascii <$> list_ascii_of_string s.

(** [generate_hash(value)]: [hashlib.md5(value.encode('utf-8')).hexdigest()]. *)
Definition generate_hash (value : string) : string :=
  MD5.hexdigest (encode_utf8 value).

(** Python writes its bound checks as [len(row) > column_index]. *)
Global Instance nat_gt_dec : RelDecision gt := λ n m, decide (m < n).

(** The [str()] protocol: what the pipeline asks of a cell value. *)
Class Str (A : Type) := str : A → string.
Global Hint Mode Str ! : typeclass_instances.

Global Instance nat_str : Str nat :=
  λ n, NilEmpty.string_of_uint (Nat.to_uint n).

(** What pandas does to a column when it builds a [DataFrame]: it infers
    one dtype for the column and converts the values to it.  Next to a
    float an integer becomes a float (1 becomes 1.0), next to numbers
    [None] becomes [nan]; a column of text, or one that mixes text with
    numbers, is kept as it is.  [inferred column v] is what the value [v]
    of a column holding [column] becomes.  The inference is pandas', taken
    as given. *)
Class Infer (A : Type) := inferred : list A → A → A.
Global Hint Mode Infer ! : typeclass_instances.

(** Scalars of the scenarios: integers, text and booleans.  The pipeline
    is stated for any type of cells with a [str()] and an inference;
    floats, [None] and timestamps, which [str()] and pandas treat by rules
    of their own, are further instances. *)
Inductive pyval :=
  | PyInt (z : Z)
  | PyStr (s : string)
  | PyBool (b : bool).

Global Instance pyval_str : Str pyval := λ v,
  match v with
  | PyInt z => NilZero.string_of_int (Z.to_int z)
  | PyStr s => s
  | PyBool true => "True"
  | PyBool false => "False"
  end.

(** A column of integers is of an integer dtype, a column of booleans of
    dtype [bool], any other column of these scalars of dtype [object]: in
    each case the values stay what they are. *)
Global Instance pyval_infer : Infer pyval := λ column v, v.

(** ** Insertion-ordered dictionaries ([dict], [Counter]) *)

Section dict.
Context {K V : Type} `{!EqDecision K}.

Definition dict := list (K * V).

Fixpoint dict_get (k : K) (d : dict) : option V :=
  match d with
  | [] => None
  | (k', v) :: d' => if decide (k = k') then Some v else dict_get k d'
  end.

(** [d[k] = v]: an existing key keeps its position. *)
Fixpoint dict_set (k : K) (v : V) (d : dict) : dict :=
  match d with
  | [] => [(k, v)]
  | (k', v') :: d' =>
      if decide (k = k') then (k, v) :: d' else (k', v') :: dict_set k v d'
  end.

Definition dict_keys (d : dict) : list K := d.*1.
Definition dict_items (d : dict) : list (K * V) := d.
End dict.
Global Arguments dict : clear implicits.

(** [Counter(iterable)]: one increment per element, in order. *)
Definition Counter (xs : list string) : dict string nat :=
  fold_left (λ d x, dict_set x (default 0 (dict_get x d) + 1) d) xs [].

(** ** The object store and the monad of the pipeline *)

Definition loc := positive.

(** The exceptions of the list and dictionary operations, and the
    exceptions the libraries throw, kept as the text [str(e)] shows. *)
Inductive exn := IndexError | KeyError | TypeError | LibraryError (e : string).

(** What a call into a library gives: a value, or an exception, kept as the
    text [str(e)] shows. *)
Inductive attempt (A : Type) :=
  | Returned (a : A)
  | Thrown (e : string).
Global Arguments Returned {A} a.
Global Arguments Thrown {A} e.

Section pipeline.
Context {cell : Type} `{!Str cell} `{!Infer cell}.

(** A list object holds either the cells of one row or references to rows. *)
Inductive obj :=
  | Row (cells : list cell)
  | Rows (items : list loc).

(** The store maps object identities to list objects. *)
Local Abbreviation store := (gmap loc obj).

Inductive result (A : Type) :=
  | Ok (a : A) (σ : store)
  | Raise (e : exn).
Global Arguments Ok {A} a σ.
Global Arguments Raise {A} e.

Definition M (A : Type) : Type := store → result A.

Global Instance M_ret : MRet M := λ A a σ, Ok a σ.
Global Instance M_bind : MBind M := λ A B f m σ,
  match m σ with
  | Ok a σ' => f a σ'
  | Raise e => Raise e
  end.
Definition raise {A} (e : exn) : M A := λ _, Raise e.

(** A library call outside any [try]: what it throws is raised. *)
Definition call {A} (a : attempt A) : M A := λ σ,
  match a with
  | Returned x => Ok x σ
  | Thrown e => Raise (LibraryError e)
  end.

(** [for x in xs: s = body(x, s)] *)
Fixpoint for_each {A S} (xs : list A) (body : A → S → M S) (s : S) : M S :=
  match xs with
  | [] => mret s
  | x :: xs' => s' ← body x s; for_each xs' body s'
  end.

(** *** List primitives *)

(** [[]]: a new list object. *)
Definition new_list : M loc := λ σ,
  let l := fresh (dom σ) in Ok l (<[l := Rows []]> σ).

(** The items of a list of rows, as a forward iteration reads them: the
    bodies of the [for] loops over [data] change no list, so the items
    read when the loop starts are the items it visits. *)
Definition items (l : loc) : M (list loc) := λ σ,
  match σ !! l with
  | Some (Rows ls) => Ok ls σ
  | _ => Raise TypeError
  end.

(** [len(l)] *)
Definition len (l : loc) : M nat := λ σ,
  match σ !! l with
  | Some (Row cs) => Ok (length cs) σ
  | Some (Rows ls) => Ok (length ls) σ
  | None => Raise TypeError
  end.

(** [row[i]] for [i >= 0] *)
Definition getitem (row : loc) (i : nat) : M cell := λ σ,
  match σ !! row with
  | Some (Row cs) =>
      match cs !! i with
      | Some v => Ok v σ
      | None => Raise IndexError
      end
  | _ => Raise TypeError
  end.

(** [data[i]] on a list of rows *)
Definition getrow (data : loc) (i : nat) : M loc := λ σ,
  match σ !! data with
  | Some (Rows ls) =>
      match ls !! i with
      | Some r => Ok r σ
      | None => Raise IndexError
      end
  | _ => Raise TypeError
  end.

(** [reversed(data)]: an iterator, given by the number of items it has
    yet to visit. *)
Definition reversed (data : loc) : M nat := len data.

(** [for row in it: s = body(row, s)] with [it] a [reversed(data)] that has
    [i] items to visit: every step reads the list anew, and the iterator
    stops at an index the list no longer has. *)
Fixpoint for_reversed {S} (data : loc) (i : nat) (body : loc → S → M S)
    (s : S) : M S :=
  match i with
  | 0 => mret s
  | S i' =>
      n ← len data;
      if decide (i' < n) then
        row ← getrow data i';
        s' ← body row s;
        for_reversed data i' body s'
      else mret s
  end.

(** [l.append(row)] *)
Definition append (l row : loc) : M unit := λ σ,
  match σ !! l with
  | Some (Rows ls) => Ok () (<[l := Rows (ls ++ [row])]> σ)
  | _ => Raise TypeError
  end.

(** [l.reverse()] *)
Definition reverse_in_place (l : loc) : M unit := λ σ,
  match σ !! l with
  | Some (Rows ls) => Ok () (<[l := Rows (reverse ls)]> σ)
  | _ => Raise TypeError
  end.

(** [d[k]] on a local dictionary *)
Definition lookup_key {V} (d : gmap string V) (k : string) : M V :=
  match d !! k with
  | Some v => mret v
  | None => raise KeyError
  end.

(** *** The pipeline

    [column_index] is a natural number: the handler passes on only indices
    it has checked to be non-negative. *)

Definition detect_duplicates (data : loc) (column_index : nat)
  : M (dict string nat) :=
  rows ← items data;
  column_data ← for_each rows (λ row acc,
      n ← len row;
      if decide (n > column_index) then
        item ← getitem row column_index;
        mret (acc ++ [item])
      else mret acc) [];
  let hashed_data := (λ item, generate_hash (str item)) <$> column_data in
  let occurrences := Counter hashed_data in
  let duplicates :=
    filter (λ '(hash_value, count), count > 1) (dict_items occurrences) in
  mret duplicates.

Definition remove_duplicates (data : loc) (column_index : nat) : M loc :=
  unique_data ← new_list;
  data_reversed ← reversed data;
  for_reversed data data_reversed (λ row (seen_hashes : gset string),
      n ← len row;
      if decide (n > column_index) then
        item ← getitem row column_index;
        let item_hash := generate_hash (str item) in
        if decide (item_hash ∉ seen_hashes) then
          append unique_data row;;
          mret ({[item_hash]} ∪ seen_hashes)
        else mret seen_hashes
      else mret seen_hashes) ∅;;
  reverse_in_place unique_data;;
  mret unique_data.

Record report_row := ReportRow {
  Value : cell;
  Count : nat;
  Line_Numbers : string;
}.

Definition generate_report_scan (duplicates : dict string nat)
    (data : loc) (column_index : nat)
  : M (gmap string cell * gmap string (list nat)) :=
  rows ← items data;
  for_each (imap pair rows) (λ '(idx, row) '(reverse_lookup, line_numbers),
      n ← len row;
      if decide (n > column_index) then
        item ← getitem row column_index;
        let item_hash := generate_hash (str item) in
        value ← getitem row column_index;
        if decide (item_hash ∈ dict_keys duplicates) then
          let reverse_lookup := <[item_hash := value]> reverse_lookup in
          let line_numbers :=
            if decide (item_hash ∉ dom line_numbers)
            then <[item_hash := []]> line_numbers else line_numbers in
          lines ← lookup_key line_numbers item_hash;
          mret (reverse_lookup,
               <[item_hash := lines ++ [idx + 1]]> line_numbers)
        else mret (reverse_lookup, line_numbers)
      else mret (reverse_lookup, line_numbers)) (∅, ∅).

Definition generate_report_emit (duplicates : dict string nat)
    (reverse_lookup : gmap string cell)
    (line_numbers : gmap string (list nat)) : M (list report_row) :=
  for_each (dict_items duplicates) (λ '(hash_value, count) report_data,
      value ← lookup_key reverse_lookup hash_value;
      lines ← lookup_key line_numbers hash_value;
      mret (report_data ++
             [ReportRow value count (String.concat ", " (str <$> lines))]))
    [].

(** [pd.DataFrame(report_data)]: the records in their order, one column
    per field.  [Count] holds integers and [Line Numbers] text, which the
    inference keeps; the values of [Value] are converted to the dtype
    inferred for that column. *)
Definition DataFrame (report_data : list report_row) : list report_row :=
  let values := Value <$> report_data in
  (λ r, ReportRow (inferred values (Value r)) (Count r) (Line_Numbers r))
    <$> report_data.

Definition generate_report (duplicates : dict string nat)
    (data : loc) (column_index : nat) : M (list report_row) :=
  '(reverse_lookup, line_numbers) ←
    generate_report_scan duplicates data column_index;
  report_data ← generate_report_emit duplicates reverse_lookup line_numbers;
  mret (DataFrame report_data).

(** *** Export and the button handler *)

(** The writers are collaborators of the application, taken as given:
    [to_excel] is [pd.DataFrame(data)] written to a workbook by
    [DataFrame.to_excel], [to_csv] is [pd.DataFrame(data)] rendered by
    [DataFrame.to_csv] and encoded to UTF-8.  Either gives the bytes, or
    throws. *)
Context (to_excel : list (list cell) → attempt (list N)).
Context (to_csv : list (list cell) → attempt (list N)).

(** [s.endswith(suffix)] *)
Definition endswith (s suffix : string) : bool :=
  bool_decide (list_ascii_of_string suffix `suffix_of` list_ascii_of_string s).

(** The cells of a row, as [pd.DataFrame(data)] copies them. *)
Definition cells (row : loc) : M (list cell) := λ σ,
  match σ !! row with
  | Some (Row cs) => Ok cs σ
  | _ => Raise TypeError
  end.

Definition save_data (data : loc) (file_name : string)
  : M (option (list N)) :=
  rows ← items data;
  df ← for_each rows (λ row acc, cs ← cells row; mret (acc ++ [cs])) [];
  if endswith file_name ".xlsx" then
    output ← call (to_excel df); mret (Some output)
  else if endswith file_name ".csv" then
    output ← call (to_csv df); mret (Some output)
  else mret None.

(** What the handler puts on the page. *)
Inductive widget :=
  | st_error (body : string)
  | st_info (body : string)
  | st_subheader (body : string)
  | st_table (report : list report_row)
  | st_download_button (label : string) (content : option (list N))
      (file_name mime : string).

(** The body of [if st.button("Detect and Remove Duplicates"):], with
    [column_index] the number typed by the user minus one.  The result is
    what the block has put on the page when it returns; an exception of
    the export ends it, with the report already shown. *)
Definition button_handler (data : loc) (column_index : Z)
  : M (list widget) :=
  rejected ←
    (if decide (column_index < 0)%Z then mret true
     else
       first_row ← getrow data 0;
       n ← len first_row;
       mret (bool_decide (column_index >= Z.of_nat n)%Z));
  if rejected : bool then
    mret [st_error "The selected column does not exist."]
  else
    let column_index := Z.to_nat column_index in
    duplicates ← detect_duplicates data column_index;
    match duplicates with
    | _ :: _ =>
        report_df ← generate_report duplicates data column_index;
        unique_data ← remove_duplicates data column_index;
        let file_name := "data_without_duplicates.xlsx" in
        processed_data ← save_data unique_data file_name;
        mret [st_subheader "Duplicate Detection Report";
              st_table report_df;
              st_download_button "Download data without duplicates"
                processed_data file_name "application/octet-stream"]
    | [] => mret [st_info "No duplicates detected."]
    end.

End pipeline.

Global Arguments obj : clear implicits.
Abbreviation store cell := (gmap loc (obj cell)).
Global Arguments result : clear implicits.
Global Arguments M : clear implicits.
Global Arguments report_row : clear implicits.
Global Arguments widget : clear implicits.
Global Arguments generate_hash : simpl never.

(** ** Vocabulary of the specification

    The table a store holds, and the notions the properties are stated
    with.  None of this is code of the application. *)

Section vocabulary.
Context {cell : Type} `{!Str cell} `{!Infer cell}.

(** The cells of the row object at [l], and the items of the list of rows
    at [data]. *)
Definition row_of (σ : store cell) (l : loc) : option (list cell) :=
  match σ !! l with
  | Some (Row cs) => Some cs
  | _ => None
  end.

Definition rows_of (σ : store cell) (data : loc) : option (list loc) :=
  match σ !! data with
  | Some (Rows ls) => Some ls
  | _ => None
  end.

(** The table at [data]: its rows, dereferenced, in order. *)
Definition table_of (σ : store cell) (data : loc)
  : option (list (list cell)) :=
  ls ← rows_of σ data; mapM (row_of σ) ls.

(** The fingerprint of a cell: the digest of its string form. *)
Definition fingerprint (v : cell) : string := generate_hash (str v).

(** The cell of row [i] at column [c], when the row is wide enough. *)
Definition cell_at (T : list (list cell)) (c i : nat) : option cell :=
  row ← T !! i; row !! c.

(** The key of that cell. *)
Definition key_at (key : cell → string) (T : list (list cell)) (c i : nat)
  : option string :=
  key <$> cell_at T c i.

(** The key a row carries at column [c], if it is wide enough. *)
Definition row_key (key : cell → string) (c : nat) (row : list cell)
  : option string :=
  key <$> row !! c.

(** The keys of column [c], one per row wide enough, in table order. *)
Definition keys_of (key : cell → string) (T : list (list cell)) (c : nat)
  : list string :=
  omap (row_key key c) T.

(** The cells of column [c], one per row wide enough, in table order. *)
Definition column (T : list (list cell)) (c : nat) : list cell :=
  omap (.!! c) T.

(** The cells of column [c] whose fingerprint is [h]. *)
Definition cells_with (T : list (list cell)) (c : nat) (h : string)
  : list cell :=
  filter (λ v, fingerprint v = h) (column T c).

(** The tally of [h]: how many rows wide enough carry it at column [c]. *)
Definition tally (T : list (list cell)) (c : nat) (h : string) : nat :=
  length (cells_with T c h).

(** The 1-based line numbers of the rows carrying [h] at column [c], for a
    table whose first row has position [k]. *)
Fixpoint lines_from (k : nat) (T : list (list cell)) (c : nat) (h : string)
  : list nat :=
  match T with
  | [] => []
  | row :: T' =>
      (if decide (fingerprint <$> row !! c = Some h) then [k + 1] else [])
        ++ lines_from (S k) T' c h
  end.

Definition lines_with (T : list (list cell)) (c : nat) (h : string)
  : list nat :=
  lines_from 0 T c h.

(** Two rows of [T] agree under [key] at column [c], and [h] is the
    fingerprint they carry. *)
Definition duplicated (key : cell → string) (T : list (list cell))
    (c : nat) (h : string) : Prop :=
  ∃ i j k, i < j ∧ key_at key T c i = Some k ∧ key_at key T c j = Some k
           ∧ key_at fingerprint T c i = Some h.

(** Row [i] is the last row of [T] with its [key] at column [c]. *)
Definition last_occurrence (key : cell → string) (T : list (list cell))
    (c i : nat) : Prop :=
  ∃ k, key_at key T c i = Some k ∧ ∀ j, i < j → key_at key T c j ≠ Some k.

(** [T'] is [T] restricted to the last occurrence of every [key] at
    column [c], in the order of [T]. *)
Definition keeps_last_of_each (key : cell → string)
    (T : list (list cell)) (c : nat) (T' : list (list cell)) : Prop :=
  ∃ idxs : list nat,
    StronglySorted lt idxs
    ∧ Forall2 (λ i row, T !! i = Some row) idxs T'
    ∧ ∀ i, i ∈ idxs ↔ last_occurrence key T c i.

(** [T'] has exactly one row for every [key] of column [c] of [T], and no
    other row. *)
Definition one_row_per_key (key : cell → string)
    (T : list (list cell)) (c : nat) (T' : list (list cell)) : Prop :=
  Forall (λ row, c < length row) T'
  ∧ NoDup (keys_of key T' c)
  ∧ ∀ k, k ∈ keys_of key T' c ↔ k ∈ keys_of key T c.

(** No two different strings of column [c] share a digest. *)
Definition collision_free (T : list (list cell)) (c : nat) : Prop :=
  ∀ v w, v ∈ column T c → w ∈ column T c →
         fingerprint v = fingerprint w → str v = str w.

(** *** Reading the [Line Numbers] field back *)

Fixpoint split_on (sep : ascii) (s : string) : list string :=
  match s with
  | EmptyString => [EmptyString]
  | String a s' =>
      if decide (a = sep) then EmptyString :: split_on sep s'
      else match split_on sep s' with
           | w :: ws => String a w :: ws
           | [] => [String a EmptyString]
           end
  end.

Fixpoint lstrip (s : string) : string :=
  match s with
  | String a s' => if decide (a = " "%char) then lstrip s' else s
  | EmptyString => s
  end.

(** The comma-separated entries of a field, blanks after a comma dropped. *)
Definition comma_entries (s : string) : list string :=
  lstrip <$> split_on ","%char s.

Definition parse_nat (s : string) : option nat :=
  Nat.of_uint <$> NilZero.uint_of_string s.

(** The line numbers a [Line Numbers] field lists. *)
Definition listed_lines (s : string) : option (list nat) :=
  mapM parse_nat (comma_entries s).

(** The store in which row [i] has been taken out of the table at [data]. *)
Definition without_row (σ : store cell) (data : loc) (i : nat)
  : store cell :=
  match σ !! data with
  | Some (Rows ls) => <[data := Rows (delete i ls)]> σ
  | _ => σ
  end.

(** *** The properties, for a notion [key] of "the same value"

    The specification compares cells by their string form ([key := str]);
    the code compares them by fingerprint ([key := fingerprint]). *)

(** The detector returns exactly the fingerprints of values that two rows
    share. *)
Definition detector_sound (key : cell → string) (σ : store cell)
    (data : loc) (T : list (list cell)) (c : nat) : Prop :=
  ∃ dups,
    detect_duplicates data c σ = Ok dups σ
    ∧ ∀ h, (h ∈ dict_keys dups ↔ duplicated key T c h)
           ∧ (h ∈ dict_keys dups ↔ 1 < tally T c h).

(** The deduplicator returns a table with one row per value, the last one,
    in the original order. *)
Definition deduplicates (key : cell → string) (σ : store cell)
    (data : loc) (T : list (list cell)) (c : nat) : Prop :=
  ∃ out σ' T',
    remove_duplicates data c σ = Ok out σ'
    ∧ table_of σ' out = Some T'
    ∧ one_row_per_key key T c T'
    ∧ keeps_last_of_each key T c T'.

(** The inference keeps the values of a column as they are. *)
Definition kept_as_is (values : list cell) : Prop :=
  Forall (λ v, inferred values v = v) values.

(** The report has one row per entry of [dups]; its [Value] column is what
    the inference makes of [values], the cells [pick] selects among the
    cells carrying the fingerprint of each entry.  Where the inference
    keeps them, each row's [Value] is that cell itself. *)
Definition report_values (pick : list cell → option cell) (σ : store cell)
    (data : loc) (T : list (list cell)) (c : nat) (dups : dict string nat)
  : Prop :=
  ∃ report values,
    generate_report dups data c σ = Ok report σ
    ∧ Forall2 (λ entry v, pick (cells_with T c entry.1) = Some v) dups values
    ∧ Value <$> report = inferred values <$> values
    ∧ (kept_as_is values →
       Forall2 (λ entry r, pick (cells_with T c entry.1) = Some (Value r))
         dups report).



End vocabulary.

(** ** The pipeline as functions of the table

    What the loops compute, written on the table a store holds.  The run
    lemmas below connect the stateful functions to these. *)

Definition occurrences_of (h : string) (xs : list string) : nat :=
  length (filter (λ x, x = h) xs).

Section functional.
Context {cell : Type} `{!Str cell} `{!Infer cell}.

(** The rows a loop visits, each with the cells its object holds. *)
Definition rows_ok (σ : store cell) (xs : list (loc * list cell)) : Prop :=
  Forall (λ p, σ !! p.1 = Some (Row p.2)) xs.

(** The dictionary [detect_duplicates] returns. *)
Definition duplicates_of (T : list (list cell)) (c : nat) : dict string nat :=
  filter (λ '(hash_value, count), count > 1)
    (dict_items (Counter (fingerprint <$> column T c))).

(** What a record of [report_data] says about the entry of the dictionary
    it was made from. *)
Definition row_records (T : list (list cell)) (c : nat)
    (entry : string * nat) (r : report_row cell) : Prop :=
  last (cells_with T c entry.1) = Some (Value r)
  ∧ Count r = entry.2
  ∧ Line_Numbers r = String.concat ", " (str <$> lines_with T c entry.1).

(** What the row of the report says about it, [values] being the [Value]s
    of all records. *)
Definition row_reports (T : list (list cell)) (c : nat)
    (values : list cell) (entry : string * nat) (r : report_row cell)
  : Prop :=
  (∃ v, last (cells_with T c entry.1) = Some v
        ∧ Value r = inferred values v)
  ∧ Count r = entry.2
  ∧ Line_Numbers r = String.concat ", " (str <$> lines_with T c entry.1).

(** The elements the loop of [remove_duplicates] appends, visiting [xs]
    in the given order with [seen] already met. *)
Fixpoint scan_keep {A} (key : A → option string) (xs : list A)
    (seen : gset string) : list A :=
  match xs with
  | [] => []
  | x :: xs' =>
      match key x with
      | Some h =>
          if decide (h ∉ seen) then x :: scan_keep key xs' ({[h]} ∪ seen)
          else scan_keep key xs' seen
      | None => scan_keep key xs' seen
      end
  end.

(** The elements with no later element of the same key. *)
Fixpoint keep_last {A} (key : A → option string) (xs : list A) : list A :=
  match xs with
  | [] => []
  | x :: xs' =>
      match key x with
      | Some h =>
          if decide (h ∈ omap key xs') then keep_last key xs'
          else x :: keep_last key xs'
      | None => keep_last key xs'
      end
  end.

(** Position [i] holds the last element of [xs] with its key. *)
Definition is_last {A} (key : A → option string) (xs : list A) (i : nat)
  : Prop :=
  ∃ h, xs !! i ≫= key = Some h ∧ ∀ j, i < j → xs !! j ≫= key ≠ Some h.

End functional.

(** The characters [str()] renders a natural number with. *)
Definition is_digit (a : ascii) : Prop :=
  a ∈ list_ascii_of_string "0123456789".

(** ** The scenarios of the specification, as stores *)

(** A store holding [T]: the list of rows at location 1, row [i] at
    location [i + 2]. *)
Definition load {cell} (T : list (list cell)) : store cell :=
  let ls := Pos.of_nat <$> seq 2 (length T) in
  <[1%positive := Rows ls]> (list_to_map (zip ls (Row <$> T))).

Definition the_table : loc := 1%positive.

Definition scenario1 : list (list pyval) :=
  [[PyInt 1; PyStr "a"]; [PyInt 2; PyStr "b"];
   [PyInt 3; PyStr "a"]; [PyInt 4; PyStr "c"]].

Definition scenario3 : list (list pyval) :=
  [[PyInt 1; PyStr "a"]; [PyInt 2]].

(** A column where the number 1 is followed by the text "1". *)
Definition mixed_ones : list (list pyval) :=
  [[PyInt 1]; [PyStr "1"]].

(** Two different printable strings with the same MD5 digest. *)
Definition collider_a : string :=
  "TEXTCOLLBYfGiJUETHQ4hAcKSMd5zYpgqf1YRDhkmxHkhPWptrkoyz28wnI9V0aHeAuaKnak".
Definition collider_e : string :=
  "TEXTCOLLBYfGiJUETHQ4hEcKSMd5zYpgqf1YRDhkmxHkhPWptrkoyz28wnI9V0aHeAuaKnak".

Definition colliding : list (list pyval) :=
  [[PyStr collider_a]; [PyStr collider_e]].

(** The digests of ["1"] and of the two colliding strings. *)
Definition md5_of_1 : string := "c4ca4238a0b923820dcc509a6f75849b".
Definition md5_of_colliders : string := "faad49866e9498fc1719f5289e7a0269".

(** ** Import and the page *)

(** An uploaded file: its name and the bytes [read()] gives in this run.
    The read position of the file object, which reading moves, is not
    kept. *)
Record uploaded_file := UploadedFile { name : string; content : list N }.

Section importer.
Context {cell : Type} `{!Str cell} `{!Infer cell}.

(** The libraries behind the import are collaborators of the application:
    [pd.read_excel] and [pd.read_csv], each followed by [.values.tolist()],
    the ['encoding'] entry of [chardet.detect], and [bytes.decode]. *)
Context (read_excel : uploaded_file → attempt (list (list cell))).
Context (read_csv : string → attempt (list (list cell))).
Context (chardet_detect : list N → option string).
Context (decode : list N → option string → attempt string).

Definition detect_encoding (file_content : list N) : option string :=
  let result := chardet_detect file_content in
  result.

(** A new row object holding [cs]. *)
Definition new_row (cs : list cell) : M cell loc := λ σ,
  let l := fresh (dom σ) in
  Ok l (<[l := Row cs]> σ).

(** [data.extend(rows)], every row of [rows] a list of its own. *)
Definition extend (data : loc) (rows : list (list cell)) : M cell unit :=
  for_each rows (λ cs _, row ← new_row cs; append data row) ().

(** The body of the loop of [import_data] for one file: the [try] block,
    with the [except] clause taken wherever a library call throws.  The
    result is what [st.error] shows. *)
Definition import_file (data : loc) (uploaded_file : uploaded_file)
  : M cell (list (widget cell)) :=
  let except e :=
    mret [st_error ("Error importing " +:+ name uploaded_file
                    +:+ ": " +:+ e)] in
  if endswith (name uploaded_file) ".xls"
     || endswith (name uploaded_file) ".xlsx" then
    match read_excel uploaded_file with
    | Returned df => extend data df;; mret []
    | Thrown e => except e
    end
  else if endswith (name uploaded_file) ".csv" then
    let raw_content := content uploaded_file in
    let encoding := detect_encoding raw_content in
    match decode raw_content encoding with
    | Returned decoded_content =>
        match read_csv decoded_content with
        | Returned reader => extend data reader;; mret []
        | Thrown e => except e
        end
    | Thrown e => except e
    end
  else
    mret [st_error ("Unsupported file format: " +:+ name uploaded_file)].

(** [import_data] returns the list of rows; the messages it shows on the
    way are returned with it. *)
Definition import_data (uploaded_files : list uploaded_file)
  : M cell (loc * list (widget cell)) :=
  data ← new_list;
  errors ← for_each uploaded_files (λ uploaded_file errors,
    shown ← import_file data uploaded_file;
    mret (errors ++ shown)) [];
  mret (data, errors).

(** *** The script *)

(** What the script puts on the page. *)
Inductive element :=
  | st_title (body : string)
  | st_write (body : string)
  | st_file_uploader (label : string) (accept_multiple_files : bool)
      (type : list string)
  | st_dataframe (rows : list (list cell))
  | st_number_input (label : string) (min_value step : Z)
  | st_button (label : string)
  | st_widget (w : widget cell).

(** [data[:n]]: a new list of the first [n] items. *)
Definition slice_to (data : loc) (n : nat) : M cell loc := λ σ,
  match σ !! data with
  | Some (Rows ls) =>
      let l := fresh (dom σ) in
      Ok l (<[l := Rows (take n ls)]> σ)
  | _ => Raise TypeError
  end.

(** The rows a list of rows holds, as [st.dataframe] reads them. *)
Definition frame_of (data : loc) : M cell (list (list cell)) :=
  rows ← items data;
  for_each rows (λ row acc, cs ← cells row; mret (acc ++ [cs])) [].

Context (to_excel : list (list cell) → attempt (list N)).
Context (to_csv : list (list cell) → attempt (list N)).

(** One run of the script: [uploaded_files] is what the uploader returns,
    [number] what the number input returns, [pressed] what the button
    returns. *)
Definition script (uploaded_files : list uploaded_file) (number : Z)
    (pressed : bool) : M cell (list element) :=
  let page :=
    [st_title "Duplicate Detection and Removal System";
     st_write "This application detects and removes duplicates from XLS, XLSX, or CSV files.";
     st_file_uploader "Upload your files (XLS, XLSX, or CSV)" true
       ["xls"; "xlsx"; "csv"]] in
  match uploaded_files with
  | [] => mret page
  | _ :: _ =>
      let file_names := name <$> uploaded_files in
      let page :=
        page ++ [st_write ("Selected files: "
                           +:+ String.concat ", " file_names)] in
      '(data, errors) ← import_data uploaded_files;
      let page := page ++ (st_widget <$> errors) in
      n ← len data;
      if decide (n = 0) then mret page
      else
        preview ← slice_to data 10;
        rows ← frame_of preview;
        let page :=
          page ++ [st_write "Preview of imported data:";
                   st_dataframe rows;
                   st_number_input
                     "Column number to process (1 for the first column)"
                     1 1] in
        let column_index := (number - 1)%Z in
        let page := page ++ [st_button "Detect and Remove Duplicates"] in
        if pressed then
          shown ← button_handler to_excel to_csv data column_index;
          mret (page ++ (st_widget <$> shown))
        else mret page
  end.

End importer.

Global Arguments element : clear implicits.

(** *** The import as a function of the files *)

Section import_functional.
Context {cell : Type} `{!Str cell}.
Context (read_excel : uploaded_file → attempt (list (list cell))).
Context (read_csv : string → attempt (list (list cell))).
Context (chardet_detect : list N → option string).
Context (decode : list N → option string → attempt string).

(** What the libraries make of a file; [None] for a name with none of the
    three suffixes. *)
Definition parse (f : uploaded_file) : option (attempt (list (list cell))) :=
  if endswith (name f) ".xls" || endswith (name f) ".xlsx" then
    Some (read_excel f)
  else if endswith (name f) ".csv" then
    Some (match decode (content f)
                  (detect_encoding chardet_detect (content f)) with
          | Returned text => read_csv text
          | Thrown e => Thrown e
          end)
  else None.

(** The rows a file adds to the table, and the messages shown for it. *)
Definition file_rows (f : uploaded_file) : list (list cell) :=
  match parse f with
  | Some (Returned rows) => rows
  | _ => []
  end.

Definition file_errors (f : uploaded_file) : list (widget cell) :=
  match parse f with
  | Some (Returned _) => []
  | Some (Thrown e) =>
      [st_error ("Error importing " +:+ name f +:+ ": " +:+ e)]
  | None => [st_error ("Unsupported file format: " +:+ name f)]
  end.

(** In [σ] the list at [data] holds the rows [xs], each an object of its
    own, all of them and the list created since [σ0], whose objects are as
    they were. *)
Definition imported (σ0 σ : store cell) (data : loc)
    (xs : list (loc * list cell)) : Prop :=
  σ0 !! data = None
  ∧ σ !! data = Some (Rows xs.*1)
  ∧ rows_ok σ xs
  ∧ NoDup xs.*1
  ∧ Forall (λ l, σ0 !! l = None) xs.*1
  ∧ ∀ l, is_Some (σ0 !! l) → σ !! l = σ0 !! l.

End import_functional.

(** The parts of the page, in the order the script shows them: what is
    always there, what an upload adds, and what imported rows add, up to
    the button. *)
Definition page_header {cell} : list (element cell) :=
  [st_title "Duplicate Detection and Removal System";
   st_write "This application detects and removes duplicates from XLS, XLSX, or CSV files.";
   st_file_uploader "Upload your files (XLS, XLSX, or CSV)" true
     ["xls"; "xlsx"; "csv"]].

Definition page_import {cell} (uploaded_files : list uploaded_file)
    (errors : list (widget cell)) : list (element cell) :=
  st_write ("Selected files: "
            +:+ String.concat ", " (name <$> uploaded_files))
    :: (st_widget <$> errors).

Definition page_controls {cell} (preview : list (list cell))
  : list (element cell) :=
  [st_write "Preview of imported data:";
   st_dataframe preview;
   st_number_input "Column number to process (1 for the first column)" 1 1;
   st_button "Detect and Remove Duplicates"].

(** ** Files to run the import on

    Stand-ins for the libraries: a workbook has one row per byte, a CSV
    text one row per character; an empty file is rejected by both, and by
    the detection of the encoding. *)
Definition sample_read_excel (f : uploaded_file)
  : attempt (list (list pyval)) :=
  match content f with
  | [] => Thrown "Excel file format cannot be determined"
  | bytes => Returned ((λ b, [PyInt (Z.of_N b)]) <$> bytes)
  end.

Definition sample_read_csv (text : string) : attempt (list (list pyval)) :=
  match text with
  | EmptyString => Thrown "No columns to parse from file"
  | _ => Returned ((λ a, [PyStr (String a EmptyString)])
                     <$> list_ascii_of_string text)
  end.

Definition sample_chardet (file_content : list N) : option string :=
  match file_content with
  | [] => None
  | _ => Some "ascii"
  end.

Definition sample_decode (file_content : list N) (encoding : option string)
  : attempt string :=
  match encoding with
  | None => Thrown "decode() argument 'encoding' must be str, not None"
  | Some _ => Returned (string_of_list_ascii (ascii_of_N <$> file_content))
  end.

(** Stand-ins for the writers: a workbook takes up to three rows, and the
    CSV text has one line per row. *)
Definition sample_to_excel (T : list (list pyval)) : attempt (list N) :=
  if decide (length T ≤ 3) then Returned (N.of_nat ∘ length <$> T)
  else Thrown "This sheet is too large!".

Definition sample_to_csv (T : list (list pyval)) : attempt (list N) :=
  Returned (encode_utf8
              (String.concat "," (String.concat ";" ∘ fmap str <$> T))).

Definition workbook : uploaded_file := UploadedFile "a.xlsx" [1; 2; 1]%N.
Definition empty_csv : uploaded_file := UploadedFile "b.csv" [].
Definition notes : uploaded_file := UploadedFile "notes.txt" [1]%N.

(** * Proofs *)

(** ** Dictionaries *)

Section dict_facts.
Context {K V : Type} `{!EqDecision K}.
Implicit Types (d : list (K * V)) (k : K) (v : V).

Lemma dict_get_set_eq d k v : dict_get k (dict_set k v d) = Some v.
Proof.
  induction d as [|[k' v'] d IH]; simpl; repeat case_decide; simpl;
    repeat case_decide; congruence.
Qed.

Lemma dict_get_set_ne d k k' v :
  k ≠ k' → dict_get k' (dict_set k v d) = dict_get k' d.
Proof.
  intros Hne. induction d as [|[k0 v0] d IH]; simpl; repeat case_decide;
    simpl; repeat case_decide; congruence.
Qed.

Lemma dict_get_None d k : dict_get k d = None ↔ k ∉ dict_keys d.
Proof.
  unfold dict_keys. induction d as [|[k' v'] d IH]; simpl.
  - split; [intros _; apply not_elem_of_nil | done].
  - rewrite not_elem_of_cons. case_decide; [|tauto].
    split; [done | intros [? _]; done].
Qed.

Lemma dict_get_is_Some d k : is_Some (dict_get k d) ↔ k ∈ dict_keys d.
Proof.
  rewrite <-not_eq_None_Some, dict_get_None.
  destruct (decide (k ∈ dict_keys d)); naive_solver.
Qed.

Lemma dict_get_elem_of d k v : dict_get k d = Some v → (k, v) ∈ d.
Proof.
  induction d as [|[k' v'] d IH]; simpl; [done|].
  case_decide; intros; simplify_eq; [left | right; auto].
Qed.

Lemma dict_keys_set d k v :
  dict_keys (dict_set k v d)
  = match dict_get k d with
    | Some _ => dict_keys d
    | None => dict_keys d ++ [k]
    end.
Proof.
  unfold dict_keys. induction d as [|[k' v'] d IH]; csimpl; [done|].
  case_decide; simplify_eq; csimpl; [done|].
  rewrite IH. by destruct (dict_get k d).
Qed.

Lemma dict_set_NoDup d k v :
  NoDup (dict_keys d) → NoDup (dict_keys (dict_set k v d)).
Proof.
  intros Hd. rewrite dict_keys_set.
  destruct (dict_get k d) eqn:Hk; [done|].
  apply NoDup_app. split_and!; [done| |apply NoDup_singleton].
  intros x Hx ->%list_elem_of_singleton. by apply dict_get_None in Hk.
Qed.

Lemma dict_get_filter (P : K * V → Prop) `{!∀ x, Decision (P x)} d k :
  NoDup (dict_keys d) →
  dict_get k (filter P d)
  = v ← dict_get k d; if decide (P (k, v)) then Some v else None.
Proof.
  unfold dict_keys. induction d as [|[k' v'] d IH]; [done|].
  rewrite fmap_cons, NoDup_cons. intros [Hk' Hd]. rewrite filter_cons. simpl.
  destruct (decide (P (k', v'))) as [HP|HP]; simpl.
  - case_decide; simplify_eq; simpl; [by rewrite decide_True | auto].
  - case_decide; simplify_eq; simpl; [|auto].
    rewrite decide_False by done. apply dict_get_None.
    intros (x & Hx1 & [_ Hx2]%list_elem_of_filter)%list_elem_of_fmap.
    apply Hk'. apply list_elem_of_fmap. eauto.
Qed.

Lemma dict_filter_NoDup (P : K * V → Prop) `{!∀ x, Decision (P x)} d :
  NoDup (dict_keys d) → NoDup (dict_keys (filter P d)).
Proof.
  unfold dict_keys. intros Hd.
  eapply sublist_NoDup; [done|]. apply fmap_sublist, sublist_filter.
Qed.

Lemma dict_elem_of_get d k v :
  NoDup (dict_keys d) → (k, v) ∈ d → dict_get k d = Some v.
Proof.
  unfold dict_keys. induction d as [|[k0 v0] d IH]; csimpl.
  { by intros _ ?%elem_of_nil. }
  intros [Hk0 Hd]%NoDup_cons [?|Hin]%elem_of_cons; simplify_eq.
  - by rewrite decide_True.
  - rewrite decide_False; [auto|]. intros ->. apply Hk0.
    apply list_elem_of_fmap. by exists (k0, v).
Qed.

End dict_facts.

(** ** [Counter] *)

Lemma Counter_fold_get xs (d : dict string nat) h :
  dict_get h
    (fold_left (λ d x, dict_set x (default 0 (dict_get x d) + 1) d) xs d)
  = if decide (occurrences_of h xs = 0) then dict_get h d
    else Some (default 0 (dict_get h d) + occurrences_of h xs).
Proof.
  unfold occurrences_of. revert d.
  induction xs as [|x xs IH]; intros d; simpl; [done|].
  rewrite IH, filter_cons. destruct (decide (x = h)) as [->|Hne]; simpl.
  - rewrite dict_get_set_eq. simpl.
    repeat case_decide; f_equal; lia.
  - by rewrite dict_get_set_ne.
Qed.

Lemma Counter_fold_NoDup xs (d : dict string nat) :
  NoDup (dict_keys d) →
  NoDup (dict_keys
    (fold_left (λ d x, dict_set x (default 0 (dict_get x d) + 1) d) xs d)).
Proof.
  revert d. induction xs as [|x xs IH]; intros d Hd; simpl; [done|].
  by apply IH, dict_set_NoDup.
Qed.

Lemma Counter_get xs h :
  dict_get h (Counter xs)
  = if decide (occurrences_of h xs = 0) then None
    else Some (occurrences_of h xs).
Proof. unfold Counter. by rewrite Counter_fold_get. Qed.

Lemma Counter_NoDup xs : NoDup (dict_keys (Counter xs)).
Proof. apply Counter_fold_NoDup. constructor. Qed.

(** ** Running the primitives *)

Section run.
Context {cell : Type} `{!Str cell}.
Implicit Types (σ : store cell) (T : list (list cell)) (c : nat).

Lemma bind_run {A B} (m : M cell A) (f : A → M cell B) σ :
  (m ≫= f) σ
  = match m σ with
    | Ok a σ' => f a σ'
    | Raise e => Raise e
    end.
Proof. done. Qed.

Lemma mret_run {A} (a : A) σ : (mret a : M cell A) σ = Ok a σ.
Proof. done. Qed.

Lemma len_run σ l cs : σ !! l = Some (Row cs) → len l σ = Ok (length cs) σ.
Proof. unfold len. by intros ->. Qed.

Lemma getitem_run σ l cs i v :
  σ !! l = Some (Row cs) → cs !! i = Some v → getitem l i σ = Ok v σ.
Proof. unfold getitem. by intros -> ->. Qed.

Lemma items_run σ data ls :
  σ !! data = Some (Rows ls) → items data σ = Ok ls σ.
Proof. unfold items. by intros ->. Qed.

Lemma table_of_rows σ data T :
  table_of σ data = Some T →
  ∃ xs, σ !! data = Some (Rows xs.*1) ∧ xs.*2 = T ∧ rows_ok σ xs.
Proof.
  unfold table_of, rows_of.
  destruct (σ !! data) as [[|ls]|]; try done. simpl.
  intros Hall%mapM_Some. exists (zip ls T).
  assert (length ls = length T) as Hlen by by eapply Forall2_length.
  rewrite fst_zip, snd_zip by lia. split_and!; [done..|].
  unfold rows_ok. induction Hall as [|l cs ls T Hrow _ IH]; simpl.
  - constructor.
  - constructor; [|apply IH; simpl in Hlen; lia]. simpl.
    unfold row_of in Hrow. by destruct (σ !! l) as [[]|]; simplify_eq.
Qed.

Lemma rows_table_of σ data xs :
  σ !! data = Some (Rows xs.*1) → rows_ok σ xs →
  table_of σ data = Some xs.*2.
Proof.
  intros Hdata Hxs. unfold table_of, rows_of. rewrite Hdata. simpl.
  apply mapM_Some. clear Hdata. induction Hxs as [|[l cs] xs Hrow _ IH]; csimpl.
  - constructor.
  - constructor; [|done]. unfold row_of. simpl in Hrow. by rewrite Hrow.
Qed.

(** ** [detect_duplicates] *)

Lemma detect_duplicates_run σ data T c :
  table_of σ data = Some T →
  detect_duplicates data c σ = Ok (duplicates_of T c) σ.
Proof.
  intros (xs & Hdata & <- & Hxs)%table_of_rows.
  unfold detect_duplicates. rewrite bind_run, (items_run _ _ _ Hdata).
  rewrite bind_run.
  match goal with
  | |- context [for_each _ ?body _ _] =>
      assert (∀ acc, for_each xs.*1 body acc σ = Ok (acc ++ column xs.*2 c) σ)
        as ->
  end; [|done].
  clear Hdata. induction Hxs as [|[l cs] xs Hrow _ IH]; intros acc; csimpl.
  { by rewrite app_nil_r. }
  simpl in Hrow. rewrite !bind_run, (len_run _ _ _ Hrow).
  unfold column. csimpl. case_decide as Hwide.
  - destruct (lookup_lt_is_Some_2 cs c) as [v Hv]; [done|].
    rewrite bind_run, (getitem_run _ _ _ _ _ Hrow Hv), mret_run, IH, Hv.
    by rewrite <-app_assoc.
  - rewrite mret_run, IH. by rewrite lookup_ge_None_2 by (unfold gt in *; lia).
Qed.

End run.

(** ** Keeping the last element of every key *)

Section keep_last_facts.
Context {A : Type} (key : A → option string).
Implicit Types (xs ys : list A) (seen : gset string).

Lemma scan_keep_app xs ys seen :
  scan_keep key (xs ++ ys) seen
  = scan_keep key xs seen
      ++ scan_keep key ys (list_to_set (omap key xs) ∪ seen).
Proof.
  revert seen. induction xs as [|x xs IH]; intros seen; simpl.
  { by rewrite (left_id_L ∅ (∪)). }
  destruct (key x) as [h|] eqn:Hx; simpl; [|apply IH].
  case_decide as Hseen.
  - rewrite IH. simpl. do 3 f_equal. set_solver.
  - rewrite IH. do 2 f_equal. set_solver.
Qed.

Lemma scan_keep_reverse xs :
  reverse (scan_keep key (reverse xs) ∅) = keep_last key xs.
Proof.
  induction xs as [|x xs IH]; [done|].
  rewrite reverse_cons, scan_keep_app, reverse_app, IH. simpl.
  destruct (key x) as [h|] eqn:Hx; [|done].
  assert (h ∈ (list_to_set (omap key (reverse xs)) ∪ ∅ : gset string)
          ↔ h ∈ omap key xs) as Hin.
  { rewrite elem_of_union, elem_of_list_to_set, !list_elem_of_omap.
    setoid_rewrite elem_of_reverse. set_solver. }
  repeat case_decide; try done; tauto.
Qed.

Lemma is_last_nil i : ¬ is_last key [] i.
Proof. by intros (h & ? & _). Qed.

Lemma is_last_cons_S x xs i : is_last key (x :: xs) (S i) ↔ is_last key xs i.
Proof.
  unfold is_last. simpl. split; intros (h & Hi & Hlast); exists h.
  - split; [done|]. intros j Hj. apply (Hlast (S j)). lia.
  - split; [done|]. intros [|j] Hj; [lia|]. apply Hlast. lia.
Qed.

Lemma is_last_cons_0 x xs :
  is_last key (x :: xs) 0 ↔ ∃ h, key x = Some h ∧ h ∉ omap key xs.
Proof.
  unfold is_last. simpl. split; intros (h & Hx & Hlast); exists h.
  - split; [done|]. intros (y & [j Hj]%list_elem_of_lookup & Hy)%list_elem_of_omap.
    apply (Hlast (S j)); [lia|]. simpl. by rewrite Hj.
  - split; [done|]. intros [|j] Hj; [lia|]. simpl.
    destruct (xs !! j) as [y|] eqn:Hy; [|done]. simpl. intros Hk.
    apply Hlast. apply list_elem_of_omap. exists y.
    split; [by eapply list_elem_of_lookup_2 | done].
Qed.

(** [keep_last] keeps exactly the last occurrences, in order. *)
Lemma keep_last_indices xs :
  ∃ idxs : list nat,
    StronglySorted lt idxs
    ∧ Forall2 (λ i x, xs !! i = Some x) idxs (keep_last key xs)
    ∧ ∀ i, i ∈ idxs ↔ is_last key xs i.
Proof.
  induction xs as [|x xs (idxs & Hsorted & Hrows & Hlast)].
  { exists []. split_and!; [constructor..|].
    intros i. split; [by intros ?%elem_of_nil | by intros ?%is_last_nil]. }
  assert (StronglySorted lt (S <$> idxs)) as HsortedS.
  { clear -Hsorted. induction Hsorted as [|i idxs _ IH Hi]; csimpl;
      constructor; [done|].
    apply Forall_fmap. eapply Forall_impl; [done|]. simpl. lia. }
  assert (Forall2 (λ i y, (x :: xs) !! i = Some y) (S <$> idxs)
            (keep_last key xs)) as HrowsS.
  { by apply Forall2_fmap_l. }
  assert (∀ i, S i ∈ S <$> idxs ↔ is_last key (x :: xs) (S i)) as HlastS.
  { intros i. rewrite is_last_cons_S, <-Hlast.
    rewrite list_elem_of_fmap. naive_solver. }
  assert (0 ∉ S <$> idxs) as Hzero.
  { intros (? & ? & _)%list_elem_of_fmap. lia. }
  simpl. destruct (key x) as [h|] eqn:Hx; [case_decide as Hlater|].
  - exists (S <$> idxs). split_and!; [done..|].
    intros [|i]; [|done]. rewrite is_last_cons_0. split; [done|].
    intros (h' & ? & ?). by simplify_eq.
  - exists (0 :: (S <$> idxs)). split_and!.
    + constructor; [done|]. apply Forall_fmap, Forall_true. simpl. lia.
    + by constructor.
    + intros [|i].
      * rewrite is_last_cons_0. split; [eauto | intros _; left].
      * rewrite <-HlastS, elem_of_cons. naive_solver.
  - exists (S <$> idxs). split_and!; [done..|].
    intros [|i]; [|done]. rewrite is_last_cons_0. split; [done|].
    intros (h' & ? & ?). by simplify_eq.
Qed.

Lemma keep_last_sublist xs : keep_last key xs `sublist_of` xs.
Proof.
  induction xs as [|x xs IH]; simpl; [done|].
  destruct (key x); [case_decide|]; by constructor.
Qed.

Lemma keep_last_keys xs h : h ∈ omap key (keep_last key xs) ↔ h ∈ omap key xs.
Proof.
  induction xs as [|x xs IH]; simpl; [done|].
  destruct (key x) as [h'|] eqn:Hx; [|done].
  case_decide as Hlater; simpl; rewrite ?Hx, ?elem_of_cons, IH; [|done].
  split; [auto|]. by intros [->|?].
Qed.

Lemma keep_last_keys_NoDup xs : NoDup (omap key (keep_last key xs)).
Proof.
  induction xs as [|x xs IH]; simpl; [constructor|].
  destruct (key x) as [h|] eqn:Hx; [|done].
  case_decide as Hlater; [done|]. simpl. rewrite Hx.
  constructor; [|done]. by rewrite keep_last_keys.
Qed.

Lemma keep_last_is_Some xs x : x ∈ keep_last key xs → is_Some (key x).
Proof.
  induction xs as [|y xs IH]; simpl; [by intros ?%elem_of_nil|].
  destruct (key y) as [h|] eqn:Hy; [|done].
  case_decide; [done|]. intros [->|?]%elem_of_cons; eauto.
Qed.

Lemma keep_last_id xs :
  NoDup (omap key xs) → Forall (λ x, is_Some (key x)) xs →
  keep_last key xs = xs.
Proof.
  induction xs as [|x xs IH]; simpl; [done|].
  intros Hnd [[h Hx] Hall]%Forall_cons. rewrite Hx in Hnd |- *.
  apply NoDup_cons in Hnd as [Hh Hnd]. rewrite decide_False by done.
  f_equal. by apply IH.
Qed.

Lemma keep_last_idemp xs :
  keep_last key (keep_last key xs) = keep_last key xs.
Proof.
  apply keep_last_id; [apply keep_last_keys_NoDup|].
  apply Forall_forall. apply keep_last_is_Some.
Qed.

End keep_last_facts.

Lemma keep_last_fmap {A B} (key : A → option string) (f : B → A)
    (ys : list B) :
  keep_last key (f <$> ys) = f <$> keep_last (key ∘ f) ys.
Proof.
  induction ys as [|y ys IH]; csimpl; [done|].
  assert (omap key (f <$> ys) = omap (key ∘ f) ys) as ->.
  { clear. induction ys as [|y ys IH]; csimpl; [done|]. by rewrite IH. }
  destruct (key (f y)); [case_decide|]; csimpl; by rewrite IH.
Qed.

(** ** [remove_duplicates] *)

Section remove_run.
Context {cell : Type} `{!Str cell}.
Implicit Types (σ : store cell) (T : list (list cell)) (c : nat).
Implicit Types xs : list (loc * list cell).

Lemma rows_ok_insert σ xs l ls :
  rows_ok σ xs → σ !! l = None ∨ (∃ ls', σ !! l = Some (Rows ls')) →
  rows_ok (<[l := Rows ls]> σ) xs.
Proof.
  unfold rows_ok. intros Hxs Hl. eapply Forall_impl; [done|].
  intros [l' cs] Hrow. simpl in *. rewrite lookup_insert_ne; [done|].
  intros ->. destruct Hl as [Hl|[? Hl]]; congruence.
Qed.

Lemma append_run σ l ls r :
  σ !! l = Some (Rows ls) →
  append l r σ = Ok () (<[l := Rows (ls ++ [r])]> σ).
Proof. unfold append. by intros ->. Qed.

Lemma len_rows_run σ l ls :
  σ !! l = Some (Rows ls) → len l σ = Ok (length ls) σ.
Proof. unfold len. by intros ->. Qed.

Lemma getrow_run σ data ls i l :
  σ !! data = Some (Rows ls) → ls !! i = Some l → getrow data i σ = Ok l σ.
Proof. unfold getrow. by intros -> ->. Qed.

Lemma remove_duplicates_run σ data xs c :
  σ !! data = Some (Rows xs.*1) → rows_ok σ xs →
  remove_duplicates data c σ
  = Ok (fresh (dom σ))
      (<[fresh (dom σ) :=
           Rows (keep_last (row_key fingerprint c ∘ snd) xs).*1]> σ).
Proof.
  intros Hdata Hxs. set (out := fresh (dom σ)).
  assert (σ !! out = None) as Hout.
  { apply not_elem_of_dom, is_fresh. }
  assert (out ≠ data) as Hne by congruence.
  unfold remove_duplicates. rewrite bind_run. unfold new_list at 1.
  fold out. cbv zeta. set (σ0 := <[out := Rows []]> σ).
  assert (σ0 !! data = Some (Rows xs.*1)) as Hdata0.
  { unfold σ0. by rewrite lookup_insert_ne. }
  unfold reversed. rewrite bind_run, (len_rows_run _ _ _ Hdata0).
  rewrite length_fmap, bind_run.
  match goal with
  | |- context [for_reversed _ _ ?body _ _] =>
      assert (∀ i seen acc (σ' : store cell),
                i ≤ length xs →
                σ' !! data = Some (Rows xs.*1) →
                σ' !! out = Some (Rows acc) → rows_ok σ' xs →
                ∃ seen', for_reversed data i body seen σ'
                  = Ok seen' (<[out := Rows
                       (acc ++ (scan_keep (row_key fingerprint c ∘ snd)
                                  (reverse (take i xs)) seen).*1)]> σ'))
        as Hloop
  end.
  { clear -Hne.
    induction i as [|i IH]; intros seen acc σ' Hi Hdata Hacc Hxs.
    { exists seen. simpl. by rewrite mret_run, app_nil_r, insert_id. }
    destruct (lookup_lt_is_Some_2 xs i) as [[l cs] Hrow]; [lia|].
    assert (σ' !! l = Some (Row cs)) as Hcells.
    { unfold rows_ok in Hxs. rewrite Forall_forall in Hxs.
      apply (Hxs (l, cs)). by eapply list_elem_of_lookup_2. }
    rewrite (take_S_r _ _ _ Hrow), reverse_snoc. simpl.
    rewrite bind_run, (len_rows_run _ _ _ Hdata), length_fmap.
    rewrite decide_True by lia.
    rewrite bind_run, (getrow_run _ _ xs.*1 i l Hdata)
      by (by rewrite list_lookup_fmap, Hrow).
    rewrite !bind_run, (len_run _ _ _ Hcells). unfold row_key.
    case_decide as Hwide.
    - destruct (lookup_lt_is_Some_2 cs c) as [v Hv]; [done|].
      rewrite bind_run, (getitem_run _ _ _ _ _ Hcells Hv), Hv. csimpl.
      fold (fingerprint v). case_decide as Hseen.
      + rewrite bind_run, (append_run _ _ _ _ Hacc), mret_run.
        destruct (IH ({[fingerprint v]} ∪ seen) (acc ++ [l])
                    (<[out := Rows (acc ++ [l])]> σ')) as [seen' ->].
        { lia. }
        { by rewrite lookup_insert_ne. }
        { by rewrite lookup_insert_eq. }
        { apply rows_ok_insert; eauto. }
        exists seen'. by rewrite insert_insert_eq, <-app_assoc.
      + rewrite mret_run. apply IH; [lia | done..].
    - rewrite mret_run, lookup_ge_None_2 by (unfold gt in *; lia).
      apply IH; [lia | done..]. }
  destruct (Hloop (length xs) ∅ [] σ0) as [seen' ->]; [done..| | |].
  { unfold σ0. by rewrite lookup_insert_eq. }
  { unfold σ0. apply rows_ok_insert; [done | by left]. }
  rewrite firstn_all, bind_run. unfold reverse_in_place.
  rewrite lookup_insert_eq, mret_run. unfold σ0.
  rewrite !insert_insert_eq. do 3 f_equal.
  by rewrite app_nil_l, <-fmap_reverse, scan_keep_reverse.
Qed.

End remove_run.

(** ** Cells and line numbers of a fingerprint *)

Section column_facts.
Context {cell : Type} `{!Str cell}.
Implicit Types (σ : store cell) (T : list (list cell)) (c k : nat).
Implicit Types (row : list cell) (h : string).

Lemma column_cons row T c :
  column (row :: T) c = option_list (row !! c) ++ column T c.
Proof. unfold column. simpl. by destruct (row !! c). Qed.

Lemma cells_with_cons row T c h :
  cells_with (row :: T) c h = cells_with [row] c h ++ cells_with T c h.
Proof.
  unfold cells_with. rewrite !column_cons, !filter_app.
  unfold column. simpl. by rewrite filter_nil, !app_nil_r.
Qed.

Lemma cells_with_one row c h :
  cells_with [row] c h
  = match row !! c with
    | Some v => if decide (fingerprint v = h) then [v] else []
    | None => []
    end.
Proof.
  unfold cells_with, column. simpl. destruct (row !! c) as [v|]; [|done].
  rewrite filter_cons, filter_nil. by case_decide.
Qed.

Lemma lines_from_cons k row T c h :
  lines_from k (row :: T) c h
  = lines_from k [row] c h ++ lines_from (S k) T c h.
Proof. simpl. by rewrite app_nil_r. Qed.

Lemma lines_from_one k row c h :
  lines_from k [row] c h
  = match row !! c with
    | Some v => if decide (fingerprint v = h) then [k + 1] else []
    | None => []
    end.
Proof.
  simpl. rewrite app_nil_r. destruct (row !! c) as [v|]; simpl.
  - repeat case_decide; naive_solver.
  - done.
Qed.

Lemma lines_from_length k T c h :
  length (lines_from k T c h) = tally T c h.
Proof.
  unfold tally. revert k. induction T as [|row T IH]; intros k; [done|].
  rewrite lines_from_cons, cells_with_cons, !length_app, IH. f_equal.
  rewrite lines_from_one, cells_with_one.
  destruct (row !! c); [by case_decide | done].
Qed.

Lemma lines_from_spec k T c h n :
  n ∈ lines_from k T c h
  ↔ ∃ i, n = k + i + 1 ∧ key_at fingerprint T c i = Some h.
Proof.
  revert k. induction T as [|row T IH]; intros k.
  { simpl. split; [by intros ?%elem_of_nil | by intros (i & _ & ?)]. }
  rewrite lines_from_cons, elem_of_app, IH, lines_from_one.
  unfold key_at, cell_at. split.
  - intros [Hn|(i & -> & Hi)].
    + exists 0. simpl. destruct (row !! c) as [v|]; [|by apply elem_of_nil in Hn].
      case_decide; [|by apply elem_of_nil in Hn].
      apply list_elem_of_singleton in Hn. simpl. split; [lia | congruence].
    + exists (S i). split; [lia | done].
  - intros ([|i] & -> & Hi); simpl in Hi.
    + left. destruct (row !! c) as [v|]; simplify_eq/=.
      rewrite decide_True by done. apply list_elem_of_singleton. lia.
    + right. exists i. split; [lia | done].
Qed.

Lemma lines_from_sorted k T c h : StronglySorted lt (lines_from k T c h).
Proof.
  revert k. induction T as [|row T IH]; intros k; [constructor|].
  rewrite lines_from_cons, lines_from_one.
  assert (Forall (lt (k + 1)) (lines_from (S k) T c h)) as Hlater.
  { apply Forall_forall. intros n (i & -> & _)%lines_from_spec. lia. }
  destruct (row !! c); [case_decide|]; simpl; auto.
  by constructor.
Qed.

Lemma tally_pos T c h :
  0 < tally T c h ↔ ∃ i, key_at fingerprint T c i = Some h.
Proof.
  rewrite <-(lines_from_length 0). split.
  - destruct (lines_from 0 T c h) as [|n ns] eqn:Hl; simpl; [lia|].
    intros _. destruct (lines_from_spec 0 T c h n) as [(i & _ & Hi) _]; eauto.
    rewrite Hl. left.
  - intros [i Hi].
    assert (0 + i + 1 ∈ lines_from 0 T c h) as Hin by (apply lines_from_spec; eauto).
    destruct (lines_from 0 T c h); [by apply elem_of_nil in Hin | simpl; lia].
Qed.

End column_facts.

(** ** [generate_report] *)

Section report_run.
Context {cell : Type} `{!Str cell}.
Implicit Types (σ : store cell) (T : list (list cell)) (c k : nat).
Implicit Types (xs : list (loc * list cell)) (h : string).
Implicit Types (dups : dict string nat).

(** The scan leaves, under every fingerprint of [dups], the cell of the
    last row carrying it and the line numbers of all rows carrying it. *)
Lemma generate_report_scan_run σ data T dups c :
  table_of σ data = Some T →
  ∃ reverse_lookup line_numbers,
    generate_report_scan dups data c σ = Ok (reverse_lookup, line_numbers) σ
    ∧ (∀ h, reverse_lookup !! h
            = if decide (h ∈ dict_keys dups) then last (cells_with T c h)
              else None)
    ∧ (∀ h, line_numbers !! h
            = if decide (h ∈ dict_keys dups ∧ lines_with T c h ≠ [])
              then Some (lines_with T c h) else None).
Proof.
  intros (xs & Hdata & <- & Hxs)%table_of_rows.
  unfold generate_report_scan. rewrite bind_run, (items_run _ _ _ Hdata).
  match goal with
  | |- context [for_each _ ?b _ _] => set (body := b)
  end.
  match goal with
  | |- _ =>
      assert (∀ k (rl : gmap string cell) (ln : gmap string (list nat))
                (V : string → list cell) (L : string → list nat),
        (∀ h, rl !! h
              = if decide (h ∈ dict_keys dups) then last (V h) else None) →
        (∀ h, ln !! h
              = if decide (h ∈ dict_keys dups ∧ L h ≠ [])
                then Some (L h) else None) →
        ∃ rl' ln',
          for_each (imap (λ i, pair (k + i)) xs.*1) body (rl, ln) σ
          = Ok (rl', ln') σ
          ∧ (∀ h, rl' !! h
                  = if decide (h ∈ dict_keys dups)
                    then last (V h ++ cells_with xs.*2 c h) else None)
          ∧ (∀ h, ln' !! h
                  = if decide (h ∈ dict_keys dups
                               ∧ L h ++ lines_from k xs.*2 c h ≠ [])
                    then Some (L h ++ lines_from k xs.*2 c h) else None))
        as Hloop
  end.
  { clear Hdata.
    induction Hxs as [|[l cs] xs Hrow _ IH]; intros k rl ln V L Hrl Hln.
    { exists rl, ln. split; [done|]. split; intros h.
      - rewrite Hrl. unfold cells_with, column. simpl.
        by rewrite filter_nil, app_nil_r.
      - rewrite Hln. simpl. by rewrite app_nil_r. }
    simpl in Hrow. rewrite fmap_cons, imap_cons. csimpl.
    rewrite (imap_ext _ (λ i, pair (S k + i))) by (intros; simpl; f_equal; lia).
    unfold body at 1. rewrite !bind_run, (len_run _ _ _ Hrow).
    (* The state after this row, in terms of what it adds. *)
    assert (∀ (rl1 : gmap string cell) (ln1 : gmap string (list nat)),
      (∀ h, rl1 !! h
            = if decide (h ∈ dict_keys dups)
              then last (V h ++ cells_with [cs] c h) else None) →
      (∀ h, ln1 !! h
            = if decide (h ∈ dict_keys dups
                         ∧ L h ++ lines_from k [cs] c h ≠ [])
              then Some (L h ++ lines_from k [cs] c h) else None) →
      ∃ rl' ln',
        for_each (imap (λ i, pair (S k + i)) xs.*1) body (rl1, ln1) σ
        = Ok (rl', ln') σ
        ∧ (∀ h, rl' !! h
                = if decide (h ∈ dict_keys dups)
                  then last (V h ++ cells_with (cs :: xs.*2) c h) else None)
        ∧ (∀ h, ln' !! h
                = if decide (h ∈ dict_keys dups
                             ∧ L h ++ lines_from k (cs :: xs.*2) c h ≠ [])
                  then Some (L h ++ lines_from k (cs :: xs.*2) c h)
                  else None)) as Hnext.
    { intros rl1 ln1 Hrl1 Hln1.
      destruct (IH (S k) rl1 ln1 (λ h, V h ++ cells_with [cs] c h)
                  (λ h, L h ++ lines_from k [cs] c h) Hrl1 Hln1)
        as (rl' & ln' & Hrun & Hrl' & Hln').
      exists rl', ln'. split; [done|]. split; intros h.
      - by rewrite Hrl', (cells_with_cons cs xs.*2), app_assoc.
      - by rewrite Hln', (lines_from_cons k cs xs.*2), app_assoc. }
    case_decide as Hwide; cycle 1.
    { rewrite mret_run. apply Hnext; intros h.
      - rewrite Hrl, cells_with_one, lookup_ge_None_2 by (unfold gt in *; lia).
        by rewrite app_nil_r.
      - rewrite Hln, lines_from_one, lookup_ge_None_2 by (unfold gt in *; lia).
        by rewrite app_nil_r. }
    destruct (lookup_lt_is_Some_2 cs c) as [v Hv]; [done|].
    rewrite !bind_run, (getitem_run _ _ _ _ _ Hrow Hv). cbv zeta.
    rewrite !bind_run, (getitem_run _ _ _ _ _ Hrow Hv).
    fold (fingerprint v). case_decide as Hdup; cycle 1.
    { rewrite mret_run. apply Hnext; intros h.
      - rewrite Hrl, cells_with_one, Hv.
        repeat case_decide; simplify_eq; by rewrite ?app_nil_r.
      - rewrite Hln, lines_from_one, Hv.
        destruct (decide (fingerprint v = h)) as [<-|?];
          [|by rewrite app_nil_r].
        rewrite !decide_False; tauto. }
    assert (lookup_key
              (if decide (fingerprint v ∉ dom ln)
               then <[fingerprint v := []]> ln else ln) (fingerprint v) σ
            = Ok (L (fingerprint v)) σ) as Hlines.
    { unfold lookup_key. pose proof (Hln (fingerprint v)) as Hlnv.
      destruct (decide (fingerprint v ∉ dom ln)) as [Hnew|Hnew].
      - rewrite lookup_insert_eq, mret_run. apply not_elem_of_dom in Hnew.
        rewrite Hnew in Hlnv. case_decide as HL; [done|].
        destruct (L (fingerprint v)); [done|]. exfalso. apply HL. done.
      - apply dec_stable, elem_of_dom in Hnew as [lines Hlines].
        rewrite Hlines, mret_run. rewrite Hlines in Hlnv.
        case_decide; congruence. }
    rewrite bind_run, Hlines, mret_run. apply Hnext; intros h.
    - rewrite cells_with_one, Hv.
      destruct (decide (fingerprint v = h)) as [<-|Hne].
      + rewrite lookup_insert_eq, decide_True by done.
        by rewrite last_snoc.
      + rewrite lookup_insert_ne, Hrl, app_nil_r by done. done.
    - rewrite lines_from_one, Hv.
      destruct (decide (fingerprint v = h)) as [<-|Hne].
      + rewrite lookup_insert_eq, decide_True; [by rewrite Nat.add_0_r|].
        split; [done|]. by destruct (L (fingerprint v)).
      + rewrite lookup_insert_ne, app_nil_r by done.
        case_decide as Hnew; [|by rewrite Hln].
        by rewrite lookup_insert_ne, Hln by done. }
  destruct (Hloop 0 ∅ ∅ (λ _, []) (λ _, [])) as (rl & ln & Hrun & Hrl & Hln).
  { intros h. rewrite lookup_empty. by case_decide. }
  { intros h. rewrite lookup_empty. rewrite decide_False; [done|]. tauto. }
  exists rl, ln. split; [|done].
  rewrite <-Hrun. f_equal.
Qed.

End report_run.

Section report_emit.
Context {cell : Type} `{!Str cell} `{!Infer cell}.
Implicit Types (σ : store cell) (T : list (list cell)) (c k : nat).
Implicit Types (h : string) (dups : dict string nat).

Lemma generate_report_emit_run σ dups
    (rl : gmap string cell) (ln : gmap string (list nat)) :
  (∀ h, h ∈ dict_keys dups → is_Some (rl !! h) ∧ is_Some (ln !! h)) →
  ∃ report,
    generate_report_emit dups rl ln σ = Ok report σ
    ∧ Forall2 (λ entry r,
        rl !! entry.1 = Some (Value r) ∧ Count r = entry.2
        ∧ ∃ lines, ln !! entry.1 = Some lines
                   ∧ Line_Numbers r = String.concat ", " (str <$> lines))
        dups report.
Proof.
  unfold generate_report_emit, dict_items, dict_keys.
  match goal with
  | |- context [for_each _ ?b _ _] => set (body := b)
  end.
  assert (∀ acc, (∀ h, h ∈ dups.*1 → is_Some (rl !! h) ∧ is_Some (ln !! h)) →
    ∃ rows, for_each dups body acc σ = Ok (acc ++ rows) σ
      ∧ Forall2 (λ entry r,
          rl !! entry.1 = Some (Value r) ∧ Count r = entry.2
          ∧ ∃ lines, ln !! entry.1 = Some lines
                     ∧ Line_Numbers r = String.concat ", " (str <$> lines))
          dups rows) as Hloop.
  { induction dups as [|[h count] dups IH]; intros acc Hkeys.
    { exists []. simpl. rewrite mret_run, app_nil_r. by split. }
    rewrite fmap_cons in Hkeys.
    destruct (Hkeys h) as [[v Hv] [lines Hlines]]; [left|].
    simpl. unfold body at 1. unfold lookup_key.
    rewrite !bind_run, Hv, mret_run, bind_run, Hlines, !mret_run.
    destruct (IH (acc ++ [ReportRow v count
                            (String.concat ", " (str <$> lines))]))
      as (rows & Hrun & Hrows).
    { intros h' Hh'. apply Hkeys. by right. }
    rewrite <-app_assoc in Hrun. eexists (_ :: rows).
    split; [exact Hrun|]. constructor; [simpl; eauto | done]. }
  intros Hkeys. destruct (Hloop [] Hkeys) as (rows & Hrun & Hrows). eauto.
Qed.

(** [generate_report], for any dictionary whose keys all occur in the
    column: one row per entry, in the order of the dictionary. *)
Lemma generate_report_records σ data T dups c :
  table_of σ data = Some T →
  (∀ h, h ∈ dict_keys dups → 0 < tally T c h) →
  ∃ records,
    generate_report dups data c σ = Ok (DataFrame records) σ
    ∧ Forall2 (row_records T c) dups records.
Proof.
  intros HT Hkeys.
  destruct (generate_report_scan_run σ data T dups c HT)
    as (rl & ln & Hscan & Hrl & Hln).
  assert (∀ h, h ∈ dict_keys dups → lines_with T c h ≠ []) as Hlines.
  { intros h Hh%Hkeys Hnil. rewrite <-(lines_from_length 0) in Hh.
    unfold lines_with in Hnil. rewrite Hnil in Hh. simpl in Hh. lia. }
  assert (∀ h, h ∈ dict_keys dups → is_Some (last (cells_with T c h)))
    as Hcells.
  { intros h Hh%Hkeys. apply last_is_Some. unfold tally in Hh.
    intros Hnil. rewrite Hnil in Hh. simpl in Hh. lia. }
  destruct (generate_report_emit_run σ dups rl ln)
    as (report & Hemit & Hreport).
  { intros h Hh. rewrite Hrl, Hln, !decide_True by auto. auto. }
  exists report. unfold generate_report.
  rewrite bind_run, Hscan, bind_run, Hemit, mret_run.
  split; [done|].
  eapply Forall2_impl; [done|]. intros [h count] r. simpl.
  intros (Hv & Hcount & lines & Hl & Hfield).
  assert (h ∈ dict_keys dups) as Hh.
  { apply dec_stable. intros Hno. rewrite Hrl, decide_False in Hv by done.
    done. }
  rewrite Hrl, decide_True in Hv by done.
  rewrite Hln, decide_True in Hl by auto. simplify_eq.
  by split_and!.
Qed.

Lemma DataFrame_rows T c (dups : list (string * nat)) records :
  Forall2 (row_records T c) dups records →
  let values := Value <$> records in
  Forall2 (λ entry v, last (cells_with T c entry.1) = Some v) dups values
  ∧ Forall2 (row_reports T c values) dups (DataFrame records)
  ∧ Value <$> DataFrame records = inferred values <$> values.
Proof.
  intros Hrecords values. unfold DataFrame. fold values. split_and!.
  - unfold values. apply Forall2_fmap_r.
    eapply Forall2_impl; [exact Hrecords|].
    intros entry r (Hv & _). exact Hv.
  - clearbody values. apply Forall2_fmap_r.
    eapply Forall2_impl; [exact Hrecords|].
    intros entry r (Hv & Hcount & Hfield).
    split; [by exists (Value r) | by split].
  - subst values. rewrite <-!list_fmap_compose. reflexivity.
Qed.

Lemma generate_report_run σ data T dups c :
  table_of σ data = Some T →
  (∀ h, h ∈ dict_keys dups → 0 < tally T c h) →
  ∃ values report,
    generate_report dups data c σ = Ok report σ
    ∧ Forall2 (row_reports T c values) dups report
    ∧ Forall2 (λ entry v, last (cells_with T c entry.1) = Some v) dups values
    ∧ Value <$> report = inferred values <$> values.
Proof.
  intros HT Hkeys.
  destruct (generate_report_records σ data T dups c HT Hkeys)
    as (records & Hrun & Hrecords).
  destruct (DataFrame_rows _ _ _ _ Hrecords) as (Hvalues & Hrows & Hcolumn).
  by eexists _, _.
Qed.

End report_emit.

(** ** Reading the [Line Numbers] field back *)

Lemma string_of_uint_digits d :
  Forall is_digit (list_ascii_of_string (NilEmpty.string_of_uint d)).
Proof.
  induction d; simpl; constructor; try done; unfold is_digit; simpl;
    set_solver.
Qed.

Lemma to_uint_nonnil n : Nat.to_uint n ≠ Decimal.Nil.
Proof.
  pose proof (Unsigned.to_of (Nat.to_uint n)) as Hnorm.
  rewrite Unsigned.of_to in Hnorm. rewrite Hnorm. apply unorm_nonnil.
Qed.

Lemma str_nat_digits (n : nat) :
  Forall is_digit (list_ascii_of_string (str n)).
Proof. apply string_of_uint_digits. Qed.

Lemma parse_nat_str (n : nat) : parse_nat (str n) = Some n.
Proof.
  unfold parse_nat, str, nat_str.
  pose proof (to_uint_nonnil n) as Hn.
  pose proof (NilZero.usu _ Hn) as Hparse.
  replace (NilZero.string_of_uint (Nat.to_uint n))
    with (NilEmpty.string_of_uint (Nat.to_uint n)) in Hparse
    by (by destruct (Nat.to_uint n)).
  rewrite Hparse. simpl. by rewrite Unsigned.of_to.
Qed.

Lemma split_on_nonempty sep s : split_on sep s ≠ [].
Proof.
  destruct s as [|a s]; simpl; [done|].
  case_decide; [done|]. by destruct (split_on sep s).
Qed.

Lemma split_on_none sep s :
  sep ∉ list_ascii_of_string s → split_on sep s = [s].
Proof.
  induction s as [|a s IH]; simpl; [done|].
  intros [Ha Hs]%not_elem_of_cons. rewrite decide_False by done.
  by rewrite IH.
Qed.

Lemma split_on_app sep s1 s2 :
  sep ∉ list_ascii_of_string s1 →
  split_on sep (s1 ++ String sep s2) = s1 :: split_on sep s2.
Proof.
  induction s1 as [|a s1 IH]; simpl.
  - intros _. by rewrite decide_True.
  - intros [Ha Hs]%not_elem_of_cons. rewrite decide_False by done.
    by rewrite IH.
Qed.

Lemma comma_entries_space s :
  comma_entries (String " " s) = comma_entries s.
Proof.
  unfold comma_entries. simpl.
  pose proof (split_on_nonempty "," s).
  by destruct (split_on "," s) as [|w ws].
Qed.

Lemma digits_no_comma s :
  Forall is_digit (list_ascii_of_string s) →
  ","%char ∉ list_ascii_of_string s.
Proof.
  intros Hs Hin. rewrite Forall_forall in Hs. apply Hs in Hin.
  unfold is_digit in Hin. simpl in Hin. set_solver.
Qed.

Lemma lstrip_digits s :
  Forall is_digit (list_ascii_of_string s) → lstrip s = s.
Proof.
  destruct s as [|a s]; simpl; [done|].
  intros [Ha _]%Forall_cons. rewrite decide_False; [done|].
  intros ->. unfold is_digit in Ha. simpl in Ha. set_solver.
Qed.

(** The entries of a rendered list of line numbers are the numbers. *)
Lemma comma_entries_concat (n : nat) (ns : list nat) :
  comma_entries (String.concat ", " (str <$> n :: ns)) = str <$> n :: ns.
Proof.
  revert n. induction ns as [|m ns IH]; intros n.
  - simpl. unfold comma_entries.
    rewrite split_on_none by apply digits_no_comma, str_nat_digits.
    simpl. by rewrite lstrip_digits by apply str_nat_digits.
  - change (String.concat ", " (str <$> n :: m :: ns))
      with (str n ++ String "," (String " "
              (String.concat ", " (str <$> m :: ns))))%string.
    unfold comma_entries.
    rewrite split_on_app by apply digits_no_comma, str_nat_digits.
    rewrite fmap_cons, lstrip_digits by apply str_nat_digits.
    fold (comma_entries (String " " (String.concat ", " (str <$> m :: ns)))).
    by rewrite comma_entries_space, IH.
Qed.

Lemma listed_lines_concat (ns : list nat) :
  ns ≠ [] → listed_lines (String.concat ", " (str <$> ns)) = Some ns.
Proof.
  destruct ns as [|n ns]; [done|]. intros _. unfold listed_lines.
  rewrite comma_entries_concat. apply mapM_Some.
  apply Forall2_fmap_l, Forall_Forall2_diag, Forall_forall.
  intros m _. apply parse_nat_str.
Qed.

(** ** The dictionary of duplicates *)

Section duplicates_facts.
Context {cell : Type} `{!Str cell}.
Implicit Types (σ : store cell) (T : list (list cell)) (c : nat).
Implicit Types (h k : string) (key : cell → string).

Lemma occurrences_of_fingerprints T c h :
  occurrences_of h (fingerprint <$> column T c) = tally T c h.
Proof.
  unfold occurrences_of, tally, cells_with.
  induction (column T c) as [|v vs IH]; [done|].
  rewrite fmap_cons, !filter_cons. repeat case_decide; simpl; auto; done.
Qed.

Lemma duplicates_of_NoDup T c : NoDup (dict_keys (duplicates_of T c)).
Proof. apply dict_filter_NoDup, Counter_NoDup. Qed.

Lemma duplicates_of_get T c h :
  dict_get h (duplicates_of T c)
  = if decide (1 < tally T c h) then Some (tally T c h) else None.
Proof.
  unfold duplicates_of, dict_items.
  rewrite dict_get_filter by apply Counter_NoDup.
  rewrite Counter_get, occurrences_of_fingerprints.
  repeat case_decide; simpl; repeat case_decide; try done;
    unfold gt in *; lia.
Qed.

Lemma duplicates_of_keys T c h :
  h ∈ dict_keys (duplicates_of T c) ↔ 1 < tally T c h.
Proof.
  rewrite <-dict_get_is_Some, duplicates_of_get.
  case_decide; split; try done; by intros [? ?].
Qed.

Lemma duplicates_of_entry T c h n :
  (h, n) ∈ duplicates_of T c → n = tally T c h ∧ 1 < tally T c h.
Proof.
  intros Hin%dict_elem_of_get; [|apply duplicates_of_NoDup].
  rewrite duplicates_of_get in Hin. case_decide; by simplify_eq.
Qed.

(** ** Rows that share a key *)

Lemma key_at_row_key key T c i : key_at key T c i = T !! i ≫= row_key key c.
Proof. unfold key_at, cell_at, row_key. by destruct (T !! i). Qed.

Lemma key_at_Some key T c i k :
  key_at key T c i = Some k
  ↔ ∃ v, cell_at T c i = Some v ∧ key v = k.
Proof.
  unfold key_at. destruct (cell_at T c i); simpl; naive_solver.
Qed.

Lemma cell_at_column T c i v : cell_at T c i = Some v → v ∈ column T c.
Proof.
  unfold cell_at, column. destruct (T !! i) as [row|] eqn:Hrow; [|done].
  simpl. intros Hv. apply list_elem_of_omap. exists row.
  split; [by eapply list_elem_of_lookup_2 | done].
Qed.

Lemma tally_two T c h : 1 < tally T c h ↔ duplicated fingerprint T c h.
Proof.
  rewrite <-(lines_from_length 0). unfold duplicated.
  pose proof (lines_from_sorted 0 T c h) as Hsorted.
  pose proof (lines_from_spec 0 T c h) as Hspec.
  split.
  - destruct (lines_from 0 T c h) as [|n [|m ns]]; simpl; try lia.
    intros _.
    destruct (Hspec n) as [(i & -> & Hi) _]; [left|].
    destruct (Hspec m) as [(j & -> & Hj) _]; [right; left|].
    apply StronglySorted_inv in Hsorted as [_ Hlt].
    apply Forall_cons in Hlt as [Hlt _].
    exists i, j, h. split_and!; [lia | done..].
  - intros (i & j & k' & Hij & Hi & Hj & Hh).
    assert (k' = h) as -> by congruence.
    assert (0 + i + 1 ∈ lines_from 0 T c h) as Hin1 by (apply Hspec; eauto).
    assert (0 + j + 1 ∈ lines_from 0 T c h) as Hin2 by (apply Hspec; eauto).
    destruct (lines_from 0 T c h) as [|n [|m ns]]; simpl; [..|lia].
    + by apply elem_of_nil in Hin1.
    + apply list_elem_of_singleton in Hin1, Hin2. lia.
Qed.

Lemma duplicated_str_fingerprint T c h :
  duplicated str T c h → duplicated fingerprint T c h.
Proof.
  intros (i & j & k & Hij & Hi & Hj & Hh). exists i, j, h.
  split_and!; [done..| |done].
  apply key_at_Some in Hi as (v & Hv & <-), Hj as (w & Hw & Hvw).
  apply key_at_Some in Hh as (v' & Hv' & <-). simplify_eq.
  apply key_at_Some. exists w. split; [done|]. unfold fingerprint. congruence.
Qed.

Lemma duplicated_fingerprint_str T c h :
  collision_free T c → duplicated fingerprint T c h → duplicated str T c h.
Proof.
  intros Hfree (i & j & k & Hij & Hi & Hj & Hh).
  apply key_at_Some in Hi as (v & Hv & <-), Hj as (w & Hw & Hvw).
  exists i, j, (str v). split_and!; [done| | |done].
  - apply key_at_Some. eauto.
  - apply key_at_Some. exists w. split; [done|].
    apply Hfree; eauto using cell_at_column.
Qed.

Lemma last_occurrence_is_last key T c i :
  last_occurrence key T c i ↔ is_last (row_key key c) T i.
Proof.
  unfold last_occurrence, is_last. by setoid_rewrite key_at_row_key.
Qed.

Lemma last_occurrence_str_fingerprint T c i :
  collision_free T c →
  last_occurrence fingerprint T c i ↔ last_occurrence str T c i.
Proof.
  intros Hfree. unfold last_occurrence. split.
  - intros (k & (v & Hv & <-)%key_at_Some & Hlast). exists (str v).
    split; [apply key_at_Some; eauto|].
    intros j Hj (w & Hw & Hvw)%key_at_Some. apply (Hlast j Hj).
    apply key_at_Some. exists w. split; [done|]. unfold fingerprint. congruence.
  - intros (k & (v & Hv & <-)%key_at_Some & Hlast). exists (fingerprint v).
    split; [apply key_at_Some; eauto|].
    intros j Hj (w & Hw & Hvw)%key_at_Some. apply (Hlast j Hj).
    apply key_at_Some. exists w. split; [done|].
    apply Hfree; eauto using cell_at_column.
Qed.

End duplicates_facts.

(** * The properties of the specification *)

Section detector_and_report.
Context {cell : Type} `{!Str cell} `{!Infer cell}.
Implicit Types (σ : store cell) (T : list (list cell)) (c : nat).
Implicit Types (h : string) (dups : dict string nat).

(** Detection followed by the report, as the handler runs them. *)
Lemma detect_and_report_run σ data T c :
  table_of σ data = Some T →
  ∃ values report,
    detect_duplicates data c σ = Ok (duplicates_of T c) σ
    ∧ generate_report (duplicates_of T c) data c σ = Ok report σ
    ∧ Forall2 (row_reports T c values) (duplicates_of T c) report
    ∧ Forall2 (λ entry v, last (cells_with T c entry.1) = Some v)
        (duplicates_of T c) values
    ∧ Value <$> report = inferred values <$> values.
Proof.
  intros HT.
  assert (∀ h, h ∈ dict_keys (duplicates_of T c) → 0 < tally T c h) as Hkeys.
  { intros h ?%duplicates_of_keys. lia. }
  destruct (generate_report_run σ data T (duplicates_of T c) c HT Hkeys)
    as (values & report & Hrun & Hrows & Hvalues & Hcolumn).
  exists values, report.
  split_and!; [by apply detect_duplicates_run | done..].
Qed.

(** When no two different strings of the column share a digest, the
    fingerprints returned are exactly those of string-identical values. *)
Lemma detector_sound_for_strings σ data T c :
  table_of σ data = Some T → collision_free T c →
  detector_sound str σ data T c.
Proof.
  intros HT Hfree.
  exists (duplicates_of T c). split; [by apply detect_duplicates_run|].
  intros h. rewrite duplicates_of_keys, tally_two. split; [|done].
  split; [by apply duplicated_fingerprint_str
         | apply duplicated_str_fingerprint].
Qed.

(** C2, as amended: a fingerprint is in the result of
    [detect_duplicates] iff at least two rows wide enough carry that
    fingerprint at column [c], that is, iff its tally exceeds 1.  Two rows
    with string-identical values always put their fingerprint in the
    result; the converse, hence the property in terms of string-identical
    values, holds when no two different strings of the column share a
    digest. *)
Theorem detect_duplicates_sound σ data T c :
  table_of σ data = Some T →
  detector_sound fingerprint σ data T c
  ∧ (∀ h, duplicated str T c h → duplicated fingerprint T c h)
  ∧ (collision_free T c → detector_sound str σ data T c).
Proof.
  intros HT. split_and!.
  - exists (duplicates_of T c). split; [by apply detect_duplicates_run|].
    intros h. by rewrite duplicates_of_keys, tally_two.
  - apply duplicated_str_fingerprint.
  - by apply detector_sound_for_strings.
Qed.

(** C8: on the empty table, and on any table none of whose rows is wide
    enough to contain column [c], [detect_duplicates] returns the empty
    dictionary. *)
Theorem detect_duplicates_nothing_wide σ data T c :
  table_of σ data = Some T →
  T = [] ∨ Forall (λ row, length row ≤ c) T →
  detect_duplicates data c σ = Ok [] σ.
Proof.
  intros HT Hshort. rewrite (detect_duplicates_run _ _ _ _ HT). f_equal.
  assert (column T c = []) as Hcol.
  { destruct Hshort as [->|Hshort]; [done|]. unfold column.
    clear HT. induction Hshort as [|row T' Hrow _ IH]; [done|]. simpl.
    by rewrite lookup_ge_None_2 by done. }
  unfold duplicates_of. by rewrite Hcol.
Qed.

(** C10: with the dictionary [detect_duplicates] returns for the same table
    and column, the scan of [generate_report] enters every key of the
    dictionary in both [reverse_lookup] and [line_numbers], and
    [generate_report] returns a report: no lookup raises [KeyError]. *)
Theorem generate_report_no_KeyError σ data T c :
  table_of σ data = Some T →
  ∃ dups reverse_lookup line_numbers report,
    detect_duplicates data c σ = Ok dups σ
    ∧ generate_report_scan dups data c σ
      = Ok (reverse_lookup, line_numbers) σ
    ∧ (∀ h, h ∈ dict_keys dups →
            is_Some (reverse_lookup !! h) ∧ is_Some (line_numbers !! h))
    ∧ generate_report dups data c σ = Ok report σ.
Proof.
  intros HT.
  assert (∀ h, h ∈ dict_keys (duplicates_of T c) → 0 < tally T c h) as Hkeys.
  { intros h ?%duplicates_of_keys. lia. }
  destruct (generate_report_scan_run σ data T (duplicates_of T c) c HT)
    as (rl & ln & Hscan & Hrl & Hln).
  destruct (generate_report_run σ data T (duplicates_of T c) c HT Hkeys)
    as (values & report & Hrun & _).
  exists (duplicates_of T c), rl, ln, report.
  split_and!; [by apply detect_duplicates_run | done | | done].
  intros h Hh. pose proof (Hkeys h Hh) as Hpos.
  rewrite Hrl, Hln, decide_True by done.
  rewrite <-(lines_from_length 0) in Hpos.
  split; [apply last_is_Some|rewrite decide_True; [done|split; [done|]]].
  - unfold tally in Hkeys. specialize (Hkeys h Hh).
    destruct (cells_with T c h); [simpl in *; lia | done].
  - unfold lines_with. destruct (lines_from 0 T c h); [simpl in *; lia | done].
Qed.

Lemma kept_as_is_column (values : list cell) :
  kept_as_is values → inferred values <$> values = values.
Proof.
  unfold kept_as_is. generalize values at 1 3 as column. intros column Hkept.
  induction Hkept as [|v vs Hv _ IH]; [done|]. csimpl. by rewrite Hv, IH.
Qed.

(** C1, as amended: for every fingerprint of the dictionary given to
    [generate_report], the [Value] of its report row is what the
    [DataFrame] makes of the cell of the last row, in table order among
    the rows wide enough, whose fingerprint is that fingerprint: every
    later row with the fingerprint replaces the value captured so far, and
    the inference of the [Value] column converts what was captured.  Where
    the inference keeps the values as they are, the [Value] is the cell of
    that last row itself. *)
Theorem generate_report_value_last σ data T c dups :
  table_of σ data = Some T →
  (∀ h, h ∈ dict_keys dups → 0 < tally T c h) →
  report_values last σ data T c dups.
Proof.
  intros HT Hkeys.
  destruct (generate_report_run σ data T dups c HT Hkeys)
    as (values & report & Hrun & Hrows & Hvalues & Hcolumn).
  exists report, values. split_and!; [done..|].
  intros Hkept. rewrite (kept_as_is_column _ Hkept) in Hcolumn.
  subst values. by rewrite Forall2_fmap_r in Hvalues.
Qed.



End detector_and_report.

Section deduplicator.
Context {cell : Type} `{!Str cell} `{!Infer cell}.
Implicit Types (σ : store cell) (T : list (list cell)) (c : nat).
Implicit Types (xs : list (loc * list cell)) (h : string).

Lemma table_of_insert_fresh σ data T out ls :
  table_of σ data = Some T → σ !! out = None →
  table_of (<[out := Rows ls]> σ) data = Some T.
Proof.
  intros (xs & Hdata & <- & Hxs)%table_of_rows Hout.
  apply rows_table_of; [|apply rows_ok_insert; auto].
  rewrite lookup_insert_ne; [done | congruence].
Qed.

Lemma rows_ok_keep_last σ xs (key : loc * list cell → option string) :
  rows_ok σ xs → rows_ok σ (keep_last key xs).
Proof.
  unfold rows_ok. rewrite !Forall_forall. intros Hxs p Hp. apply Hxs.
  eapply elem_of_sublist; [done | apply keep_last_sublist].
Qed.

(** The store and the table [remove_duplicates] returns. *)
Lemma remove_duplicates_table σ data xs c :
  σ !! data = Some (Rows xs.*1) → rows_ok σ xs →
  let out := fresh (dom σ) in
  let kept := keep_last (row_key fingerprint c ∘ snd) xs in
  remove_duplicates data c σ = Ok out (<[out := Rows kept.*1]> σ)
  ∧ σ !! out = None
  ∧ table_of (<[out := Rows kept.*1]> σ) out
    = Some (keep_last (row_key fingerprint c) xs.*2).
Proof.
  intros Hdata Hxs out kept.
  assert (σ !! out = None) as Hout by apply not_elem_of_dom, is_fresh.
  split_and!; [by apply remove_duplicates_run | done |].
  rewrite keep_last_fmap. apply rows_table_of.
  - by rewrite lookup_insert_eq.
  - apply rows_ok_insert; [|by left]. by apply rows_ok_keep_last.
Qed.

Lemma keep_last_wide T c :
  Forall (λ row, c < length row) (keep_last (row_key fingerprint c) T).
Proof.
  apply Forall_forall. intros row [h Hh]%keep_last_is_Some.
  unfold row_key in Hh. destruct (row !! c) eqn:Hc; [|done].
  by eapply lookup_lt_Some.
Qed.

Lemma keep_last_one_row_per_key T c :
  one_row_per_key fingerprint T c (keep_last (row_key fingerprint c) T).
Proof.
  split_and!; [apply keep_last_wide | apply keep_last_keys_NoDup |].
  intros k. apply keep_last_keys.
Qed.

Lemma keep_last_keeps_last_of_each T c :
  keeps_last_of_each fingerprint T c (keep_last (row_key fingerprint c) T).
Proof.
  destruct (keep_last_indices (row_key fingerprint c) T)
    as (idxs & Hsorted & Hrows & Hlast).
  exists idxs. split_and!; [done..|].
  intros i. by rewrite Hlast, last_occurrence_is_last.
Qed.

(** C4: applying [remove_duplicates] to its own output, for the same
    column, returns a list with the same rows, hence an equal table. *)
Theorem remove_duplicates_idempotent σ data T c :
  table_of σ data = Some T →
  ∃ out1 σ1 out2 σ2 T',
    remove_duplicates data c σ = Ok out1 σ1
    ∧ remove_duplicates out1 c σ1 = Ok out2 σ2
    ∧ table_of σ1 out1 = Some T'
    ∧ table_of σ2 out2 = Some T'
    ∧ σ2 !! out2 = σ1 !! out1.
Proof.
  intros (xs & Hdata & <- & Hxs)%table_of_rows.
  destruct (remove_duplicates_table σ data xs c Hdata Hxs)
    as (Hrun1 & Hout1 & Htable1).
  set (out1 := fresh (dom σ)) in *.
  set (kept := keep_last (row_key fingerprint c ∘ snd) xs) in *.
  set (σ1 := <[out1 := Rows kept.*1]> σ) in *.
  assert (σ1 !! out1 = Some (Rows kept.*1)) as Hdata1.
  { unfold σ1. by rewrite lookup_insert_eq. }
  assert (rows_ok σ1 kept) as Hkept.
  { apply rows_ok_insert; [|by left]. by apply rows_ok_keep_last. }
  destruct (remove_duplicates_table σ1 out1 kept c Hdata1 Hkept)
    as (Hrun2 & Hout2 & Htable2).
  assert (keep_last (row_key fingerprint c ∘ snd) kept = kept) as Hidem.
  { apply keep_last_idemp. }
  rewrite Hidem in Hrun2, Htable2.
  assert (keep_last (row_key fingerprint c) kept.*2 = kept.*2) as Hidem2.
  { unfold kept. rewrite <-keep_last_fmap. apply keep_last_idemp. }
  rewrite Hidem2 in Htable2.
  eexists _, _, _, _, _. split_and!; [done..| |done|].
  - rewrite Htable1. f_equal. unfold kept. by rewrite keep_last_fmap.
  - by rewrite lookup_insert_eq.
Qed.

(** C9: [detect_duplicates] and [generate_report] return with the store
    they were given; [remove_duplicates] returns a list object that did
    not exist before, different from the input table, which holds a table
    of its own when the call returns, and leaves every object that existed
    before as it was, the input table and its rows among them. *)
Theorem pipeline_leaves_table_unchanged σ data T c :
  table_of σ data = Some T →
  (∃ dups report,
      detect_duplicates data c σ = Ok dups σ
      ∧ generate_report dups data c σ = Ok report σ)
  ∧ ∃ out σ' ls T',
      remove_duplicates data c σ = Ok out σ'
      ∧ σ !! out = None
      ∧ out ≠ data
      ∧ σ' !! out = Some (Rows ls)
      ∧ table_of σ' out = Some T'
      ∧ (∀ l, l ≠ out → σ' !! l = σ !! l)
      ∧ table_of σ' data = Some T.
Proof.
  intros HT. split.
  - destruct (detect_and_report_run σ data T c HT)
      as (values & report & ? & ? & _). eauto.
  - pose proof HT as (xs & Hdata & <- & Hxs)%table_of_rows.
    destruct (remove_duplicates_table σ data xs c Hdata Hxs)
      as (Hrun & Hout & Htable).
    eexists _, _, _, _. split_and!; [done..| | | exact Htable | |].
    + congruence.
    + apply lookup_insert_eq.
    + intros l Hl. by rewrite lookup_insert_ne.
    + by apply table_of_insert_fresh.
Qed.

End deduplicator.

Section short_rows.
Context {cell : Type} `{!Str cell} `{!Infer cell}.
Implicit Types (σ : store cell) (T : list (list cell)) (c : nat).
Implicit Types (xs : list (loc * list cell)) (h : string).

Lemma column_delete_short T c i row :
  T !! i = Some row → length row ≤ c → column (delete i T) c = column T c.
Proof.
  unfold column. revert i. induction T as [|r T IH]; intros [|i]; try done.
  - simpl. intros [= ->] Hshort. by rewrite lookup_ge_None_2.
  - csimpl. intros Hi Hshort. by rewrite (IH i).
Qed.

Lemma table_of_without_row σ data T i :
  table_of σ data = Some T →
  table_of (without_row σ data i) data = Some (delete i T).
Proof.
  intros (xs & Hdata & <- & Hxs)%table_of_rows.
  unfold without_row. rewrite Hdata.
  replace (delete i xs.*1) with (delete i xs).*1
    by (clear; revert i; induction xs; intros [|i]; csimpl; f_equal; auto).
  replace (delete i xs.*2) with (delete i xs).*2
    by (clear; revert i; induction xs; intros [|i]; csimpl; f_equal; auto).
  apply rows_table_of; [by rewrite lookup_insert_eq|].
  apply rows_ok_insert; [|eauto].
  unfold rows_ok in *. rewrite Forall_forall in Hxs |- *.
  intros p Hp. apply Hxs. eapply elem_of_sublist; [done|].
  apply sublist_delete.
Qed.

(** C7: a row too short to contain column [c] takes part in no stage.
    Detection returns what it returns for the table without that row; the
    report lists its line number under no fingerprint; the row is not in
    the output of [remove_duplicates], neither as a value nor as an
    object; and all three stages return normally. *)
Theorem short_rows_excluded σ data T c i row :
  table_of σ data = Some T →
  T !! i = Some row →
  length row ≤ c →
  (∃ dups report,
      detect_duplicates data c σ = Ok dups σ
      ∧ detect_duplicates data c (without_row σ data i)
        = Ok dups (without_row σ data i)
      ∧ generate_report dups data c σ = Ok report σ
      ∧ Forall (λ r, ∃ nums, listed_lines (Line_Numbers r) = Some nums
                             ∧ i + 1 ∉ nums) report)
  ∧ ∃ out σ' T',
      remove_duplicates data c σ = Ok out σ'
      ∧ table_of σ' out = Some T'
      ∧ (row ∉ T')
      ∧ ∀ ls ls' l, σ !! data = Some (Rows ls) → ls !! i = Some l →
                    σ' !! out = Some (Rows ls') → l ∉ ls'.
Proof.
  intros HT Hrow Hshort. split.
  - destruct (detect_and_report_run σ data T c HT)
      as (values & report & Hdetect & Hreport & Hrows & _).
    exists (duplicates_of T c), report. split_and!; [done| |done|].
    + rewrite (detect_duplicates_run _ _ (delete i T));
        [|by apply table_of_without_row].
      unfold duplicates_of. by erewrite column_delete_short.
    + apply Forall_forall. intros r [k Hr]%list_elem_of_lookup.
      destruct (Forall2_lookup_r _ _ _ _ _ Hrows Hr)
        as ([h count] & Hentry%list_elem_of_lookup_2 & _ & _ & Hfield).
      simpl in Hfield. apply duplicates_of_entry in Hentry as [_ Htally].
      exists (lines_with T c h). rewrite Hfield. split.
      * apply listed_lines_concat. intros Hnil.
        rewrite <-(lines_from_length 0) in Htally.
        unfold lines_with in Hnil. rewrite Hnil in Htally.
        simpl in Htally. lia.
      * intros (i' & Hi' & (v & Hv & _)%key_at_Some)%lines_from_spec.
        assert (i' = i) as -> by lia. unfold cell_at in Hv.
        rewrite Hrow in Hv. simpl in Hv.
        by rewrite lookup_ge_None_2 in Hv.
  - pose proof HT as (xs & Hdata & <- & Hxs)%table_of_rows.
    destruct (remove_duplicates_table σ data xs c Hdata Hxs)
      as (Hrun & Hout & Htable).
    eexists _, _, _. split_and!; [done..| |].
    + intros Hin. pose proof (keep_last_wide xs.*2 c) as Hwide.
      rewrite Forall_forall in Hwide. apply Hwide in Hin. lia.
    + intros ls ls' l Hls Hl. rewrite lookup_insert_eq. intros [= <-].
      intros ([l' cs] & -> & Hp)%list_elem_of_fmap. simpl in *.
      assert (is_Some (row_key fingerprint c cs)) as [h Hh].
      { by apply (keep_last_is_Some (row_key fingerprint c ∘ snd) xs (l', cs)). }
      assert ((l', cs) ∈ xs) as Hpxs.
      { eapply elem_of_sublist; [done | apply keep_last_sublist]. }
      unfold rows_ok in Hxs. rewrite Forall_forall in Hxs.
      pose proof (Hxs _ Hpxs) as Hcs. simpl in Hcs.
      rewrite Hdata in Hls. injection Hls as <-.
      rewrite list_lookup_fmap in Hl. rewrite list_lookup_fmap in Hrow.
      destruct (xs !! i) as [[l'' cs'']|] eqn:Hi; simplify_eq/=.
      apply list_elem_of_lookup_2, Hxs in Hi. simpl in Hi.
      rewrite Hcs in Hi. injection Hi as <-.
      unfold row_key in Hh. by rewrite lookup_ge_None_2 in Hh.
Qed.

End short_rows.

Section string_keys.
Context {cell : Type} `{!Str cell} `{!Infer cell}.
Implicit Types (σ : store cell) (T : list (list cell)) (c : nat).
Implicit Types (k h : string) (key : cell → string).

Lemma elem_of_keys_of key T c k :
  k ∈ keys_of key T c ↔ ∃ v, v ∈ column T c ∧ key v = k.
Proof.
  unfold keys_of, column, row_key. rewrite list_elem_of_omap. split.
  - intros (row & Hrow & Hk). destruct (row !! c) as [v|] eqn:Hv; [|done].
    exists v. split; [|by simplify_eq/=]. apply list_elem_of_omap. eauto.
  - intros (v & (row & Hrow & Hv)%list_elem_of_omap & <-).
    exists row. split; [done|]. by rewrite Hv.
Qed.

Lemma keys_of_fingerprint T c :
  keys_of fingerprint T c = generate_hash <$> keys_of str T c.
Proof.
  unfold keys_of, row_key. induction T as [|row T IH]; csimpl; [done|].
  rewrite IH. by destruct (row !! c).
Qed.

Lemma column_sublist T T' c :
  T' `sublist_of` T → ∀ v, v ∈ column T' c → v ∈ column T c.
Proof.
  unfold column. intros Hsub v (row & Hrow & Hv)%list_elem_of_omap.
  apply list_elem_of_omap. exists row. split; [|done].
  by eapply elem_of_sublist.
Qed.

Lemma keep_last_one_row_per_string T c :
  collision_free T c →
  one_row_per_key str T c (keep_last (row_key fingerprint c) T).
Proof.
  intros Hfree.
  destruct (keep_last_one_row_per_key T c) as (Hwide & Hnodup & Hkeys).
  pose proof (column_sublist T _ c
                (keep_last_sublist (row_key fingerprint c) T)) as Hsub.
  split_and!; [done| |].
  - rewrite keys_of_fingerprint in Hnodup. by eapply NoDup_fmap_1.
  - intros k. rewrite !elem_of_keys_of. split.
    + intros (v & Hv & <-). eauto.
    + intros (v & Hv & <-).
      assert (fingerprint v ∈ keys_of fingerprint T c) as Hin
        by (apply elem_of_keys_of; eauto).
      apply Hkeys, elem_of_keys_of in Hin as (w & Hw & Hvw).
      exists w. split; [done|]. apply Hfree; auto.
Qed.

(** When no two different strings of the column share a digest,
    [remove_duplicates] keeps exactly one row per distinct string of the
    column, the last one, in the original order. *)
Lemma deduplicates_strings σ data T c :
  table_of σ data = Some T → collision_free T c →
  deduplicates str σ data T c.
Proof.
  intros HT Hfree.
  pose proof HT as (xs & Hdata & <- & Hxs)%table_of_rows.
  destruct (remove_duplicates_table σ data xs c Hdata Hxs)
    as (Hrun & Hout & Htable).
  eexists _, _, _. split_and!; [done..| |].
  - by apply keep_last_one_row_per_string.
  - destruct (keep_last_keeps_last_of_each xs.*2 c)
      as (idxs & Hsorted & Hrows & Hlast).
    exists idxs. split_and!; [done..|].
    intros i. by rewrite Hlast, last_occurrence_str_fingerprint.
Qed.

(** C3, as amended: [remove_duplicates] returns a table with exactly one
    row per distinct fingerprint found at column [c] among the rows wide
    enough; the row kept for a fingerprint is the last row carrying it, and
    the rows kept are in the order they have in the input.  The same holds
    per distinct value-string when no two different strings of the column
    share a digest. *)
Theorem remove_duplicates_keeps_last σ data T c :
  table_of σ data = Some T →
  deduplicates fingerprint σ data T c
  ∧ (collision_free T c → deduplicates str σ data T c).
Proof.
  intros HT. split; [|by apply deduplicates_strings].
  pose proof HT as (xs & Hdata & <- & Hxs)%table_of_rows.
  destruct (remove_duplicates_table σ data xs c Hdata Hxs)
    as (Hrun & Hout & Htable).
  eexists _, _, _. split_and!; [done..| |].
  - apply keep_last_one_row_per_key.
  - apply keep_last_keeps_last_of_each.
Qed.

End string_keys.

(** ** The button handler *)

Section driver.
Context {cell : Type} `{!Str cell} `{!Infer cell}.
Context (to_excel : list (list cell) → attempt (list N)).
Context (to_csv : list (list cell) → attempt (list N)).
Implicit Types (σ : store cell) (T : list (list cell)) (c : nat).

Lemma call_run {A} (a : attempt A) σ :
  (call a : M cell A) σ
  = match a with
    | Returned x => Ok x σ
    | Thrown e => Raise (LibraryError e)
    end.
Proof. done. Qed.

Lemma save_data_run σ data T file_name :
  table_of σ data = Some T →
  save_data to_excel to_csv data file_name σ
  = if endswith file_name ".xlsx" then
      match to_excel T with
      | Returned output => Ok (Some output) σ
      | Thrown e => Raise (LibraryError e)
      end
    else if endswith file_name ".csv" then
      match to_csv T with
      | Returned output => Ok (Some output) σ
      | Thrown e => Raise (LibraryError e)
      end
    else Ok None σ.
Proof.
  intros (xs & Hdata & <- & Hxs)%table_of_rows.
  unfold save_data. rewrite bind_run, (items_run _ _ _ Hdata), bind_run.
  match goal with
  | |- context [for_each _ ?body _ _] =>
      assert (∀ acc, for_each xs.*1 body acc σ = Ok (acc ++ xs.*2) σ) as ->
  end.
  { clear Hdata. induction Hxs as [|[l cs] xs Hrow _ IH]; intros acc; csimpl.
    { by rewrite app_nil_r. }
    simpl in Hrow. rewrite !bind_run. unfold cells at 1. rewrite Hrow.
    rewrite mret_run, IH. by rewrite <-app_assoc. }
  simpl. destruct (endswith file_name ".xlsx").
  { rewrite bind_run, call_run. by destruct (to_excel _). }
  destruct (endswith file_name ".csv"); [|done].
  rewrite bind_run, call_run. by destruct (to_csv _).
Qed.

(** C6: with a column index outside the bounds of the first row the
    handler shows the error and nothing else, and the store is as it was;
    with an index within bounds it shows what detection, the report and
    the deduplicated export produce, and raises what the Excel writer
    throws when it throws. *)
Theorem button_handler_validates σ data first_row rest column_index :
  table_of σ data = Some (first_row :: rest) →
  ((column_index < 0 ∨ column_index >= Z.of_nat (length first_row))%Z →
     button_handler to_excel to_csv data column_index σ
     = Ok [st_error "The selected column does not exist."] σ)
  ∧ ((0 ≤ column_index < Z.of_nat (length first_row))%Z →
     ∃ dups,
       detect_duplicates data (Z.to_nat column_index) σ = Ok dups σ
       ∧ match dups with
         | [] =>
             button_handler to_excel to_csv data column_index σ
             = Ok [st_info "No duplicates detected."] σ
         | _ :: _ =>
             ∃ report out σ' T',
               generate_report dups data (Z.to_nat column_index) σ
               = Ok report σ
               ∧ remove_duplicates data (Z.to_nat column_index) σ
                 = Ok out σ'
               ∧ table_of σ' out = Some T'
               ∧ button_handler to_excel to_csv data column_index σ
                 = match to_excel T' with
                   | Returned processed_data =>
                       Ok [st_subheader "Duplicate Detection Report";
                           st_table report;
                           st_download_button
                             "Download data without duplicates"
                             (Some processed_data)
                             "data_without_duplicates.xlsx"
                             "application/octet-stream"] σ'
                   | Thrown e => Raise (LibraryError e)
                   end
         end).
Proof.
  intros HT.
  pose proof HT as (xs & Hdata & Hrows & Hxs)%table_of_rows.
  destruct xs as [|[l0 cs0] xs]; [done|]. csimpl in *.
  injection Hrows as -> Hrest.
  apply Forall_cons in Hxs as [Hfirst Hxs]. simpl in Hfirst.
  assert (getrow data 0 σ = Ok l0 σ) as Hgetrow.
  { unfold getrow. by rewrite Hdata. }
  split.
  - intros Hout. unfold button_handler. rewrite bind_run.
    case_decide as Hneg; [by rewrite mret_run|].
    rewrite !bind_run, Hgetrow, bind_run, (len_run _ _ _ Hfirst), mret_run.
    rewrite bool_decide_eq_true_2; [done | lia].
  - intros Hin.
    destruct (detect_and_report_run σ data _ (Z.to_nat column_index) HT)
      as (values & report & Hdetect & Hreport & _).
    eexists. split; [done|].
    assert (∀ k : bool → M cell (list (widget cell)),
      ((if decide (column_index < 0)%Z then mret true
        else first_row ← getrow data 0;
             n ← len first_row;
             mret (bool_decide (column_index >= Z.of_nat n)%Z)) ≫= k) σ
      = k false σ) as Hcheck.
    { intros k. rewrite bind_run. rewrite decide_False by lia.
      rewrite !bind_run, Hgetrow, bind_run, (len_run _ _ _ Hfirst), mret_run.
      rewrite bool_decide_eq_false_2; [done | lia]. }
    destruct (duplicates_of (first_row :: rest) (Z.to_nat column_index))
      as [|entry dups] eqn:Hdups.
    + unfold button_handler. rewrite Hcheck. cbv zeta.
      by rewrite bind_run, Hdetect.
    + pose proof HT as (ys & Hys & Hrows & Hok)%table_of_rows.
      destruct (remove_duplicates_table σ data ys (Z.to_nat column_index)
                  Hys Hok) as (Hrun & Hfresh & Htable).
      eexists _, _, _, _. split_and!; [done..|].
      unfold button_handler. rewrite Hcheck. cbv zeta.
      rewrite bind_run, Hdetect, bind_run, Hreport, bind_run, Hrun.
      rewrite bind_run, (save_data_run _ _ _ _ Htable).
      assert (endswith "data_without_duplicates.xlsx" ".xlsx" = true) as ->
        by (by vm_compute).
      by destruct (to_excel _).
Qed.

End driver.

(** ** Further properties of the report *)

Section report_more.
Context {cell : Type} `{!Str cell} `{!Infer cell}.
Implicit Types (σ : store cell) (T : list (list cell)) (c : nat).
Implicit Types (h : string) (dups : dict string nat).

(** The report made from the result of [detect_duplicates] has one row
    per duplicate fingerprint, in the order of the dictionary; its [Count]
    is the tally of the fingerprint, at least 2, and its [Line Numbers]
    are the line numbers of the rows carrying the fingerprint, joined by a
    comma and a space. *)
Theorem generate_report_rows σ data T c :
  table_of σ data = Some T →
  ∃ dups report,
    detect_duplicates data c σ = Ok dups σ
    ∧ generate_report dups data c σ = Ok report σ
    ∧ Forall2 (λ entry r,
        Count r = tally T c entry.1
        ∧ 2 ≤ Count r
        ∧ Line_Numbers r
          = String.concat ", " (str <$> lines_with T c entry.1))
        dups report.
Proof.
  intros HT.
  destruct (detect_and_report_run σ data T c HT)
    as (values & report & Hdetect & Hrun & Hrows & _).
  exists (duplicates_of T c), report. split_and!; [done..|].
  assert (Forall (λ entry, entry.2 = tally T c entry.1 ∧ 2 ≤ entry.2)
            (duplicates_of T c)) as Hentries.
  { apply Forall_forall. intros [h n] [-> ?]%duplicates_of_entry.
    simpl. split; [done | lia]. }
  revert Hentries Hrows. clear. generalize (duplicates_of T c) as dups.
  intros dups Hentries Hrows.
  induction Hrows as [|entry r dups report Hr _ IH]; [constructor|].
  apply Forall_cons in Hentries as [[Hn Htwo] Hrest].
  constructor; [|by apply IH].
  destruct Hr as (_ & Hcount & Hfield). rewrite Hcount. by split_and!.
Qed.

(** An empty dictionary of duplicates yields an empty report. *)
Theorem generate_report_empty σ data T c :
  table_of σ data = Some T →
  generate_report [] data c σ = Ok [] σ.
Proof.
  intros HT.
  destruct (generate_report_run σ data T [] c HT)
    as (values & report & Hrun & Hrows & _).
  { by intros h ?%elem_of_nil. }
  apply Forall2_nil_inv_l in Hrows as ->. done.
Qed.

(** A fingerprint that no row carries at column [c] makes
    [generate_report] raise [KeyError]: the report relies on the
    dictionary coming from the same table and column. *)
Theorem generate_report_KeyError σ data T c dups h :
  table_of σ data = Some T →
  h ∈ dict_keys dups →
  tally T c h = 0 →
  generate_report dups data c σ = Raise KeyError.
Proof.
  intros HT Hh Hnone.
  destruct (generate_report_scan_run σ data T dups c HT)
    as (rl & ln & Hscan & Hrl & Hln).
  unfold generate_report. rewrite bind_run, Hscan, bind_run.
  assert (rl !! h = None) as Hmiss.
  { rewrite Hrl, decide_True by done. apply last_None.
    unfold tally in Hnone. by destruct (cells_with T c h). }
  clear Hscan Hrl Hln. unfold generate_report_emit, dict_items.
  match goal with
  | |- context [for_each _ ?b _ _] => set (body := b)
  end.
  assert (∀ acc, for_each dups body acc σ = Raise KeyError) as Hloop;
    [|by rewrite Hloop].
  unfold dict_keys in Hh.
  induction dups as [|[h0 count] dups IH]; intros acc.
  { by apply elem_of_nil in Hh. }
  simpl. unfold body at 1. unfold lookup_key. rewrite !bind_run.
  destruct (rl !! h0) as [v|] eqn:Hv; [|done].
  rewrite mret_run, bind_run.
  destruct (ln !! h0) as [lines|]; [|done].
  rewrite !mret_run. apply IH.
  rewrite fmap_cons in Hh. simpl in Hh.
  apply elem_of_cons in Hh as [->|?]; [congruence | done].
Qed.

End report_more.

(** * The scenarios, run *)

(** Every table has a store that holds it. *)
Lemma load_table_of {cell} (T : list (list cell)) :
  table_of (load T) the_table = Some T.
Proof.
  unfold table_of, rows_of, load, the_table. rewrite lookup_insert_eq. simpl.
  set (ls := Pos.of_nat <$> seq 2 (length T)).
  assert (length ls = length T) as Hlen.
  { unfold ls. by rewrite length_fmap, length_seq. }
  assert (NoDup ls) as Hnodup.
  { unfold ls. apply NoDup_fmap_2_strong; [|apply NoDup_seq].
    intros x y [? _]%elem_of_seq [? _]%elem_of_seq. apply Nat2Pos.inj; lia. }
  assert (∀ i l, ls !! i = Some l → 1%positive ≠ l) as Hne.
  { intros i l Hl. unfold ls in Hl. rewrite list_lookup_fmap in Hl.
    destruct (seq 2 (length T) !! i) as [n|] eqn:Hn; simplify_eq/=.
    apply lookup_seq in Hn as [-> _]. intros Heq.
    apply (f_equal Pos.to_nat) in Heq. rewrite Nat2Pos.id in Heq by lia.
    simpl in Heq. lia. }
  clearbody ls.
  apply mapM_Some, Forall2_same_length_lookup_2; [done|].
  intros i l row Hl Hrow. unfold row_of.
  rewrite lookup_insert_ne by eauto.
  assert ((list_to_map (zip ls (Row <$> T)) : store cell) !! l
          = Some (Row row)) as ->; [|done].
  apply elem_of_list_to_map_1.
  - rewrite fst_zip; [done|]. rewrite length_fmap. unfold loc in *. lia.
  - apply list_elem_of_lookup. exists i. apply lookup_zip_with_Some.
    exists l, (Row row). split_and!; [done..|].
    by rewrite list_lookup_fmap, Hrow.
Qed.

Example md5_empty : generate_hash "" = "d41d8cd98f00b204e9800998ecf8427e".
Proof. vm_compute. reflexivity. Qed.

Example md5_abc : generate_hash "abc" = "900150983cd24fb0d6963f7d28e17f72".
Proof. vm_compute. reflexivity. Qed.

(** 56 bytes: the padding spills into a second block. *)
Example md5_padding_boundary :
  generate_hash "aaaaaaaaaaaaaaaaaaaaaaaaaaaaaaaaaaaaaaaaaaaaaaaaaaaaaaaa"
  = "3b0c8ac703f828b04c6c197006d17218".
Proof. vm_compute. reflexivity. Qed.

Example md5_two_blocks :
  generate_hash
    "12345678901234567890123456789012345678901234567890123456789012345678901234567890"
  = "57edf4a22be3c955ac49da2e2107b67a".
Proof. vm_compute. reflexivity. Qed.

Example colliders_differ : collider_a ≠ collider_e.
Proof. discriminate. Qed.

Example colliders_collide :
  generate_hash collider_a = generate_hash collider_e.
Proof. vm_compute. reflexivity. Qed.

Example scenario1_loaded : table_of (load scenario1) the_table = Some scenario1.
Proof. vm_compute. reflexivity. Qed.

Example scenario1_detect :
  detect_duplicates the_table 1 (load scenario1)
  = Ok [("0cc175b9c0f1b6a831c399e269772661", 2)] (load scenario1).
Proof. vm_compute. reflexivity. Qed.

Example scenario1_report :
  generate_report [("0cc175b9c0f1b6a831c399e269772661", 2)] the_table 1
    (load scenario1)
  = Ok [ReportRow (PyStr "a") 2 "1, 3"] (load scenario1).
Proof. vm_compute. reflexivity. Qed.

Example scenario1_dedup :
  match remove_duplicates the_table 1 (load scenario1) with
  | Ok out σ' => table_of σ' out
  | Raise _ => None
  end
  = Some [[PyInt 2; PyStr "b"]; [PyInt 3; PyStr "a"]; [PyInt 4; PyStr "c"]].
Proof. vm_compute. reflexivity. Qed.

Example scenario3_dedup :
  match remove_duplicates the_table 1 (load scenario3) with
  | Ok out σ' => table_of σ' out
  | Raise _ => None
  end
  = Some [[PyInt 1; PyStr "a"]].
Proof. vm_compute. reflexivity. Qed.

Example mixed_ones_detect :
  detect_duplicates the_table 0 (load mixed_ones)
  = Ok [(md5_of_1, 2)] (load mixed_ones).
Proof. vm_compute. reflexivity. Qed.

Example mixed_ones_report :
  generate_report [(md5_of_1, 2)] the_table 0 (load mixed_ones)
  = Ok [ReportRow (PyStr "1") 2 "1, 2"] (load mixed_ones).
Proof. vm_compute. reflexivity. Qed.

Example colliding_detect :
  detect_duplicates the_table 0 (load colliding)
  = Ok [(md5_of_colliders, 2)] (load colliding).
Proof. vm_compute. reflexivity. Qed.

Example colliding_dedup :
  match remove_duplicates the_table 0 (load colliding) with
  | Ok out σ' => table_of σ' out
  | Raise _ => None
  end
  = Some [[PyStr collider_e]].
Proof. vm_compute. reflexivity. Qed.

(** The scalars of the scenarios are kept as they are by the inference. *)
Lemma pyval_kept_as_is (values : list pyval) : kept_as_is values.
Proof. by apply Forall_forall. Qed.

(** In scenario 1 the [Value] of the report is the cell of the last row
    with the duplicated value. *)
Example scenario1_value :
  ∃ report,
    generate_report [("0cc175b9c0f1b6a831c399e269772661", 2)] the_table 1
      (load scenario1)
    = Ok report (load scenario1)
    ∧ Value <$> report = [PyStr "a"]
    ∧ cell_at scenario1 1 2 = Some (PyStr "a").
Proof. eexists. split_and!; vm_compute; reflexivity. Qed.

(** * Witnesses and counterexamples *)

Lemma generate_report_value_last_witness :
  report_values last (load mixed_ones) the_table mixed_ones 0 [(md5_of_1, 2)].
Proof.
  apply generate_report_value_last; [reflexivity|].
  intros h ->%list_elem_of_singleton. vm_compute. lia.
Defined.

(** C1 as stated fails: with the number 1 in the first row and the text
    "1" in the second, both of string form "1", the report carries the
    text of the second row, not the number of the first; a [Value] column
    of one text is kept as it is. *)
Lemma generate_report_value_first_counterexample :
  generate_report [(md5_of_1, 2)] the_table 0 (load mixed_ones)
  = Ok [ReportRow (PyStr "1") 2 "1, 2"] (load mixed_ones)
  ∧ head (cells_with mixed_ones 0 md5_of_1) = Some (PyInt 1)
  ∧ ¬ report_values head (load mixed_ones) the_table mixed_ones 0
        [(md5_of_1, 2)].
Proof.
  split_and!; [vm_compute; reflexivity..|].
  intros (report & values & Hrun & Hvalues & Hcolumn & _).
  vm_compute in Hrun. injection Hrun as <-.
  apply Forall2_cons_inv_l in Hvalues as (v & vs & Hv & Hvs & ->).
  apply Forall2_nil_inv_l in Hvs as ->.
  vm_compute in Hv. injection Hv as <-.
  vm_compute in Hcolumn. discriminate.
Qed.

(** The strings of the second column of scenario 1 have digests of their
    own. *)
Lemma scenario1_collision_free : collision_free scenario1 1.
Proof.
  intros v w Hv Hw.
  change (column scenario1 1)
    with [PyStr "a"; PyStr "b"; PyStr "a"; PyStr "c"] in Hv, Hw.
  repeat (apply elem_of_cons in Hv as [->|Hv]);
    [..|exfalso; eapply elem_of_nil; exact Hv];
    (repeat (apply elem_of_cons in Hw as [->|Hw]);
       [..|exfalso; eapply elem_of_nil; exact Hw]);
    intros Hh; first [reflexivity | vm_compute in Hh; discriminate Hh].
Defined.

Lemma detect_duplicates_sound_witness :
  detector_sound fingerprint (load scenario1) the_table scenario1 1
  ∧ detector_sound str (load scenario1) the_table scenario1 1.
Proof.
  destruct (detect_duplicates_sound (load scenario1) the_table scenario1 1)
    as (Hfp & _ & Hstr); [reflexivity|].
  split; [exact Hfp | exact (Hstr scenario1_collision_free)].
Defined.

Lemma colliding_cells i v :
  cell_at colliding 0 i = Some v →
  (i = 0 ∧ v = PyStr collider_a) ∨ (i = 1 ∧ v = PyStr collider_e).
Proof.
  unfold cell_at, colliding.
  destruct i as [|[|i]]; simpl; intros; simplify_eq; auto.
Qed.

(** C2 as stated fails: the two rows of [colliding] hold different strings
    with one digest; the detector returns that digest although no two rows
    hold the same string. *)
Lemma detect_duplicates_strings_counterexample :
  detect_duplicates the_table 0 (load colliding)
  = Ok [(md5_of_colliders, 2)] (load colliding)
  ∧ (∀ h, ¬ duplicated str colliding 0 h)
  ∧ ¬ detector_sound str (load colliding) the_table colliding 0.
Proof.
  assert (∀ h, ¬ duplicated str colliding 0 h) as Hnone.
  { intros h (i & j & k & Hij & Hi & Hj & _).
    apply key_at_Some in Hi as (v & Hv & <-), Hj as (w & Hw & Hvw).
    apply colliding_cells in Hv as [[-> ->]|[-> ->]],
      Hw as [[-> ->]|[-> ->]]; try lia; discriminate. }
  split_and!; [vm_compute; reflexivity | done |].
  intros (dups & Hrun & Hkeys). vm_compute in Hrun. injection Hrun as <-.
  destruct (Hkeys md5_of_colliders) as [[Hdup _] _].
  apply (Hnone md5_of_colliders), Hdup. left.
Qed.

Lemma remove_duplicates_keeps_last_witness :
  deduplicates fingerprint (load scenario1) the_table scenario1 1
  ∧ deduplicates str (load scenario1) the_table scenario1 1.
Proof.
  destruct (remove_duplicates_keeps_last (load scenario1) the_table
              scenario1 1) as (Hfp & Hstr); [reflexivity|].
  split; [exact Hfp | exact (Hstr scenario1_collision_free)].
Defined.

(** C3 as stated fails: of the two different strings of [colliding] only
    the second has a row in the output. *)
Lemma remove_duplicates_strings_counterexample :
  match remove_duplicates the_table 0 (load colliding) with
  | Ok out σ' => table_of σ' out
  | Raise _ => None
  end = Some [[PyStr collider_e]]
  ∧ keys_of str colliding 0 = [collider_a; collider_e]
  ∧ ¬ deduplicates str (load colliding) the_table colliding 0.
Proof.
  split_and!; [vm_compute; reflexivity..|].
  intros (out & σ' & T' & Hrun & HT' & (_ & _ & Hkeys) & _).
  vm_compute in Hrun. injection Hrun as <- <-.
  vm_compute in HT'. injection HT' as <-.
  destruct (Hkeys collider_a) as [_ Hin].
  assert (collider_a ∈ keys_of str [[PyStr collider_e]] 0) as Hbad.
  { apply Hin. left. }
  apply list_elem_of_singleton in Hbad. discriminate.
Qed.

Lemma remove_duplicates_idempotent_witness :
  ∃ out1 σ1 out2 σ2 T',
    remove_duplicates the_table 1 (load scenario1) = Ok out1 σ1
    ∧ remove_duplicates out1 1 σ1 = Ok out2 σ2
    ∧ table_of σ1 out1 = Some T'
    ∧ table_of σ2 out2 = Some T'
    ∧ σ2 !! out2 = σ1 !! out1.
Proof. apply (remove_duplicates_idempotent _ _ scenario1). reflexivity. Defined.



Lemma button_handler_validates_witness :
  button_handler (λ _, Returned []) (λ _, Returned []) the_table 5
    (load scenario1)
  = Ok [st_error "The selected column does not exist."] (load scenario1).
Proof.
  apply (button_handler_validates (λ _, Returned []) (λ _, Returned [])
           (load scenario1) the_table [PyInt 1; PyStr "a"]
           [[PyInt 2; PyStr "b"]; [PyInt 3; PyStr "a"];
            [PyInt 4; PyStr "c"]] 5); [reflexivity|].
  right. simpl. lia.
Defined.

Lemma short_rows_excluded_witness :
  (∃ dups report,
      detect_duplicates the_table 1 (load scenario3) = Ok dups (load scenario3)
      ∧ detect_duplicates the_table 1 (without_row (load scenario3) the_table 1)
        = Ok dups (without_row (load scenario3) the_table 1)
      ∧ generate_report dups the_table 1 (load scenario3)
        = Ok report (load scenario3)
      ∧ Forall (λ r, ∃ nums, listed_lines (Line_Numbers r) = Some nums
                             ∧ 1 + 1 ∉ nums) report)
  ∧ ∃ out σ' T',
      remove_duplicates the_table 1 (load scenario3) = Ok out σ'
      ∧ table_of σ' out = Some T'
      ∧ ([PyInt 2] ∉ T')
      ∧ ∀ ls ls' l, load scenario3 !! the_table = Some (Rows ls) →
                    ls !! 1 = Some l →
                    σ' !! out = Some (Rows ls') → l ∉ ls'.
Proof.
  apply (short_rows_excluded (load scenario3) the_table scenario3 1 1
           [PyInt 2]); [reflexivity | reflexivity | simpl; lia].
Defined.

Lemma detect_duplicates_nothing_wide_witness :
  detect_duplicates the_table 5 (load scenario1) = Ok [] (load scenario1).
Proof.
  apply (detect_duplicates_nothing_wide _ _ scenario1); [reflexivity|].
  right. repeat constructor.
Defined.

Lemma pipeline_leaves_table_unchanged_witness :
  (∃ dups report,
      detect_duplicates the_table 1 (load scenario1) = Ok dups (load scenario1)
      ∧ generate_report dups the_table 1 (load scenario1)
        = Ok report (load scenario1))
  ∧ ∃ out σ' ls T',
      remove_duplicates the_table 1 (load scenario1) = Ok out σ'
      ∧ load scenario1 !! out = None
      ∧ out ≠ the_table
      ∧ σ' !! out = Some (Rows ls)
      ∧ table_of σ' out = Some T'
      ∧ (∀ l, l ≠ out → σ' !! l = load scenario1 !! l)
      ∧ table_of σ' the_table = Some scenario1.
Proof. apply pipeline_leaves_table_unchanged. reflexivity. Defined.

Lemma generate_report_no_KeyError_witness :
  ∃ dups reverse_lookup line_numbers report,
    detect_duplicates the_table 1 (load scenario1) = Ok dups (load scenario1)
    ∧ generate_report_scan dups the_table 1 (load scenario1)
      = Ok (reverse_lookup, line_numbers) (load scenario1)
    ∧ (∀ h, h ∈ dict_keys dups →
            is_Some (reverse_lookup !! h) ∧ is_Some (line_numbers !! h))
    ∧ generate_report dups the_table 1 (load scenario1)
      = Ok report (load scenario1).
Proof. apply (generate_report_no_KeyError _ _ scenario1). reflexivity. Defined.

Lemma generate_report_rows_witness :
  ∃ dups report,
    detect_duplicates the_table 1 (load scenario1) = Ok dups (load scenario1)
    ∧ generate_report dups the_table 1 (load scenario1)
      = Ok report (load scenario1)
    ∧ Forall2 (λ entry r,
        Count r = tally scenario1 1 entry.1
        ∧ 2 ≤ Count r
        ∧ Line_Numbers r
          = String.concat ", " (str <$> lines_with scenario1 1 entry.1))
        dups report.
Proof. apply generate_report_rows. reflexivity. Defined.

Lemma generate_report_empty_witness :
  generate_report [] the_table 1 (load scenario1) = Ok [] (load scenario1).
Proof. apply (generate_report_empty _ _ scenario1). reflexivity. Defined.

Lemma generate_report_KeyError_witness :
  generate_report [(md5_of_1, 2)] the_table 1 (load scenario1)
  = Raise KeyError.
Proof.
  apply (generate_report_KeyError _ _ scenario1 1 _ md5_of_1);
    [reflexivity | left | vm_compute; reflexivity].
Defined.

(** ** Detection and removal, together *)

Lemma occurrences_of_zero h xs : occurrences_of h xs = 0 ↔ h ∉ xs.
Proof.
  unfold occurrences_of. induction xs as [|x xs IH].
  { split; [intros _; apply not_elem_of_nil | done]. }
  rewrite filter_cons, not_elem_of_cons. case_decide; simpl.
  - subst. split; [lia | by intros []].
  - rewrite IH. naive_solver.
Qed.

Lemma NoDup_occurrences xs : NoDup xs ↔ ∀ h, occurrences_of h xs ≤ 1.
Proof.
  induction xs as [|x xs IH].
  { split; [intros _ h; unfold occurrences_of; simpl; lia | constructor]. }
  rewrite NoDup_cons, IH. unfold occurrences_of. split.
  - intros [Hx Hxs] h. rewrite filter_cons. case_decide; simpl; [|done].
    subst. apply occurrences_of_zero in Hx. unfold occurrences_of in Hx. lia.
  - intros Hall. split.
    + apply occurrences_of_zero. specialize (Hall x).
      rewrite filter_cons, decide_True in Hall by done.
      unfold occurrences_of. simpl in Hall. lia.
    + intros h. specialize (Hall h). rewrite filter_cons in Hall.
      case_decide; simpl in Hall; lia.
Qed.

(** *** Counting with [Counter] *)

Lemma Counter_step_total (d : dict string nat) x :
  Forall (λ e, 1 ≤ e.2) d →
  let d' := dict_set x (default 0 (dict_get x d) + 1) d in
  sum_list ((λ e, e.2 - 1) <$> d') + length d'
  = sum_list ((λ e, e.2 - 1) <$> d) + length d + 1
  ∧ Forall (λ e, 1 ≤ e.2) d'.
Proof.
  unfold dict in *.
  induction d as [|[k n] d IH]; intros Hd; cbv zeta.
  { simpl. split; [lia | by repeat constructor]. }
  apply Forall_cons in Hd as [Hn Hd]. simpl in Hn. simpl.
  destruct (decide (x = k)) as [->|Hne]; csimpl.
  - split; [lia | constructor; [simpl; lia | done]].
  - destruct (IH Hd) as [Hsum Hall]. split; [lia | by constructor].
Qed.

Lemma Counter_fold_total xs (d : dict string nat) :
  Forall (λ e, 1 ≤ e.2) d →
  let d' :=
    fold_left (λ d x, dict_set x (default 0 (dict_get x d) + 1) d) xs d in
  sum_list ((λ e, e.2 - 1) <$> d') + length d'
  = sum_list ((λ e, e.2 - 1) <$> d) + length d + length xs
  ∧ Forall (λ e, 1 ≤ e.2) d'.
Proof.
  revert d. induction xs as [|x xs IH]; intros d Hd; cbv zeta; simpl.
  { split; [lia | done]. }
  destruct (Counter_step_total d x Hd) as [Hsum Hall].
  destruct (IH _ Hall) as [Hsum' Hall']. split; [lia | done].
Qed.

Lemma filter_many_total (d : list (string * nat)) :
  Forall (λ e, 1 ≤ e.2) d →
  sum_list ((λ e, e.2 - 1)
              <$> filter (λ '(hash_value, count), count > 1) d)
  = sum_list ((λ e, e.2 - 1) <$> d).
Proof.
  induction 1 as [|[h n] d Hn _ IH]; [done|]. simpl in Hn.
  rewrite filter_cons. case_decide; csimpl; rewrite IH; lia.
Qed.

Lemma elem_of_Counter_keys xs h : h ∈ dict_keys (Counter xs) ↔ h ∈ xs.
Proof.
  rewrite <-dict_get_is_Some, Counter_get.
  destruct (decide (occurrences_of h xs = 0)) as [Hz|Hnz].
  - apply occurrences_of_zero in Hz. split; [by intros [? ?] | done].
  - rewrite occurrences_of_zero in Hnz.
    split; [intros _; by apply dec_stable | eauto].
Qed.

Lemma length_omap_all {A B} (f : A → option B) (xs : list A) :
  Forall (λ x, is_Some (f x)) xs → length (omap f xs) = length xs.
Proof.
  induction 1 as [|x xs [y Hy] _ IH]; [done|]. csimpl. rewrite Hy. simpl.
  by rewrite IH.
Qed.

Section together.
Context {cell : Type} `{!Str cell} `{!Infer cell}.
Implicit Types (σ : store cell) (T : list (list cell)) (c : nat).
Implicit Types (h : string) (dups : dict string nat).

Lemma fingerprints_keys_of T c :
  fingerprint <$> column T c = keys_of fingerprint T c.
Proof.
  unfold keys_of, row_key, column. induction T as [|row T IH]; csimpl; [done|].
  rewrite <-IH. by destruct (row !! c).
Qed.

Lemma duplicates_of_nil T c :
  duplicates_of T c = [] ↔ NoDup (keys_of fingerprint T c).
Proof.
  rewrite <-fingerprints_keys_of, NoDup_occurrences. split.
  - intros Hnil h. rewrite occurrences_of_fingerprints.
    destruct (decide (1 < tally T c h)) as [Hh|]; [|lia].
    apply duplicates_of_keys in Hh. rewrite Hnil in Hh.
    by apply elem_of_nil in Hh.
  - intros Hall. destruct (duplicates_of T c) as [|[h n] dups] eqn:Hd; [done|].
    assert (h ∈ dict_keys (duplicates_of T c)) as Hh.
    { rewrite Hd. unfold dict_keys. csimpl. apply list_elem_of_here. }
    apply duplicates_of_keys in Hh. specialize (Hall h).
    rewrite occurrences_of_fingerprints in Hall. lia.
Qed.

Lemma omap_filter_is_Some {A} (key : A → option string) (xs : list A) :
  omap key (filter (λ x, is_Some (key x)) xs) = omap key xs.
Proof.
  induction xs as [|x xs IH]; [done|].
  rewrite filter_cons. destruct (key x) as [k|] eqn:Hk.
  - rewrite decide_True by done. csimpl. by rewrite Hk, IH.
  - rewrite decide_False by (by intros [? ?]). csimpl. by rewrite Hk.
Qed.

Lemma keep_last_all {A} (key : A → option string) (xs : list A) :
  keep_last key xs = filter (λ x, is_Some (key x)) xs ↔ NoDup (omap key xs).
Proof.
  split.
  - intros Heq. rewrite <-omap_filter_is_Some, <-Heq.
    apply keep_last_keys_NoDup.
  - induction xs as [|x xs IH]; [done|]. csimpl.
    rewrite filter_cons. destruct (key x) as [k|] eqn:Hk.
    + intros [Hk' Hxs]%NoDup_cons.
      rewrite decide_False by done. rewrite decide_True by done.
      by rewrite IH.
    + intros Hxs.
      rewrite decide_False by (by intros [? ?]).
      by apply IH.
Qed.

Lemma wide_is_Some c (row : list cell) :
  is_Some (row_key fingerprint c row) ↔ c < length row.
Proof. unfold row_key. by rewrite fmap_is_Some, lookup_lt_is_Some. Qed.

(** When nothing is duplicated, and only then, [remove_duplicates] drops
    nothing but the rows too short to have the column: its result is the
    table without these rows exactly when [detect_duplicates] returns the
    empty dictionary. *)
Theorem remove_duplicates_nothing_to_remove σ data T c :
  table_of σ data = Some T →
  ∃ out σ' T',
    remove_duplicates data c σ = Ok out σ'
    ∧ table_of σ' out = Some T'
    ∧ (T' = filter (λ row, c < length row) T
       ↔ detect_duplicates data c σ = Ok [] σ).
Proof.
  intros HT. pose proof HT as (xs & Hdata & <- & Hxs)%table_of_rows.
  destruct (remove_duplicates_table σ data xs c Hdata Hxs)
    as (Hrun & _ & Htable).
  eexists _, _, _. split_and!; [done..|].
  rewrite (detect_duplicates_run _ _ _ _ HT).
  rewrite <-(list_filter_iff _ _ _ (wide_is_Some c)), keep_last_all.
  pose proof (duplicates_of_nil xs.*2 c) as Hnil. unfold keys_of in Hnil.
  rewrite <-Hnil. split; [by intros -> | congruence].
Qed.

(** Detection finds nothing in what [remove_duplicates] returns, whatever
    the table was. *)
Theorem detect_duplicates_after_remove σ data T c :
  table_of σ data = Some T →
  ∃ out σ',
    remove_duplicates data c σ = Ok out σ'
    ∧ detect_duplicates out c σ' = Ok [] σ'.
Proof.
  intros (xs & Hdata & <- & Hxs)%table_of_rows.
  destruct (remove_duplicates_table σ data xs c Hdata Hxs)
    as (Hrun & _ & Htable).
  eexists _, _. split; [done|].
  rewrite (detect_duplicates_run _ _ _ _ Htable). f_equal.
  apply duplicates_of_nil, keep_last_keys_NoDup.
Qed.

(** The list [remove_duplicates] returns holds the row objects of the
    input themselves, not copies: its items are items of the input, in the
    input's order, and each holds what it held. *)
Theorem remove_duplicates_shares_rows σ data T c :
  table_of σ data = Some T →
  ∃ out σ' ls ls',
    remove_duplicates data c σ = Ok out σ'
    ∧ σ !! data = Some (Rows ls)
    ∧ σ' !! out = Some (Rows ls')
    ∧ ls' `sublist_of` ls
    ∧ ∀ l, l ∈ ls' → σ' !! l = σ !! l.
Proof.
  intros (xs & Hdata & <- & Hxs)%table_of_rows.
  destruct (remove_duplicates_table σ data xs c Hdata Hxs)
    as (Hrun & Hfresh & _).
  eexists _, _, _, _. split_and!; [done | done | apply lookup_insert_eq | |].
  - apply fmap_sublist, keep_last_sublist.
  - intros l Hl. apply lookup_insert_ne. intros Heq.
    apply list_elem_of_fmap in Hl as ([l' cs] & -> & Hin).
    eapply elem_of_sublist in Hin; [|apply keep_last_sublist].
    unfold rows_ok in Hxs. rewrite Forall_forall in Hxs.
    specialize (Hxs _ Hin). simpl in *. congruence.
Qed.

(** The dictionary [detect_duplicates] returns has no fingerprint twice,
    and holds the pair of a fingerprint and a number exactly when the
    number is the tally of the fingerprint in the column and is 2 or
    more. *)
Theorem detect_duplicates_entries σ data T c :
  table_of σ data = Some T →
  ∃ dups,
    detect_duplicates data c σ = Ok dups σ
    ∧ NoDup (dict_keys dups)
    ∧ ∀ h n, (h, n) ∈ dups ↔ n = tally T c h ∧ 2 ≤ n.
Proof.
  intros HT. exists (duplicates_of T c).
  split_and!; [by apply detect_duplicates_run | apply duplicates_of_NoDup |].
  intros h n. split.
  - intros [-> ?]%duplicates_of_entry. split; [done | lia].
  - intros [-> Htwo]. apply dict_get_elem_of.
    rewrite duplicates_of_get, decide_True; [done | lia].
Qed.

Lemma tally_Permutation T1 T2 c h : T1 ≡ₚ T2 → tally T1 c h = tally T2 c h.
Proof.
  intros Hperm. unfold tally, cells_with, column.
  apply Permutation_length. by rewrite Hperm.
Qed.

(** Which fingerprints are duplicated, and how often each occurs, does not
    depend on the order of the rows: for two tables with the same rows in
    different orders the dictionaries have the same entries. *)
Theorem detect_duplicates_row_order σ1 data1 T1 σ2 data2 T2 c :
  table_of σ1 data1 = Some T1 →
  table_of σ2 data2 = Some T2 →
  T1 ≡ₚ T2 →
  ∃ dups1 dups2,
    detect_duplicates data1 c σ1 = Ok dups1 σ1
    ∧ detect_duplicates data2 c σ2 = Ok dups2 σ2
    ∧ dups1 ≡ₚ dups2.
Proof.
  intros HT1 HT2 Hperm. exists (duplicates_of T1 c), (duplicates_of T2 c).
  split_and!; [by apply detect_duplicates_run..|].
  apply NoDup_Permutation.
  - eapply NoDup_fmap_1, duplicates_of_NoDup.
  - eapply NoDup_fmap_1, duplicates_of_NoDup.
  - intros [h n]. split.
    + intros [-> Hh]%duplicates_of_entry. apply dict_get_elem_of.
      rewrite duplicates_of_get, <-(tally_Permutation _ _ _ _ Hperm).
      by rewrite decide_True.
    + intros [-> Hh]%duplicates_of_entry. apply dict_get_elem_of.
      rewrite duplicates_of_get, (tally_Permutation _ _ _ _ Hperm).
      by rewrite decide_True.
Qed.

Lemma length_column T c :
  length T = length (column T c) + length (filter (λ row, length row ≤ c) T).
Proof.
  unfold column. induction T as [|row T IH]; [done|].
  rewrite filter_cons. csimpl. destruct (row !! c) as [v|] eqn:Hv.
  - apply lookup_lt_Some in Hv. rewrite decide_False by lia. simpl. lia.
  - apply lookup_ge_None in Hv. rewrite decide_True by lia. simpl. lia.
Qed.

Lemma length_keep_last T c :
  length (keep_last (row_key fingerprint c) T)
  = length (Counter (fingerprint <$> column T c)).
Proof.
  rewrite <-(length_omap_all (row_key fingerprint c)).
  2:{ apply Forall_forall. intros row. apply keep_last_is_Some. }
  rewrite <-(length_fmap fst (Counter _)). apply Permutation_length.
  apply NoDup_Permutation;
    [apply keep_last_keys_NoDup | apply Counter_NoDup |].
  intros h. rewrite keep_last_keys.
  change (h ∈ (Counter (fingerprint <$> column T c)).*1)
    with (h ∈ dict_keys (Counter (fingerprint <$> column T c))).
  by rewrite elem_of_Counter_keys, fingerprints_keys_of.
Qed.

Lemma duplicates_of_total T c :
  length (column T c)
  = length (keep_last (row_key fingerprint c) T)
    + sum_list ((λ e, e.2 - 1) <$> duplicates_of T c).
Proof.
  unfold duplicates_of, dict_items, Counter.
  destruct (Counter_fold_total (fingerprint <$> column T c) [])
    as [Hsum Hall]; [constructor|].
  cbv zeta in Hsum, Hall. rewrite (filter_many_total _ Hall).
  rewrite length_keep_last. unfold Counter.
  rewrite length_fmap in Hsum. simpl in Hsum. lia.
Qed.

(** Every row is accounted for: the rows of the input are the rows
    [remove_duplicates] returns, the rows too short to have the column,
    and, for each row of the report, its [Count] less one. *)
Theorem remove_duplicates_accounting σ data T c :
  table_of σ data = Some T →
  ∃ dups report out σ' T',
    detect_duplicates data c σ = Ok dups σ
    ∧ generate_report dups data c σ = Ok report σ
    ∧ remove_duplicates data c σ = Ok out σ'
    ∧ table_of σ' out = Some T'
    ∧ length T
      = length T' + length (filter (λ row, length row ≤ c) T)
        + sum_list ((λ r, Count r - 1) <$> report).
Proof.
  intros HT.
  destruct (detect_and_report_run σ data T c HT)
    as (values & report & Hdetect & Hreport & Hrows & _).
  pose proof HT as (xs & Hdata & <- & Hxs)%table_of_rows.
  destruct (remove_duplicates_table σ data xs c Hdata Hxs)
    as (Hrun & _ & Htable).
  eexists _, _, _, _, _. split_and!; [done..|].
  assert (sum_list ((λ r, Count r - 1) <$> report)
          = sum_list ((λ e, e.2 - 1) <$> duplicates_of xs.*2 c)) as ->.
  { clear -Hrows. induction Hrows as [|e r dups report Hr _ IH]; [done|].
    csimpl. destruct Hr as (_ & -> & _). by rewrite IH. }
  pose proof (length_column xs.*2 c). pose proof (duplicates_of_total xs.*2 c).
  lia.
Qed.
End together.

(** ** The report as a whole *)

Lemma Forall2_sublist_l {A B} (R : A → B → Prop) l l' k :
  Forall2 R l k → l' `sublist_of` l →
  ∃ k', k' `sublist_of` k ∧ Forall2 R l' k'.
Proof.
  intros Hlk Hsub. revert k Hlk.
  induction Hsub as [|x l1 l2 _ IH|x l1 l2 _ IH]; intros k Hlk.
  - apply Forall2_nil_inv_l in Hlk as ->. by exists [].
  - apply Forall2_cons_inv_l in Hlk as (y & k2 & Hxy & Hrest & ->).
    destruct (IH _ Hrest) as (k' & Hk' & Hall).
    exists (y :: k'). split; [by constructor | by constructor].
  - apply Forall2_cons_inv_l in Hlk as (y & k2 & Hxy & Hrest & ->).
    destruct (IH _ Hrest) as (k' & Hk' & Hall).
    exists k'. split; [by constructor | done].
Qed.

Lemma StronglySorted_sublist_of {A} (R : A → A → Prop) l l' :
  StronglySorted R l → l' `sublist_of` l → StronglySorted R l'.
Proof.
  intros Hl Hsub. induction Hsub as [|x l1 l2 Hsub IH|x l1 l2 _ IH].
  - constructor.
  - apply StronglySorted_inv in Hl as [Hl Hx]. constructor; [by apply IH|].
    rewrite Forall_forall in Hx. apply Forall_forall. intros y Hy.
    apply Hx. by eapply elem_of_sublist.
  - apply StronglySorted_inv in Hl as [Hl _]. by apply IH.
Qed.

Section report_whole.
Context {cell : Type} `{!Str cell} `{!Infer cell}.
Implicit Types (σ : store cell) (T : list (list cell)) (c : nat).
Implicit Types (h : string) (dups : dict string nat).

Lemma lines_from_app k T1 T2 c h :
  lines_from k (T1 ++ T2) c h
  = lines_from k T1 c h ++ lines_from (k + length T1) T2 c h.
Proof.
  revert k. induction T1 as [|row T1 IH]; intros k; simpl.
  { by rewrite Nat.add_0_r. }
  rewrite IH, <-app_assoc. do 3 f_equal. lia.
Qed.

Lemma lines_with_nil T c h : tally T c h = 0 → lines_with T c h = [].
Proof.
  intros Hz. unfold lines_with. apply length_zero_iff_nil.
  by rewrite lines_from_length.
Qed.

Lemma lines_with_tally T c h : 0 < tally T c h → lines_with T c h ≠ [].
Proof.
  intros Hpos Hnil. unfold lines_with in Hnil.
  pose proof (lines_from_length 0 T c h) as Hlen.
  rewrite Hnil in Hlen. simpl in Hlen. lia.
Qed.

Lemma Counter_first_lines T c :
  ∃ firsts,
    Forall2 (λ h n, head (lines_with T c h) = Some n)
      (dict_keys (Counter (fingerprint <$> column T c))) firsts
    ∧ StronglySorted lt firsts
    ∧ Forall (λ n, n ≤ length T) firsts.
Proof.
  induction T as [|row T (firsts & Hfirsts & Hsorted & Hbound)] using rev_ind.
  { exists []. split_and!; constructor. }
  assert (Forall2 (λ h n, head (lines_with (T ++ [row]) c h) = Some n)
            (dict_keys (Counter (fingerprint <$> column T c))) firsts)
    as Hkept.
  { eapply Forall2_impl; [exact Hfirsts|]. intros h n Hn. simpl in *.
    unfold lines_with in *. by rewrite lines_from_app, head_app, Hn. }
  assert (Forall (λ n, n ≤ length (T ++ [row])) firsts) as Hbound'.
  { eapply Forall_impl; [exact Hbound|]. intros n Hn. simpl in *.
    rewrite length_app. lia. }
  unfold column. rewrite omap_app. csimpl.
  destruct (row !! c) as [v|] eqn:Hv; csimpl.
  2:{ rewrite app_nil_r. by exists firsts. }
  rewrite fmap_app. csimpl. unfold Counter.
  rewrite fold_left_app. simpl. rewrite dict_keys_set.
  fold (Counter (fingerprint <$> omap (.!! c) T)). fold (column T c).
  destruct (dict_get (fingerprint v) (Counter (fingerprint <$> column T c)))
    as [n|] eqn:Hget.
  { by exists firsts. }
  apply dict_get_None in Hget. rewrite elem_of_Counter_keys in Hget.
  assert (tally T c (fingerprint v) = 0) as Hz.
  { rewrite <-occurrences_of_fingerprints. by apply occurrences_of_zero. }
  exists (firsts ++ [length T + 1]). split_and!.
  - apply Forall2_app; [done|]. constructor; [|constructor].
    unfold lines_with. rewrite lines_from_app.
    fold (lines_with T c (fingerprint v)). rewrite (lines_with_nil _ _ _ Hz).
    simpl. rewrite Hv. simpl. by rewrite decide_True.
  - apply StronglySorted_app_2; [|done|repeat constructor].
    intros n1 n2 Hn1 ->%list_elem_of_singleton.
    rewrite Forall_forall in Hbound. specialize (Hbound _ Hn1). simpl in *.
    lia.
  - apply Forall_app. split; [done|]. constructor; [|constructor].
    rewrite length_app. simpl. lia.
Qed.

(** The rows of the report come in the order in which the duplicated
    values first occur in the table: the first line numbers listed by the
    successive rows increase strictly. *)
Theorem generate_report_order σ data T c :
  table_of σ data = Some T →
  ∃ dups report firsts,
    detect_duplicates data c σ = Ok dups σ
    ∧ generate_report dups data c σ = Ok report σ
    ∧ Forall2 (λ r n, ∃ nums, listed_lines (Line_Numbers r) = Some nums
                              ∧ head nums = Some n) report firsts
    ∧ StronglySorted lt firsts.
Proof.
  intros HT.
  destruct (detect_and_report_run σ data T c HT)
    as (values & report & Hdetect & Hreport & Hrows & _).
  destruct (Counter_first_lines T c) as (firsts & Hfirsts & Hsorted & _).
  destruct (Forall2_sublist_l _ _ (dict_keys (duplicates_of T c)) _ Hfirsts)
    as (firsts' & Hsub & Hfirsts').
  { unfold duplicates_of, dict_keys, dict_items.
    apply fmap_sublist, sublist_filter. }
  exists (duplicates_of T c), report, firsts'.
  split_and!; [done | done | | by eapply StronglySorted_sublist_of].
  assert (Forall (λ e, 0 < tally T c e.1) (duplicates_of T c)) as Hpos.
  { apply Forall_forall. intros [h n] [_ ?]%duplicates_of_entry. simpl. lia. }
  unfold dict_keys in Hfirsts'. apply Forall2_fmap_l in Hfirsts'.
  clear Hsub. revert Hpos Hrows firsts' Hfirsts'. clear.
  generalize (duplicates_of T c) as dups. intros dups Hpos Hrows.
  induction Hrows as [|e r dups report Hr _ IH]; intros firsts' Hf.
  { apply Forall2_nil_inv_l in Hf as ->. constructor. }
  apply Forall2_cons_inv_l in Hf as (n & rest & Hn & Hf & ->).
  apply Forall_cons in Hpos as [He Hpos].
  constructor; [|by apply (IH Hpos rest Hf)].
  destruct Hr as (_ & _ & ->). exists (lines_with T c e.1).
  split; [|done]. by apply listed_lines_concat, lines_with_tally.
Qed.

(** The line numbers of the report divide the duplicated rows among its
    rows: a line is listed in the report exactly when the row on that line
    carries a value that detection counts twice or more, and no line is
    listed by two rows of the report. *)
Theorem generate_report_lines_partition σ data T c :
  table_of σ data = Some T →
  ∃ dups report,
    detect_duplicates data c σ = Ok dups σ
    ∧ generate_report dups data c σ = Ok report σ
    ∧ (∀ i, (∃ r nums, r ∈ report
                       ∧ listed_lines (Line_Numbers r) = Some nums
                       ∧ i + 1 ∈ nums)
            ↔ ∃ v, cell_at T c i = Some v
                   ∧ 1 < tally T c (fingerprint v))
    ∧ ∀ k k' r r' nums nums' n,
        report !! k = Some r → report !! k' = Some r' →
        listed_lines (Line_Numbers r) = Some nums →
        listed_lines (Line_Numbers r') = Some nums' →
        n ∈ nums → n ∈ nums' → k = k'.
Proof.
  intros HT.
  destruct (detect_and_report_run σ data T c HT)
    as (values & report & Hdetect & Hreport & Hrows & _).
  exists (duplicates_of T c), report. do 2 (split; [done|]).
  assert (∀ k r nums,
    report !! k = Some r → listed_lines (Line_Numbers r) = Some nums →
    ∃ h n, duplicates_of T c !! k = Some (h, n) ∧ 1 < tally T c h
           ∧ nums = lines_with T c h) as Hrow.
  { intros k r nums Hk Hnums.
    destruct (Forall2_lookup_r _ _ _ _ _ Hrows Hk)
      as ([h n] & He & _ & _ & Hfield).
    pose proof He as Hin%list_elem_of_lookup_2.
    apply duplicates_of_entry in Hin as [_ Hh].
    exists h, n. split_and!; [done..|]. simpl in Hfield.
    rewrite Hfield, listed_lines_concat in Hnums
      by (apply lines_with_tally; lia).
    congruence. }
  split.
  - intros i. split.
    + intros (r & nums & [k Hk]%list_elem_of_lookup & Hnums & Hi).
      destruct (Hrow _ _ _ Hk Hnums) as (h & n & _ & Hh & ->).
      apply lines_from_spec in Hi as (i' & Hi' & Hkey).
      assert (i' = i) as -> by lia.
      apply key_at_Some in Hkey as (v & Hv & <-). eauto.
    + intros (v & Hv & Hh).
      pose proof Hh as [k Hk]%duplicates_of_keys%list_elem_of_lookup.
      unfold dict_keys in Hk.
      apply list_lookup_fmap_Some in Hk as ([h n] & Heq & He).
      simpl in Heq. subst h.
      destruct (Forall2_lookup_l _ _ _ _ _ Hrows He)
        as (r & Hr & _ & _ & Hfield).
      exists r, (lines_with T c (fingerprint v)). split_and!.
      * by eapply list_elem_of_lookup_2.
      * simpl in Hfield. rewrite Hfield.
        apply listed_lines_concat, lines_with_tally. lia.
      * apply lines_from_spec. exists i. split; [lia|].
        apply key_at_Some. eauto.
  - intros k k' r r' nums nums' n Hk Hk' Hnums Hnums' Hn Hn'.
    destruct (Hrow _ _ _ Hk Hnums) as (h & m & He & _ & ->).
    destruct (Hrow _ _ _ Hk' Hnums') as (h' & m' & He' & _ & ->).
    apply lines_from_spec in Hn as (i & -> & Hkey).
    apply lines_from_spec in Hn' as (i' & Hi' & Hkey').
    assert (i' = i) as -> by lia.
    assert (h' = h) as -> by congruence.
    apply (NoDup_lookup _ _ _ h (duplicates_of_NoDup T c));
      unfold dict_keys; apply list_lookup_fmap_Some;
      [by exists (h, m) | by exists (h, m')].
Qed.

End report_whole.

(** ** The handler and the export, case by case *)

Section handler_cases.
Context {cell : Type} `{!Str cell} `{!Infer cell}.
Context (to_excel : list (list cell) → attempt (list N)).
Context (to_csv : list (list cell) → attempt (list N)).
Implicit Types (σ : store cell) (T : list (list cell)) (c : nat).

Lemma button_handler_cases σ data first_row rest column_index :
  let T := first_row :: rest in
  let c := Z.to_nat column_index in
  let run := button_handler to_excel to_csv data column_index σ in
  table_of σ data = Some T →
  ((column_index < 0 ∨ column_index >= Z.of_nat (length first_row))%Z
   ∧ run = Ok [st_error "The selected column does not exist."] σ)
  ∨ ((0 ≤ column_index < Z.of_nat (length first_row))%Z
     ∧ duplicates_of T c = []
     ∧ run = Ok [st_info "No duplicates detected."] σ)
  ∨ ((0 ≤ column_index < Z.of_nat (length first_row))%Z
     ∧ duplicates_of T c ≠ []
     ∧ ∃ values report ls,
         Forall2 (row_reports T c values) (duplicates_of T c) report
         ∧ σ !! fresh (dom σ) = None
         ∧ run
           = match to_excel (keep_last (row_key fingerprint c) T) with
             | Returned processed_data =>
                 Ok [st_subheader "Duplicate Detection Report";
                     st_table report;
                     st_download_button "Download data without duplicates"
                       (Some processed_data)
                       "data_without_duplicates.xlsx"
                       "application/octet-stream"]
                   (<[fresh (dom σ) := Rows ls]> σ)
             | Thrown e => Raise (LibraryError e)
             end).
Proof.
  intros T c run HT. subst run.
  pose proof HT as (xs & Hdata & Hrows & Hxs)%table_of_rows.
  destruct xs as [|[l0 cs0] xs']; [done|]. csimpl in *.
  pose proof Hxs as [Hfirst _]%Forall_cons. simpl in Hfirst.
  assert (cs0 = first_row) as -> by (subst T; congruence).
  assert (getrow data 0 σ = Ok l0 σ) as Hgetrow.
  { unfold getrow. by rewrite Hdata. }
  destruct (decide (column_index < 0
                    ∨ column_index >= Z.of_nat (length first_row))%Z)
    as [Hout|Hin].
  { left. split; [done|]. unfold button_handler. rewrite bind_run.
    case_decide as Hneg; [by rewrite mret_run|].
    rewrite !bind_run, Hgetrow, bind_run, (len_run _ _ _ Hfirst), mret_run.
    rewrite bool_decide_eq_true_2; [done | lia]. }
  right.
  assert (0 ≤ column_index < Z.of_nat (length first_row))%Z as Hin' by lia.
  destruct (detect_and_report_run σ data _ c HT)
    as (values & report & Hdetect & Hreport & Hforall & _).
  assert (∀ k : bool → M cell (list (widget cell)),
    ((if decide (column_index < 0)%Z then mret true
      else first_row ← getrow data 0;
           n ← len first_row;
           mret (bool_decide (column_index >= Z.of_nat n)%Z)) ≫= k) σ
    = k false σ) as Hcheck.
  { intros k. rewrite bind_run. rewrite decide_False by lia.
    rewrite !bind_run, Hgetrow, bind_run, (len_run _ _ _ Hfirst), mret_run.
    rewrite bool_decide_eq_false_2; [done | lia]. }
  destruct (duplicates_of T c) as [|entry dups] eqn:Hdups.
  - left. do 2 (split; [done|]).
    unfold button_handler. rewrite Hcheck. cbv zeta.
    fold c. by rewrite bind_run, Hdetect.
  - right. do 2 (split; [done|]).
    destruct (remove_duplicates_table σ data ((l0, first_row) :: xs') c
                Hdata Hxs)
      as (Hrun & Hfresh & Htable). cbv zeta in Hrun, Htable.
    eexists values, report, _. split_and!; [done | done |].
    unfold button_handler. rewrite Hcheck. cbv zeta. fold c.
    rewrite bind_run, Hdetect, bind_run, Hreport, bind_run, Hrun.
    rewrite bind_run, (save_data_run _ _ _ _ _ _ Htable).
    assert (endswith "data_without_duplicates.xlsx" ".xlsx" = true) as ->
      by (by vm_compute).
    assert (((l0, first_row) :: xs').*2 = T) as -> by exact Hrows.
    by destruct (to_excel _).
Qed.

(** On an empty table the handler cannot check the column: reading the
    first row raises [IndexError], unless the index is negative, which is
    rejected before the table is looked at. *)
Theorem button_handler_empty_table σ data column_index :
  table_of σ data = Some [] →
  button_handler to_excel to_csv data column_index σ
  = if decide (column_index < 0)%Z
    then Ok [st_error "The selected column does not exist."] σ
    else Raise IndexError.
Proof.
  intros (xs & Hdata & Hrows & _)%table_of_rows.
  destruct xs; [|done]. csimpl in *.
  unfold button_handler. rewrite bind_run.
  case_decide; [by rewrite mret_run|].
  rewrite bind_run. unfold getrow. by rewrite Hdata.
Qed.


End handler_cases.

(** ** The import *)

Lemma endswith_last s suffix a :
  endswith s suffix = true →
  last (list_ascii_of_string suffix) = Some a →
  last (list_ascii_of_string s) = Some a.
Proof.
  unfold endswith. intros [k ->]%bool_decide_eq_true Ha.
  rewrite last_app. by rewrite Ha.
Qed.

(** A name ending in [.csv] ends neither in [.xls] nor in [.xlsx]. *)
Lemma endswith_csv_not_excel s :
  endswith s ".csv" = true →
  endswith s ".xls" || endswith s ".xlsx" = false.
Proof.
  intros Hcsv. pose proof (endswith_last _ _ "v"%char Hcsv eq_refl) as Hv.
  apply orb_false_intro.
  - destruct (endswith s ".xls") eqn:Hxls; [|done].
    pose proof (endswith_last _ _ "s"%char Hxls eq_refl). congruence.
  - destruct (endswith s ".xlsx") eqn:Hxlsx; [|done].
    pose proof (endswith_last _ _ "x"%char Hxlsx eq_refl). congruence.
Qed.

Section import_proofs.
Context {cell : Type} `{!Str cell}.
Context (read_excel : uploaded_file → attempt (list (list cell))).
Context (read_csv : string → attempt (list (list cell))).
Context (chardet_detect : list N → option string).
Context (decode : list N → option string → attempt string).
Implicit Types (σ : store cell) (T : list (list cell)).
Implicit Types (xs : list (loc * list cell)) (f : uploaded_file).

Local Abbreviation import_file := (import_file read_excel read_csv chardet_detect decode).
Local Abbreviation import_data := (import_data read_excel read_csv chardet_detect decode).
Local Abbreviation parse := (parse read_excel read_csv chardet_detect decode).
Local Abbreviation file_rows := (file_rows read_excel read_csv chardet_detect decode).
Local Abbreviation file_errors :=
  (file_errors read_excel read_csv chardet_detect decode).

Lemma fresh_None σ : σ !! fresh (dom σ) = None.
Proof. apply not_elem_of_dom, is_fresh. Qed.

Lemma imported_new_list σ :
  imported σ (<[fresh (dom σ) := Rows []]> σ) (fresh (dom σ)) [].
Proof.
  pose proof (fresh_None σ) as Hfresh. unfold imported. split_and!.
  - done.
  - apply lookup_insert_eq.
  - constructor.
  - constructor.
  - constructor.
  - intros l [o Hl]. apply lookup_insert_ne. congruence.
Qed.

Lemma imported_table_of σ0 σ data xs :
  imported σ0 σ data xs → table_of σ data = Some xs.*2.
Proof. intros (_ & Hdata & Hxs & _). by apply rows_table_of. Qed.

Lemma imported_snoc σ0 σ data xs cs :
  imported σ0 σ data xs →
  let l := fresh (dom σ) in
  imported σ0
    (<[data := Rows (xs.*1 ++ [l])]> (<[l := Row cs]> σ)) data
    (xs ++ [(l, cs)]).
Proof.
  intros (Hnew & Hdata & Hxs & Hnodup & Hfresh & Hframe) l.
  pose proof (fresh_None σ) as Hl. fold l in Hl.
  assert (l ≠ data) as Hne by congruence.
  assert (l ∉ xs.*1) as Hnotin.
  { intros ([l' cs'] & -> & Hin)%list_elem_of_fmap.
    unfold rows_ok in Hxs. rewrite Forall_forall in Hxs.
    specialize (Hxs _ Hin). simpl in *. congruence. }
  unfold imported. rewrite fmap_app. csimpl. split_and!.
  - done.
  - apply lookup_insert_eq.
  - unfold rows_ok. apply Forall_app. split.
    + eapply Forall_impl; [exact Hxs|]. intros [l' cs'] Hrow. simpl in *.
      rewrite lookup_insert_ne by congruence.
      rewrite lookup_insert_ne by congruence. done.
    + constructor; [|constructor]. simpl.
      rewrite lookup_insert_ne by congruence. apply lookup_insert_eq.
  - apply NoDup_app. split_and!; [done | | apply NoDup_singleton].
    intros l' Hl' ->%list_elem_of_singleton. done.
  - apply Forall_app. split; [done|]. constructor; [|constructor].
    destruct (σ0 !! l) as [o|] eqn:Ho; [|done].
    rewrite <-Hframe in Ho by eauto. congruence.
  - intros l' Hl'. rewrite lookup_insert_ne by (destruct Hl'; congruence).
    rewrite lookup_insert_ne; [by apply Hframe|].
    intros <-. rewrite <-Hframe in Hl' by done. destruct Hl'. congruence.
Qed.

Lemma extend_run σ0 σ data xs (rows : list (list cell)) :
  imported σ0 σ data xs →
  ∃ new σ',
    extend data rows σ = Ok () σ'
    ∧ new.*2 = rows
    ∧ imported σ0 σ' data (xs ++ new).
Proof.
  revert σ xs. induction rows as [|cs rows IH]; intros σ xs Himp.
  { exists [], σ. by rewrite app_nil_r. }
  pose proof (imported_snoc _ _ _ _ cs Himp) as Hstep. cbv zeta in Hstep.
  destruct (IH _ _ Hstep) as (new & σ' & Hrun & Hnew & Himp').
  exists ((fresh (dom σ), cs) :: new), σ'. split_and!.
  - unfold extend in *. simpl. rewrite bind_run, bind_run.
    unfold new_row at 1. cbv zeta.
    destruct Himp as (_ & Hdata & _).
    erewrite append_run by (rewrite lookup_insert_ne; [done|];
      pose proof (fresh_None σ); congruence).
    exact Hrun.
  - csimpl. by rewrite Hnew.
  - by rewrite <-app_assoc in Himp'.
Qed.

Lemma import_file_run σ0 σ data xs f :
  imported σ0 σ data xs →
  ∃ new σ',
    import_file data f σ = Ok (file_errors f) σ'
    ∧ new.*2 = file_rows f
    ∧ imported σ0 σ' data (xs ++ new).
Proof.
  intros Himp.
  assert (∀ rows : list (list cell), ∃ new σ',
    (extend data rows;; mret []) σ = Ok ([] : list (widget cell)) σ'
    ∧ new.*2 = rows ∧ imported σ0 σ' data (xs ++ new)) as Hextend.
  { intros rows. destruct (extend_run _ _ _ _ rows Himp)
      as (new & σ' & Hrun & Hnew & Himp').
    exists new, σ'. split_and!; [|done..]. by rewrite bind_run, Hrun. }
  assert (∀ shown : list (widget cell), ∃ new σ',
    (mret shown : M cell _) σ = Ok shown σ'
    ∧ new.*2 = [] ∧ imported σ0 σ' data (xs ++ new)) as Hnone.
  { intros shown. exists [], σ. by rewrite app_nil_r. }
  unfold import_file, file_errors, file_rows, parse. cbv zeta.
  destruct (endswith (name f) ".xls" || endswith (name f) ".xlsx").
  { destruct (read_excel f) as [rows|e]; [apply Hextend | apply Hnone]. }
  destruct (endswith (name f) ".csv"); [|apply Hnone].
  destruct (decode _ _) as [text|e]; [|apply Hnone].
  destruct (read_csv text) as [rows|e]; [apply Hextend | apply Hnone].
Qed.

Lemma import_data_run files σ :
  ∃ xs σ',
    import_data files σ
    = Ok (fresh (dom σ), concat (file_errors <$> files)) σ'
    ∧ xs.*2 = concat (file_rows <$> files)
    ∧ imported σ σ' (fresh (dom σ)) xs.
Proof.
  unfold import_data. rewrite bind_run. unfold new_list at 1. cbv zeta.
  pose proof (imported_new_list σ) as Himp.
  revert Himp. generalize (<[fresh (dom σ) := Rows []]> σ) as σ1.
  generalize (fresh (dom σ)) as data. intros data σ1 Himp.
  rewrite bind_run.
  match goal with
  | |- context [for_each _ ?b _ _] => set (body := b)
  end.
  assert (∀ xs errors σ1, imported σ σ1 data xs →
    ∃ new σ',
      for_each files body errors σ1
      = Ok (errors ++ concat (file_errors <$> files)) σ'
      ∧ new.*2 = concat (file_rows <$> files)
      ∧ imported σ σ' data (xs ++ new)) as Hloop.
  { clear σ1 Himp. induction files as [|f files IH]; intros xs errors σ1 Himp.
    { exists [], σ1. by rewrite !app_nil_r. }
    destruct (import_file_run _ _ _ _ f Himp)
      as (new1 & σ2 & Hrun & Hnew1 & Himp2).
    destruct (IH _ (errors ++ file_errors f) _ Himp2)
      as (new2 & σ' & Hrest & Hnew2 & Himp').
    exists (new1 ++ new2), σ'. split_and!.
    - simpl. rewrite bind_run. unfold body at 1.
      rewrite bind_run, Hrun, mret_run. csimpl.
      rewrite app_assoc. exact Hrest.
    - rewrite fmap_app, Hnew1, Hnew2. done.
    - by rewrite app_assoc. }
  destruct (Hloop [] [] σ1 Himp) as (new & σ' & Hrun & Hnew & Himp').
  exists new, σ'. by rewrite Hrun, mret_run.
Qed.

(** [import_data] never fails.  The table it returns holds the rows of
    the files the libraries could read, file after file in the order of
    the upload; every other file adds no row and one message, [Unsupported
    file format] for a name with none of the three suffixes and [Error
    importing] with the text of the exception otherwise. *)
Theorem import_data_result files σ :
  ∃ data σ',
    import_data files σ = Ok (data, concat (file_errors <$> files)) σ'
    ∧ table_of σ' data = Some (concat (file_rows <$> files)).
Proof.
  destruct (import_data_run files σ) as (xs & σ' & Hrun & Hrows & Himp).
  eexists _, _. split; [done|].
  rewrite <-Hrows. by eapply imported_table_of.
Qed.

(** A CSV file whose encoding [chardet] cannot tell is not imported:
    [decode] is called with [None], and when it rejects that, as Python
    does, the file adds no row and the message names the exception. *)
Theorem import_data_undetected_encoding f e σ :
  endswith (name f) ".csv" = true →
  chardet_detect (content f) = None →
  decode (content f) None = Thrown e →
  ∃ data σ',
    import_data [f] σ
    = Ok (data, [st_error ("Error importing " +:+ name f +:+ ": " +:+ e)])
        σ'
    ∧ table_of σ' data = Some [].
Proof.
  intros Hcsv Hdetect Hdecode.
  destruct (import_data_run [f] σ) as (xs & σ' & Hrun & Hrows & Himp).
  apply imported_table_of in Himp as Htable. rewrite Hrows in Htable.
  eexists _, σ'. revert Hrun Htable. csimpl. rewrite !app_nil_r.
  unfold file_errors, file_rows, parse, detect_encoding. cbv zeta.
  rewrite (endswith_csv_not_excel _ Hcsv), Hcsv, Hdetect, Hdecode. done.
Qed.

End import_proofs.

(** ** The script *)

Section script_proofs.
Context {cell : Type} `{!Str cell} `{!Infer cell}.
Context (read_excel : uploaded_file → attempt (list (list cell))).
Context (read_csv : string → attempt (list (list cell))).
Context (chardet_detect : list N → option string).
Context (decode : list N → option string → attempt string).
Context (to_excel : list (list cell) → attempt (list N)).
Context (to_csv : list (list cell) → attempt (list N)).
Implicit Types (σ : store cell) (T : list (list cell)).
Implicit Types (xs : list (loc * list cell)) (f : uploaded_file).

Local Abbreviation import_data :=
  (import_data read_excel read_csv chardet_detect decode).
Local Abbreviation file_rows :=
  (file_rows read_excel read_csv chardet_detect decode).
Local Abbreviation file_errors :=
  (file_errors read_excel read_csv chardet_detect decode).
Local Abbreviation script :=
  (script read_excel read_csv chardet_detect decode to_excel to_csv).
Local Abbreviation button_handler := (button_handler to_excel to_csv).

Lemma frame_of_run σ data T :
  table_of σ data = Some T → frame_of data σ = Ok T σ.
Proof.
  intros (xs & Hdata & <- & Hxs)%table_of_rows.
  unfold frame_of. rewrite bind_run, (items_run _ _ _ Hdata).
  match goal with
  | |- context [for_each _ ?body _ _] =>
      assert (∀ acc, for_each xs.*1 body acc σ = Ok (acc ++ xs.*2) σ) as ->
  end; [|done].
  clear Hdata. induction Hxs as [|[l cs] xs Hrow _ IH]; intros acc; csimpl.
  { by rewrite app_nil_r. }
  simpl in Hrow. rewrite !bind_run. unfold cells at 1. rewrite Hrow.
  rewrite mret_run, IH. by rewrite <-app_assoc.
Qed.

Lemma slice_to_table σ data xs n :
  σ !! data = Some (Rows xs.*1) → rows_ok σ xs →
  let σ' := <[fresh (dom σ) := Rows (take n xs.*1)]> σ in
  slice_to data n σ = Ok (fresh (dom σ)) σ'
  ∧ table_of σ' (fresh (dom σ)) = Some (take n xs.*2)
  ∧ table_of σ' data = Some xs.*2.
Proof.
  intros Hdata Hxs σ'. pose proof (fresh_None σ) as Hfresh.
  split_and!.
  - unfold slice_to. by rewrite Hdata.
  - rewrite <-!fmap_take. apply rows_table_of.
    + subst σ'. by rewrite lookup_insert_eq, fmap_take.
    + apply rows_ok_insert; [|by left]. by apply Forall_take.
  - apply table_of_insert_fresh; [|done]. by apply rows_table_of.
Qed.

Local Abbreviation imported_rows files := (concat (file_rows <$> files)).
Local Abbreviation import_errors files := (concat (file_errors <$> files)).

Lemma script_run f files number pressed σ :
  let T := imported_rows (f :: files) in
  let before :=
    page_header ++ page_import (f :: files) (import_errors (f :: files)) in
  ∃ data σ1 σ2,
    table_of σ1 data = Some T
    ∧ table_of σ2 data = Some T
    ∧ script (f :: files) number pressed σ
      = match T with
        | [] => Ok before σ1
        | _ :: _ =>
            let page := before ++ page_controls (take 10 T) in
            if pressed then
              match button_handler data (number - 1) σ2 with
              | Ok shown σ3 => Ok (page ++ (st_widget <$> shown)) σ3
              | Raise e => Raise e
              end
            else Ok page σ2
        end.
Proof.
  intros T before.
  destruct (import_data_run read_excel read_csv chardet_detect decode
              (f :: files) σ) as (xs & σ1 & Hrun & Hrows & Himp).
  fold T in Hrows.
  pose proof (imported_table_of _ _ _ _ Himp) as HT. rewrite Hrows in HT.
  destruct Himp as (_ & Hdata & Hxs & _).
  destruct (slice_to_table σ1 _ xs 10 Hdata Hxs) as (Hslice & Hpre & HT2).
  rewrite Hrows in Hpre, HT2.
  eexists (fresh (dom σ)), σ1, _. split_and!; [exact HT | exact HT2 |].
  unfold script. rewrite bind_run, Hrun. cbv zeta.
  rewrite bind_run, (len_rows_run _ _ _ Hdata).
  rewrite length_fmap, <-(length_fmap snd xs), Hrows.
  destruct T as [|row T'] eqn:HTeq.
  { simpl. rewrite mret_run. reflexivity. }
  rewrite decide_False by done.
  rewrite bind_run, Hslice, bind_run, (frame_of_run _ _ _ Hpre).
  subst before. unfold page_header, page_import, page_controls.
  rewrite <-!app_assoc. simpl.
  destruct pressed; [|by rewrite mret_run].
  rewrite bind_run. destruct (button_handler _ _ _) as [shown σ3|e];
    [|done].
  rewrite mret_run. by rewrite <-!app_assoc.
Qed.

(** The script's own indexing and lookups never fail, whatever is
    uploaded, typed and pressed: a run returns the page, unless the button
    is pressed and the Excel writer throws on the deduplicated table, and
    then the run raises what the writer threw.  In particular [data[0]],
    which raises [IndexError] on an empty table, is reached only with rows
    imported. *)
Theorem script_raises_only_in_export files number pressed σ :
  (∃ page σ', script files number pressed σ = Ok page σ')
  ∨ (pressed = true
     ∧ ∃ e,
         to_excel (keep_last (row_key fingerprint (Z.to_nat (number - 1)))
                     (imported_rows files))
         = Thrown e
         ∧ script files number pressed σ = Raise (LibraryError e)).
Proof.
  destruct files as [|f files]; [left; by eexists _, _|].
  destruct (script_run f files number pressed σ)
    as (data & σ1 & σ2 & _ & HT & ->).
  destruct (imported_rows (f :: files)) as [|first_row rest];
    [left; by eexists _, _|].
  cbv zeta. destruct pressed; [|left; by eexists _, _].
  destruct (button_handler_cases to_excel to_csv _ _ _ _ (number - 1) HT)
    as [[_ ->]|[(_ & _ & ->)
               |(_ & _ & values & report & ls & _ & _ & ->)]];
    [left; by eexists _, _..|].
  destruct (to_excel _) as [processed_data|e] eqn:Hwrite;
    [left; by eexists _, _|].
  right. split; [done|]. by exists e.
Qed.

(** When no file yields a row, the page is the title, the description and
    the uploader, followed, if files were uploaded, by the list of selected
    files and the messages of the import, and nothing else: no preview, no
    number input, no button, and nothing of the handler, even if the
    button is reported as pressed. *)
Theorem script_nothing_imported files number pressed σ :
  imported_rows files = [] →
  ∃ σ',
    script files number pressed σ
    = Ok (page_header
          ++ match files with
             | [] => []
             | _ :: _ => page_import files (import_errors files)
             end) σ'.
Proof.
  intros Hnone. destruct files as [|f files]; [by eexists|].
  destruct (script_run f files number pressed σ)
    as (data & σ1 & σ2 & _ & _ & ->).
  rewrite Hnone. by eexists.
Qed.

(** When rows were imported, the page is, in this order: the title, the
    description and the uploader; the list of selected files and the
    messages of the import; the preview line, one dataframe with the first
    ten rows of the imported table, the number input and the button.  If
    the button is pressed, what the handler shows for the imported table
    and the number less one follows, and the run raises exactly when the
    handler does. *)
Theorem script_preview files number pressed σ :
  imported_rows files ≠ [] →
  let page :=
    page_header ++ page_import files (import_errors files)
    ++ page_controls (take 10 (imported_rows files)) in
  ∃ data σ2,
    table_of σ2 data = Some (imported_rows files)
    ∧ script files number pressed σ
      = if pressed then
          match button_handler data (number - 1) σ2 with
          | Ok shown σ3 => Ok (page ++ (st_widget <$> shown)) σ3
          | Raise e => Raise e
          end
        else Ok page σ2.
Proof.
  intros Hsome page. destruct files as [|f files]; [done|].
  destruct (script_run f files number pressed σ)
    as (data & σ1 & σ2 & _ & HT & ->).
  exists data, σ2. split; [done|].
  destruct (imported_rows (f :: files)) as [|first_row rest]; [done|].
  subst page. cbv zeta. by rewrite !app_assoc.
Qed.

(** With the button pressed and a number of 1 or more, as the number
    input gives, what follows the button is the message that the column
    does not exist exactly when the number exceeds the width of the first
    imported row; the rows after the first play no part in the check.  The
    run returns the page, unless the number is within the width and the
    Excel writer throws on the deduplicated table. *)
Theorem script_column_check files number σ first_row rest :
  imported_rows files = first_row :: rest →
  (1 ≤ number)%Z →
  (∃ before shown σ',
      script files number true σ
      = Ok (before ++ st_button "Detect and Remove Duplicates"
                      :: (st_widget <$> shown)) σ'
      ∧ (shown = [st_error "The selected column does not exist."]
         ↔ (Z.of_nat (length first_row) < number)%Z))
  ∨ ((number ≤ Z.of_nat (length first_row))%Z
     ∧ ∃ e,
         to_excel (keep_last (row_key fingerprint (Z.to_nat (number - 1)))
                     (first_row :: rest))
         = Thrown e
         ∧ script files number true σ = Raise (LibraryError e)).
Proof.
  intros HTeq Hnumber. destruct files as [|f files]; [done|].
  destruct (script_run f files number true σ)
    as (data & σ1 & σ2 & _ & HT & ->).
  rewrite HTeq in HT |- *. cbv zeta.
  assert (∀ shown : list (widget cell),
    ((page_header ++ page_import (f :: files) (import_errors (f :: files)))
     ++ page_controls (take 10 (first_row :: rest)))
    ++ (st_widget <$> shown)
    = ((page_header
        ++ page_import (f :: files) (import_errors (f :: files)))
       ++ [st_write "Preview of imported data:";
           st_dataframe (take 10 (first_row :: rest));
           st_number_input
             "Column number to process (1 for the first column)" 1 1])
      ++ st_button "Detect and Remove Duplicates" :: (st_widget <$> shown))
    as Hassoc.
  { intros shown. unfold page_controls. by rewrite <-!app_assoc. }
  destruct (button_handler_cases to_excel to_csv _ _ _ _ (number - 1) HT)
    as [[Hout ->]|[(Hin & _ & ->)
                  |(Hin & _ & values & report & ls & _ & _ & ->)]].
  - left. rewrite Hassoc. eexists _, _, _. split; [done|].
    split; [lia | done].
  - left. rewrite Hassoc. eexists _, _, _. split; [done|].
    split; [done | lia].
  - destruct (to_excel _) as [processed_data|e] eqn:Hwrite.
    + left. rewrite Hassoc. eexists _, _, _. split; [done|].
      split; [done | lia].
    + right. split; [lia|]. by exists e.
Qed.

(** From upload to download: with the button pressed and a column within
    the first imported row, the page ends with [No duplicates detected]
    when no two imported rows carry the same fingerprint at the column.
    Otherwise the Excel writer is given the imported table reduced to the
    last row of each fingerprint, in the order of the import: the page
    ends with the download of the bytes it gives, and the run raises what
    it throws. *)
Theorem script_end_to_end files number σ first_row rest :
  let T := first_row :: rest in
  let c := Z.to_nat (number - 1) in
  imported_rows files = T →
  (1 ≤ number ≤ Z.of_nat (length first_row))%Z →
  ((∀ h, ¬ duplicated fingerprint T c h) →
   ∃ page σ',
     script files number true σ = Ok page σ'
     ∧ last page = Some (st_widget (st_info "No duplicates detected.")))
  ∧ ((∃ h, duplicated fingerprint T c h) →
     ∃ T',
       keeps_last_of_each fingerprint T c T'
       ∧ one_row_per_key fingerprint T c T'
       ∧ match to_excel T' with
         | Returned processed_data =>
             ∃ page σ',
               script files number true σ = Ok page σ'
               ∧ last page
                 = Some (st_widget
                           (st_download_button
                              "Download data without duplicates"
                              (Some processed_data)
                              "data_without_duplicates.xlsx"
                              "application/octet-stream"))
         | Thrown e => script files number true σ = Raise (LibraryError e)
         end).
Proof.
  intros T c HTeq Hnumber. destruct files as [|f files]; [done|].
  destruct (script_run f files number true σ)
    as (data & σ1 & σ2 & _ & HT & ->).
  rewrite HTeq in HT |- *. subst T. cbv zeta.
  destruct (button_handler_cases to_excel to_csv _ _ _ _ (number - 1) HT)
    as [[Hout _]|[(_ & Hnil & ->)
                 |(_ & Hsome & values & report & ls & _ & _ & ->)]];
    [lia | |]; fold c in Hnil || fold c in Hsome.
  - split.
    + intros _. eexists _, _. split; [done|]. by rewrite last_app.
    + intros [h Hh%tally_two%duplicates_of_keys]. rewrite Hnil in Hh.
      by apply elem_of_nil in Hh.
  - split.
    + intros Hno. destruct (duplicates_of (first_row :: rest) c)
        as [|[h n] dups] eqn:Hd; [done|].
      destruct (Hno h). apply tally_two, duplicates_of_keys. rewrite Hd.
      unfold dict_keys. csimpl. apply list_elem_of_here.
    + intros _. exists (keep_last (row_key fingerprint c) (first_row :: rest)).
      split_and!;
        [apply keep_last_keeps_last_of_each
        | apply keep_last_one_row_per_key |].
      fold c. destruct (to_excel _) as [processed_data|e]; [|done].
      eexists _, _. split; [done|]. by rewrite last_app.
Qed.

End script_proofs.

(** * The further properties, on the scenarios *)

Lemma remove_duplicates_nothing_to_remove_witness :
  ∃ out σ' T',
    remove_duplicates the_table 1 (load scenario1) = Ok out σ'
    ∧ table_of σ' out = Some T'
    ∧ (T' = filter (λ row, 1 < length row) scenario1
       ↔ detect_duplicates the_table 1 (load scenario1)
         = Ok [] (load scenario1)).
Proof.
  apply (remove_duplicates_nothing_to_remove _ _ scenario1). reflexivity.
Defined.

Lemma detect_duplicates_after_remove_witness :
  ∃ out σ',
    remove_duplicates the_table 1 (load scenario1) = Ok out σ'
    ∧ detect_duplicates out 1 σ' = Ok [] σ'.
Proof.
  apply (detect_duplicates_after_remove _ _ scenario1). reflexivity.
Defined.

Lemma remove_duplicates_shares_rows_witness :
  ∃ out σ' ls ls',
    remove_duplicates the_table 1 (load scenario1) = Ok out σ'
    ∧ load scenario1 !! the_table = Some (Rows ls)
    ∧ σ' !! out = Some (Rows ls')
    ∧ ls' `sublist_of` ls
    ∧ ∀ l, l ∈ ls' → σ' !! l = load scenario1 !! l.
Proof.
  apply (remove_duplicates_shares_rows _ _ scenario1). reflexivity.
Defined.

Lemma detect_duplicates_entries_witness :
  ∃ dups,
    detect_duplicates the_table 1 (load scenario1) = Ok dups (load scenario1)
    ∧ NoDup (dict_keys dups)
    ∧ ∀ h n, (h, n) ∈ dups ↔ n = tally scenario1 1 h ∧ 2 ≤ n.
Proof. apply detect_duplicates_entries. reflexivity. Defined.

Lemma detect_duplicates_row_order_witness :
  ∃ dups1 dups2,
    detect_duplicates the_table 1 (load scenario1)
    = Ok dups1 (load scenario1)
    ∧ detect_duplicates the_table 1 (load (reverse scenario1))
      = Ok dups2 (load (reverse scenario1))
    ∧ dups1 ≡ₚ dups2.
Proof.
  apply (detect_duplicates_row_order _ _ scenario1 _ _ (reverse scenario1));
    [reflexivity | reflexivity |].
  symmetry. apply reverse_Permutation.
Defined.

Lemma remove_duplicates_accounting_witness :
  ∃ dups report out σ' T',
    detect_duplicates the_table 1 (load scenario3) = Ok dups (load scenario3)
    ∧ generate_report dups the_table 1 (load scenario3)
      = Ok report (load scenario3)
    ∧ remove_duplicates the_table 1 (load scenario3) = Ok out σ'
    ∧ table_of σ' out = Some T'
    ∧ length scenario3
      = length T' + length (filter (λ row, length row ≤ 1) scenario3)
        + sum_list ((λ r, Count r - 1) <$> report).
Proof. apply remove_duplicates_accounting. reflexivity. Defined.

Lemma generate_report_order_witness :
  ∃ dups report firsts,
    detect_duplicates the_table 1 (load scenario1) = Ok dups (load scenario1)
    ∧ generate_report dups the_table 1 (load scenario1)
      = Ok report (load scenario1)
    ∧ Forall2 (λ r n, ∃ nums, listed_lines (Line_Numbers r) = Some nums
                              ∧ head nums = Some n) report firsts
    ∧ StronglySorted lt firsts.
Proof. apply (generate_report_order _ _ scenario1). reflexivity. Defined.

Lemma generate_report_lines_partition_witness :
  ∃ dups report,
    detect_duplicates the_table 1 (load scenario1) = Ok dups (load scenario1)
    ∧ generate_report dups the_table 1 (load scenario1)
      = Ok report (load scenario1)
    ∧ (∀ i, (∃ r nums, r ∈ report
                       ∧ listed_lines (Line_Numbers r) = Some nums
                       ∧ i + 1 ∈ nums)
            ↔ ∃ v, cell_at scenario1 1 i = Some v
                   ∧ 1 < tally scenario1 1 (fingerprint v))
    ∧ ∀ k k' r r' nums nums' n,
        report !! k = Some r → report !! k' = Some r' →
        listed_lines (Line_Numbers r) = Some nums →
        listed_lines (Line_Numbers r') = Some nums' →
        n ∈ nums → n ∈ nums' → k = k'.
Proof. apply generate_report_lines_partition. reflexivity. Defined.

Lemma button_handler_empty_table_witness :
  button_handler sample_to_excel sample_to_csv the_table 0 (load [])
  = Raise IndexError.
Proof.
  apply (button_handler_empty_table sample_to_excel sample_to_csv
           (load []) the_table 0).
  reflexivity.
Defined.


Lemma import_data_undetected_encoding_witness :
  ∃ data σ',
    import_data sample_read_excel sample_read_csv sample_chardet
      sample_decode [empty_csv] ∅
    = Ok (data,
          [st_error
             ("Error importing " +:+ name empty_csv +:+ ": "
              +:+ "decode() argument 'encoding' must be str, not None")])
        σ'
    ∧ table_of σ' data = Some [].
Proof.
  apply (import_data_undetected_encoding sample_read_excel sample_read_csv
           sample_chardet sample_decode empty_csv);
    reflexivity.
Defined.

Lemma script_nothing_imported_witness :
  ∃ σ',
    script sample_read_excel sample_read_csv sample_chardet sample_decode
      sample_to_excel sample_to_csv [empty_csv; notes] 1 true ∅
    = Ok (page_header
          ++ page_import [empty_csv; notes]
               (concat (file_errors sample_read_excel sample_read_csv
                          sample_chardet sample_decode
                        <$> [empty_csv; notes]))) σ'.
Proof.
  apply (script_nothing_imported sample_read_excel sample_read_csv
           sample_chardet sample_decode sample_to_excel sample_to_csv
           [empty_csv; notes] 1 true ∅).
  reflexivity.
Defined.

Lemma script_preview_witness :
  ∃ data σ2,
    table_of σ2 data
    = Some (concat (file_rows sample_read_excel sample_read_csv
                      sample_chardet sample_decode <$> [workbook]))
    ∧ script sample_read_excel sample_read_csv sample_chardet sample_decode
        sample_to_excel sample_to_csv [workbook] 1 false ∅
      = Ok (page_header
            ++ page_import [workbook]
                 (concat (file_errors sample_read_excel sample_read_csv
                            sample_chardet sample_decode <$> [workbook]))
            ++ page_controls
                 (take 10
                    (concat (file_rows sample_read_excel sample_read_csv
                               sample_chardet sample_decode
                             <$> [workbook])))) σ2.
Proof.
  apply (script_preview sample_read_excel sample_read_csv sample_chardet
           sample_decode sample_to_excel sample_to_csv [workbook] 1 false ∅).
  by vm_compute.
Defined.

Lemma script_column_check_witness :
  (∃ before shown σ',
      script sample_read_excel sample_read_csv sample_chardet sample_decode
        sample_to_excel sample_to_csv [workbook] 2 true ∅
      = Ok (before ++ st_button "Detect and Remove Duplicates"
                      :: (st_widget <$> shown)) σ'
      ∧ (shown = [st_error "The selected column does not exist."]
         ↔ (Z.of_nat (length [PyInt 1]) < 2)%Z))
  ∨ ((2 ≤ Z.of_nat (length [PyInt 1]))%Z
     ∧ ∃ e,
         sample_to_excel
           (keep_last (row_key fingerprint (Z.to_nat (2 - 1)))
              [[PyInt 1]; [PyInt 2]; [PyInt 1]])
         = Thrown e
         ∧ script sample_read_excel sample_read_csv sample_chardet
             sample_decode sample_to_excel sample_to_csv [workbook] 2 true ∅
           = Raise (LibraryError e)).
Proof.
  apply (script_column_check sample_read_excel sample_read_csv
           sample_chardet sample_decode sample_to_excel sample_to_csv
           [workbook] 2 ∅ [PyInt 1] [[PyInt 2]; [PyInt 1]]);
    [reflexivity | lia].
Defined.

Lemma script_end_to_end_witness :
  ((∀ h, ¬ duplicated fingerprint [[PyInt 1]; [PyInt 2]; [PyInt 1]] 0 h) →
   ∃ page σ',
     script sample_read_excel sample_read_csv sample_chardet sample_decode
       sample_to_excel sample_to_csv [workbook] 1 true ∅
     = Ok page σ'
     ∧ last page = Some (st_widget (st_info "No duplicates detected.")))
  ∧ ((∃ h, duplicated fingerprint [[PyInt 1]; [PyInt 2]; [PyInt 1]] 0 h) →
     ∃ T',
       keeps_last_of_each fingerprint [[PyInt 1]; [PyInt 2]; [PyInt 1]] 0 T'
       ∧ one_row_per_key fingerprint [[PyInt 1]; [PyInt 2]; [PyInt 1]] 0 T'
       ∧ match sample_to_excel T' with
         | Returned processed_data =>
             ∃ page σ',
               script sample_read_excel sample_read_csv sample_chardet
                 sample_decode sample_to_excel sample_to_csv [workbook] 1
                 true ∅
               = Ok page σ'
               ∧ last page
                 = Some (st_widget
                           (st_download_button
                              "Download data without duplicates"
                              (Some processed_data)
                              "data_without_duplicates.xlsx"
                              "application/octet-stream"))
         | Thrown e =>
             script sample_read_excel sample_read_csv sample_chardet
               sample_decode sample_to_excel sample_to_csv [workbook] 1
               true ∅
             = Raise (LibraryError e)
         end).
Proof.
  apply (script_end_to_end sample_read_excel sample_read_csv
           sample_chardet sample_decode sample_to_excel sample_to_csv
           [workbook] 1 ∅ [PyInt 1] [[PyInt 2]; [PyInt 1]]);
    [reflexivity | simpl; lia].
Defined.
